(* ===== verification/_CoqProject ===== *)
-Q . S2P
Prelude.v
JsString.v
JsValue.v
Json.v
Lanyard.v
Normalize.v
Dynamic.v
Fetch.v
Scheduler.v
Answer.v
Render.v
Widget.v
