(* ===== verification/Prelude.v ===== *)
(** * Verification of the Lanyard presence widget (src/src/LanyardProfile.tsx)

    The program is one React component, [LanyardProfile].  Every second it
    asks the Lanyard presence service for the state of one Discord user,
    turns the payload into a display record ([ProfileData]) and renders
    it.  It has three parts, which the specification calls the presence
    fetcher, the poll scheduler and the view renderer:

    - [fetchUserData] (lines 95-144) awaits the request and its body,
      selects the activity to show, builds the display record and stores
      it with [setProfileData]; whatever is thrown on the way is caught
      and logged;
    - the effect of [useEffect] (lines 146-154) calls [fetchUserData]
      once, registers a timer that calls it every second, and clears the
      timer when the component is unmounted;
    - [getStatusStyles] (lines 156-190) and the markup the component
      returns (lines 192-246) turn the display record into a tree of
      elements.

    ** Files, in dependency order

    - [Prelude] (this file): what all files share.  The algebra of
      [string] under [+:+], a lemma on lists, the rewrite database [js],
      the tactics [str_simpl], [in_list] and [js_crush].
    - [JsString]: the string methods the program calls, from the language
      definition: [includes], [split] with a separator (by [cut], the
      first occurrence, and the loop [split_go]), the index expression
      [a[1]] ([nth1]), and [join] as the inverse of [split].
    - [JsValue]: the values and operators of the language the program
      uses on operands that may be undefined or null: [ToBoolean],
      [ToString], [||], [&&], [!], [?.] and the substitution of a template
      literal.  The class [ToJs] embeds typed operands into untyped
      values; the typed operators [truthy], [tmpl], [js_or] and
      [null_chain] are what the model of the program is written with, and
      are proved to agree with the untyped ones.
    - [Json]: the values of JSON, the completion of an expression (a
      value or a throw) as a monad, and the operations of the language on
      values of any shape: property reads that throw on [undefined] and
      [null], [?.], [ToBoolean], [ToString] (which throws on an object
      that has a property [toString] of its own, and on an array that
      holds one), and the methods [find], [includes] and [split] on every
      kind of receiver.
    - [Lanyard]: the interfaces of lines 8-77, one module per interface
      with a record [t] whose fields keep the names of the source (the
      field [end] is [end_]), the two assignments to fields of
      [currentData.activity], the initial view state of [useState], and
      the payloads [Samples] the theorems are applied to.
    - [Normalize]: lines 100-136 of [fetchUserData].  [currentActivity] is
      the call of [find], [currentData] the object literal, [setBigImage]
      and [setSmallImage] the two [if] statements that assign to it,
      [normalize] their composition in the order of the code.
    - [Dynamic]: the same lines 98-136 read without the types, on a
      value of JSON of any shape ([normalize_dyn], [of_body]), in the
      monad of completions: every property read, method call and
      substitution of a template is a step that may throw, in the order
      of the source.  [encode] writes a typed payload as JSON and
      [untyped] a typed view state as the values it holds at run time;
      [ill_shaped] lists, by their shape, the payloads on which the
      lines throw.
    - [Fetch]: the rest of [fetchUserData].  [outcome] lists the ways the
      two awaits and the destructuring end; [fetchUserData] is the effect
      of a call on the cell of [useState] and on the console once its
      outcome is known: [setProfileData] with the spread of line 137 when
      it is fulfilled, [console.error] and nothing else when it fails.
    - [Scheduler]: the effect of [useEffect] as a labelled transition
      system over one instance of the component, with the events [Mount],
      [Tick], [Settle i o] (the pending call [i] ends with outcome [o])
      and [Unmount].  [exec] is the transition function, [step] the
      relation, [reachable] its closure, [inv] the invariant.  The
      scheduler sees the fetcher through the class [Fetcher] only.
    - [Answer]: [fetchUserData] at run time, from what the service sent
      (nothing, a body that is not JSON, a value of JSON), and the
      relation [abstracts] between the outcomes of [Fetch] and the answers
      they stand for.
    - [Render]: [getStatusStyles] and the markup, card by card, as a tree
      [node]; the tree is observed by identifier ([getElementById],
      [displayed], [text_at], [src_at]) and, for the elements that have
      none (the frame of the activity card, the titles), by the text the
      page shows ([visible_text]).
    - [Widget]: the instance of [Fetcher] for the fetcher of [Fetch], the
      component [LanyardProfile] as the initial state of the loop (and
      [LanyardProfile_untyped], the same at run time), and [screen], the
      markup of a state of the loop.  The theorems of [Scheduler] are
      applied here to runs of the real widget.

    ** What the theorems show

    - [JsString]: [includes] holds exactly of the strings that contain
      the needle; the pieces of a split contain no separator and joined
      by the separator give back the string; element 1 of a split is the
      text between the first two separators.
    - [Normalize]: the view state in closed form ([normalize_eq]) and,
      from it, each statement of the specification on payloads: the
      offline user, the Spotify image, the proxied image, the app asset,
      the user with no activity, which fields can be undefined, and what
      an image with a malformed marker resolves to.
    - [Dynamic]: on the JSON of a typed payload the untyped reading does
      not throw and computes what [normalize] computes
      ([normalize_dyn_encode]); it throws exactly on the payloads that
      [ill_shaped] lists ([normalize_dyn_throws]): no [data],
      [activities] that is not an array, a [null] before the activity to
      show, a user, a status line or an image that cannot be read or
      converted to text.  The proof goes stage by stage
      ([currentActivity_throws], [currentData_throws],
      [setBigImage_throws], [setSmallImage_throws]).
    - [Fetch]: a failed call changes nothing but the console; a fulfilled
      call replaces the whole view state; after a sequence of calls the
      view state is that of the last fulfilled one.
    - [Answer]: the typed call and the call at run time do the same to
      the state, for every outcome and every answer it stands for; on
      an ill-shaped body the call logs one error and changes nothing
      else.
    - [Scheduler]: the invariant (the timer is registered exactly while
      the instance is mounted, at most one timer, pending calls distinct
      and started) holds in every reachable state; nothing is started
      after the unmount; every call started is pending or has ended once;
      a stale answer can overwrite a newer one, and a call can write
      after the unmount.
    - [Render]: the style of the dot for each status; which elements are
      displayed and with which text, address and style, and which lines
      of text the page shows, for every view state.
    - [Widget]: over every schedule the view state and the screen are
      those of the call that was fulfilled last; the typed widget and the
      widget at run time go through the same states under every schedule
      ([Scheduler.exec_all_sim] instantiated); what the screen shows for
      an offline user, for a user with no activity, and as long as no
      call has been fulfilled.

    ** Bounds

    The loop of [split] is the only recursion that is not structural.
    [split_go] takes a number of rounds; [split] gives it the length of
    the string, which is enough because every round removes at least one
    character when the separator is not empty ([JsString.cut_length]).
    [JsString.split_go_fuel] shows that any larger number gives the same
    result, so no theorem depends on the bound.

    ** Conventions

    - A JavaScript string is modelled by [string], a sequence of 8-bit
      units.  The program only searches for and splits on ASCII needles and
      concatenates, and these operations commute with the UTF-8 encoding of
      a UTF-16 string, so the unit width does not change any result the
      program computes.
    - A JavaScript [number] is modelled by [Z]: the program never computes
      with numbers, it only compares an activity's type code with the
      literal 4.  The one number that is not an integer is the opacity
      0.5 of [getStatusStyles], a [Q].
    - An optional field [f?: T] is [option T], with [None] for [undefined];
      [T | null] is [nullable T].
    - An asynchronous call is an event of the loop when it starts and
      another one when it ends; what happens in between is not observed.

    ** What is not modelled

    - The numbers of a payload are the integers the number type holds
      exactly (of magnitude up to 2^53), which [ToString] prints in
      decimal, digit by digit; a number with a fraction, or a larger
      one, is not a value of [Json.json].  The program compares one
      number with 4 and may print an [application_id] that is a number;
      whether it throws does not depend on how a number is printed.
    - The write of a call that ends after the unmount is applied to the
      state cell as any other write: what React does with a call of
      [setProfileData] on a component that is gone is not part of the
      sources.
    - The renderer is modelled on typed view states.  A payload that is
      not typed and does not make [fetchUserData] throw (a status that is
      an object, say) gives a view state that [Dynamic] computes and that
      [Render] does not render.
    - Time: a tick can happen at any moment while the timer is
      registered and a pending call can end at any moment, so every
      schedule of the event loop is a run of the model, and no theorem
      depends on the period of 1000 ms.
    - One instance of the component is mounted once; the second mount of
      React's strict mode is a second instance.
    - The React runtime, the style sheet and the assets module are not
      part of the sources: the loader image is a parameter, and of the
      style sheet only the class [hidden] is assumed to hide an
      element. *)

From Stdlib Require Export Ascii ZArith Lia.
From stdpp Require Export base tactics option list strings relations.

(** The database [js]: resolution hints for [eauto with js], and the
    rewrite rules that normalise string expressions. *)
Create HintDb js discriminated.
Create Rewrite HintDb js.

(** ** The algebra of strings under concatenation

    stdpp declares [String.app] with [simpl never]; these equations are
    the ones proofs rewrite with instead. *)
Section string_algebra.
Implicit Types (a : ascii) (s t u : string).

Lemma string_app_nil_l s : "" +:+ s = s.
Proof. reflexivity. Qed.

Lemma string_app_cons a s t : String a s +:+ t = String a (s +:+ t).
Proof. reflexivity. Qed.

Lemma string_app_nil_r s : s +:+ "" = s.
Proof. induction s as [|a s IH]; [done|]. by rewrite string_app_cons, IH. Qed.

Lemma string_app_assoc s t u : (s +:+ t) +:+ u = s +:+ t +:+ u.
Proof.
  induction s as [|a s IH]; [done|]. by rewrite !string_app_cons, IH.
Qed.

Lemma string_length_app s t :
  String.length (s +:+ t) = String.length s + String.length t.
Proof.
  induction s as [|a s IH]; [done|]. rewrite string_app_cons. simpl. lia.
Qed.

Lemma string_length_zero s : String.length s = 0 → s = "".
Proof. by destruct s. Qed.

Lemma string_app_eq_nil s t : s +:+ t = "" → s = "" ∧ t = "".
Proof. by destruct s. Qed.

Lemma string_app_inv_head s t u : s +:+ t = s +:+ u → t = u.
Proof. apply String.app_inj. Qed.

Lemma string_app_inv_tail s t u : s +:+ u = t +:+ u → s = t.
Proof.
  revert t. induction s as [|a s IH]; intros [|b t] E; [done| | |].
  - apply (f_equal String.length) in E.
    rewrite string_app_cons, string_app_nil_l in E. simpl in E.
    rewrite string_length_app in E. lia.
  - apply (f_equal String.length) in E.
    rewrite string_app_cons, string_app_nil_l in E. simpl in E.
    rewrite string_length_app in E. lia.
  - rewrite !string_app_cons in E. injection E as -> E. f_equal. by apply IH.
Qed.

(** Induction on the length of a string, for functions that recurse on a
    shorter string that is not a direct subterm. *)
Lemma string_length_ind (P : string → Prop) :
  (∀ s, (∀ t, String.length t < String.length s → P t) → P s) → ∀ s, P s.
Proof.
  intros IH s. induction (Nat.lt_wf_0_projected String.length s) as [s _ H].
  apply IH, H.
Qed.

End string_algebra.

#[export] Hint Rewrite string_app_nil_l string_app_cons string_app_nil_r
  string_app_assoc string_length_app : js.

(** ** Lists *)
Section lists.
Context {A : Type}.
Implicit Types (P Q : A → Prop) (l : list A).

Lemma Exists_iff_Forall P Q l :
  Forall (λ a, P a ↔ Q a) l → Exists P l ↔ Exists Q l.
Proof.
  induction 1 as [|a l Ha _ IH]; [by rewrite !Exists_nil|].
  by rewrite !Exists_cons, Ha, IH.
Qed.

Lemma bind_nil {B} (f : A → list B) : [] ≫= f = [].
Proof. done. Qed.

End lists.

(** ** Tactics *)

(** Normalise string expressions everywhere. *)
Ltac str_simpl := repeat (autorewrite with js in *; simpl in * ).

(** Membership in a list that is written out. *)
Ltac in_list :=
  repeat (rewrite ?not_elem_of_cons, ?elem_of_cons, ?elem_of_nil in * );
  intuition (try congruence).

(** Split on every [match] and [if] of the goal, then close with the
    database. *)
Ltac js_crush :=
  repeat (case_match || case_decide || case_bool_decide);
  simplify_eq/=; str_simpl; eauto with js.
