(* ===== verification/JsString.v ===== *)
(** * The string built-ins the component calls

    [includes] is [String.prototype.includes], [split] is
    [String.prototype.split] with a string separator and no limit, [nth1]
    is the index expression [a[1]] on its result.  [cut] is the search
    step both share (the position of the first occurrence, returned as the
    text before it and the text after it); [join] is
    [Array.prototype.join], used here only to state what [split]
    guarantees.

    [split] runs on fuel: one unit per separator found.  A separator that
    is not empty consumes at least one unit of the string each time, so the
    length of the string is always enough ([split_go_fuel]). *)

From S2P Require Import Prelude.

Module JsString.

(** [s.slice(n)] for [0 <= n]: [s] without its first [n] units. *)
Fixpoint str_drop (n : nat) (s : string) : string :=
  match n, s with
  | 0, _ => s
  | S _, "" => ""
  | S n', String _ s' => str_drop n' s'
  end.

(** [s.includes(sub)]: [sub] occurs in [s] at some position. *)
Fixpoint includes (s sub : string) : bool :=
  String.prefix sub s ||
  match s with
  | "" => false
  | String _ s' => includes s' sub
  end.

(** The first occurrence of [sep] in [s]: the text before it and the text
    after it, or [None] when [sep] does not occur. *)
Fixpoint cut (s sep : string) : option (string * string) :=
  if String.prefix sep s then Some ("", str_drop (String.length sep) s)
  else match s with
       | "" => None
       | String c s' => prod_map (String c) id <$> cut s' sep
       end.

(** The loop of [split] for a separator that is not empty. *)
Fixpoint split_go (fuel : nat) (s sep : string) : list string :=
  match fuel with
  | 0 => [s]
  | S fuel' =>
      match cut s sep with
      | None => [s]
      | Some (pre, rest) => pre :: split_go fuel' rest sep
      end
  end.

(** [s.split("")]: the units of [s], one string each. *)
Fixpoint chars (s : string) : list string :=
  match s with
  | "" => []
  | String c s' => String c "" :: chars s'
  end.

(** [s.split(sep)]. *)
Definition split (s sep : string) : list string :=
  match sep with
  | "" => chars s
  | _ => split_go (String.length s) s sep
  end.

(** [a[1]]: the second element, [None] for [undefined]. *)
Definition nth1 (a : list string) : option string := a !! 1.

(** [a.join(sep)]. *)
Fixpoint join (sep : string) (a : list string) : string :=
  match a with
  | [] => ""
  | [x] => x
  | x :: a' => x +:+ sep +:+ join sep a'
  end.

(** ** Prefixes and [str_drop] *)
Section prefix.
Implicit Types (a b : ascii) (s t p sub sep : string).

Lemma prefix_nil s : String.prefix "" s = true.
Proof. by destruct s. Qed.

Lemma prefix_cons a p b s :
  String.prefix (String a p) (String b s)
  = bool_decide (a = b) && String.prefix p s.
Proof. simpl. destruct (Ascii.ascii_dec a b); by case_bool_decide. Qed.

Lemma prefix_cons_nil a p : String.prefix (String a p) "" = false.
Proof. done. Qed.

Lemma prefix_app p t : String.prefix p (p +:+ t) = true.
Proof.
  induction p as [|a p IH]; [apply prefix_nil|].
  rewrite string_app_cons, prefix_cons, IH, bool_decide_eq_true_2; done.
Qed.

Lemma prefix_spec p s : String.prefix p s = true ↔ ∃ t, s = p +:+ t.
Proof.
  split; [|intros [t ->]; apply prefix_app].
  revert s. induction p as [|a p IH]; intros s H; [by exists s|].
  destruct s as [|b s]; [done|]. rewrite prefix_cons in H.
  apply andb_prop in H as [->%bool_decide_eq_true [t ->]%IH]. by exists t.
Qed.

Lemma str_drop_app p t : str_drop (String.length p) (p +:+ t) = t.
Proof. induction p as [|a p IH]; [by destruct t|done]. Qed.

Lemma str_drop_length n s :
  String.length (str_drop n s) = String.length s - n.
Proof. revert s. induction n as [|n IH]; intros [|a s]; simpl; auto. Qed.

Lemma prefix_drop p s :
  String.prefix p s = true → s = p +:+ str_drop (String.length p) s.
Proof. intros [t ->]%prefix_spec. by rewrite str_drop_app. Qed.

End prefix.

#[export] Hint Rewrite prefix_nil prefix_cons prefix_cons_nil prefix_app
  str_drop_app : js.
#[export] Hint Resolve prefix_app prefix_nil : js.

#[local] Arguments String.prefix : simpl never.

(** ** [includes] and [cut] *)
Section search.
Implicit Types (a b : ascii) (s t p pre rest sub sep : string).

Lemma prefix_app_r p s t :
  String.prefix p s = true → String.prefix p (s +:+ t) = true.
Proof.
  intros [u ->]%prefix_spec. by rewrite string_app_assoc, prefix_app.
Qed.

Lemma prefix_nil_r p : String.prefix p "" = bool_decide (p = "").
Proof. by destruct p. Qed.

Lemma includes_cons a s sub :
  includes (String a s) sub
  = String.prefix sub (String a s) || includes s sub.
Proof. done. Qed.

Lemma includes_nil_l sub : includes "" sub = bool_decide (sub = "").
Proof. by destruct sub. Qed.

Lemma includes_nil_r s : includes s "" = true.
Proof. destruct s; simpl; by rewrite ?prefix_nil. Qed.

Lemma includes_prefix s sub :
  String.prefix sub s = true → includes s sub = true.
Proof. destruct s; simpl; by intros ->. Qed.

Lemma includes_app s sub pre rest :
  s = pre +:+ sub +:+ rest → includes s sub = true.
Proof.
  intros ->. induction pre as [|a pre IH].
  - autorewrite with js. eauto using includes_prefix with js.
  - autorewrite with js. by rewrite includes_cons, IH, orb_true_r.
Qed.

Lemma includes_spec s sub :
  includes s sub = true ↔ ∃ pre rest, s = pre +:+ sub +:+ rest.
Proof.
  split; [|intros (pre & rest & E); by eapply includes_app].
  induction s as [|a s IH]; simpl; intros [H|H]%orb_prop; try done.
  - apply prefix_spec in H as [t E]. by exists "", t.
  - apply prefix_spec in H as [t E]. by exists "", t.
  - destruct (IH H) as (pre & rest & ->). by exists (String a pre), rest.
Qed.

Lemma cut_prefix s sep :
  String.prefix sep s = true
  → cut s sep = Some ("", str_drop (String.length sep) s).
Proof. destruct s; simpl; by intros ->. Qed.

Lemma cut_cons a s sep :
  String.prefix sep (String a s) = false
  → cut (String a s) sep = prod_map (String a) id <$> cut s sep.
Proof. simpl. by intros ->. Qed.

Lemma cut_nil sep : sep ≠ "" → cut "" sep = None.
Proof. by destruct sep. Qed.

Lemma cut_Some s sep pre rest :
  cut s sep = Some (pre, rest) → s = pre +:+ sep +:+ rest.
Proof.
  revert pre. induction s as [|a s IH]; intros pre; simpl;
    destruct (String.prefix sep _) eqn:P; try done;
    try (intros [= <- <-]; by apply prefix_drop in P).
  destruct (cut s sep) as [[pre' rest']|]; [|done].
  intros [= <- <-]. rewrite string_app_cons. f_equal. by apply IH.
Qed.

Lemma cut_None s sep : cut s sep = None ↔ includes s sep = false.
Proof.
  induction s as [|a s IH]; simpl; destruct (String.prefix sep _);
    simpl; try done.
  by rewrite fmap_None.
Qed.

Lemma cut_is_Some s sep : is_Some (cut s sep) ↔ includes s sep = true.
Proof.
  rewrite <-not_eq_None_Some, cut_None. by destruct (includes s sep).
Qed.

Lemma cut_length s sep pre rest :
  cut s sep = Some (pre, rest)
  → String.length s
    = String.length pre + String.length sep + String.length rest.
Proof. intros ->%cut_Some. autorewrite with js. lia. Qed.

(** The text before the first occurrence does not contain the needle. *)
Lemma cut_pre_free s sep pre rest :
  sep ≠ "" → cut s sep = Some (pre, rest) → includes pre sep = false.
Proof.
  intros Hsep. revert pre. induction s as [|a s IH]; intros pre; simpl;
    destruct (String.prefix sep _) eqn:P;
    try (intros [= <- <-]; rewrite includes_nil_l; by case_bool_decide);
    try done.
  destruct (cut s sep) as [[pre' rest']|] eqn:C; [|done].
  intros [= <- <-]. rewrite includes_cons, (IH pre') by done.
  apply cut_Some in C as ->. rewrite orb_false_r.
  destruct (String.prefix sep (String a pre')) eqn:Q; [|done].
  apply (prefix_app_r _ _ (sep +:+ rest')) in Q.
  by rewrite string_app_cons, P in Q.
Qed.

End search.

(** ** [split] *)
Section split.
Implicit Types (a b : ascii) (s t p pre rest sub sep : string).

Lemma split_go_S n s sep :
  split_go (S n) s sep = match cut s sep with
                         | None => [s]
                         | Some (pre, rest) => pre :: split_go n rest sep
                         end.
Proof. done. Qed.

(** Termination: any fuel that covers the length of the string gives the
    same result, so the loop never stops for lack of fuel. *)
Lemma split_go_fuel n m s sep :
  sep ≠ "" → String.length s ≤ n → String.length s ≤ m
  → split_go n s sep = split_go m s sep.
Proof.
  intros Hsep. revert m s.
  induction n as [|n IH]; intros [|m] s Hn Hm; rewrite ?split_go_S;
    try done.
  - apply Nat.le_0_r, string_length_zero in Hn as ->. by rewrite cut_nil.
  - apply Nat.le_0_r, string_length_zero in Hm as ->. by rewrite cut_nil.
  - destruct (cut s sep) as [[pre rest]|] eqn:C; [|done].
    apply cut_length in C. f_equal.
    apply IH; destruct sep; simpl in *; (done || lia).
Qed.

(** The equation of the loop: cut at the first separator, go on with the
    rest. *)
Lemma split_unfold s sep :
  sep ≠ ""
  → split s sep = match cut s sep with
                  | None => [s]
                  | Some (pre, rest) => pre :: split rest sep
                  end.
Proof.
  intros Hsep. unfold split. destruct sep as [|b sep]; [done|].
  destruct s as [|a s]; [by rewrite cut_nil|].
  simpl String.length. rewrite split_go_S.
  destruct (cut _ _) as [[pre rest]|] eqn:C; [|done].
  f_equal. apply cut_length in C. simpl in C.
  apply split_go_fuel; [done|lia|done].
Qed.

Lemma split_not_nil s sep : sep ≠ "" → split s sep ≠ [].
Proof.
  intros Hsep. rewrite split_unfold by done.
  by destruct (cut s sep) as [[??]|].
Qed.

Lemma join_cons sep (x : string) (l : list string) :
  l ≠ [] → join sep (x :: l) = x +:+ sep +:+ join sep l.
Proof. by destruct l. Qed.

Lemma join_chars s : join "" (chars s) = s.
Proof.
  induction s as [|a s IH]; [done|]. simpl chars.
  destruct s as [|b s]; [done|]. by rewrite join_cons, IH.
Qed.

(** Round trip: joining the pieces with the separator gives the string
    back, for every separator. *)
Lemma join_split s sep : join sep (split s sep) = s.
Proof.
  destruct (decide (sep = "")) as [->|Hsep]; [apply join_chars|].
  induction s as [s IH] using string_length_ind.
  rewrite split_unfold by done.
  destruct (cut s sep) as [[pre rest]|] eqn:C; [|done].
  rewrite join_cons by by apply split_not_nil.
  rewrite IH; [by apply cut_Some in C|].
  apply cut_length in C. destruct sep; simpl in *; [done|lia].
Qed.

(** No piece contains the separator. *)
Lemma split_pieces_free s sep :
  sep ≠ "" → Forall (λ piece, includes piece sep = false) (split s sep).
Proof.
  intros Hsep. induction s as [s IH] using string_length_ind.
  rewrite split_unfold by done.
  destruct (cut s sep) as [[pre rest]|] eqn:C.
  - constructor; [by eapply cut_pre_free|]. apply IH.
    apply cut_length in C. destruct sep; simpl in *; [done|lia].
  - constructor; [by apply cut_None|constructor].
Qed.

(** The first piece is the text before the first separator. *)
Lemma head_split s sep :
  sep ≠ ""
  → head (split s sep) = Some (from_option fst s (cut s sep)).
Proof.
  intros Hsep. rewrite split_unfold by done.
  by destruct (cut s sep) as [[??]|].
Qed.

(** [s.split(sep)[1]] is the text between the first and the second
    separator, and [undefined] when there is no separator. *)
Lemma nth1_split s sep :
  sep ≠ ""
  → nth1 (split s sep)
    = '(_, rest) ← cut s sep; Some (from_option fst rest (cut rest sep)).
Proof.
  intros Hsep. rewrite split_unfold by done.
  destruct (cut s sep) as [[pre rest]|]; [|done].
  simpl. unfold nth1. simpl. rewrite <-head_split by done.
  by destruct (split rest sep).
Qed.

Lemma nth1_split_None s sep :
  sep ≠ "" → nth1 (split s sep) = None ↔ includes s sep = false.
Proof.
  intros Hsep. rewrite nth1_split, <-cut_None by done.
  by destruct (cut s sep) as [[??]|].
Qed.

(** A string that starts with the separator and has no other: the second
    piece is everything after the separator. *)
Lemma nth1_split_prefix rest sep :
  sep ≠ "" → includes rest sep = false
  → nth1 (split (sep +:+ rest) sep) = Some rest.
Proof.
  intros Hsep Hfree. rewrite nth1_split by done.
  rewrite cut_prefix by apply prefix_app. rewrite str_drop_app. simpl.
  by apply cut_None in Hfree as ->.
Qed.

End split.

(** Outside this file the search functions are rewritten with the lemmas
    above, on closed strings evaluated with [vm_compute]; [simpl] leaves
    them alone. *)
#[global] Arguments includes : simpl never.
#[global] Arguments cut : simpl never.
#[global] Arguments split_go : simpl never.
#[global] Arguments split : simpl never.

End JsString.
