(* ===== verification/JsValue.v ===== *)
(** * The JavaScript values and operators the component uses

    The expressions of [fetchUserData] mix strings, booleans, [undefined]
    and [null] under [||], [&&], [!], [?.], the conditional operator and
    template literals.  [value] is the untyped view of such an operand,
    with the conversions [ToBoolean] and [ToString] of the language and the
    operators [v_or], [v_and] and [v_not] on it.

    The component itself is written against the typed view: a TypeScript
    field [f?: string] is an [option string], [string | null] is a
    [nullable string].  The class [ToJs] embeds each typed operand into
    [value]; [truthy], [tmpl] and [js_or] are the typed operators, and the
    lemmas of section [typed] show that each computes what the untyped
    operator computes on the embedded operands. *)

From S2P Require Import Prelude.

Module JsValue.

(** [T | null]. *)
Inductive nullable (A : Type) : Type :=
| Null
| NotNull (a : A).
Arguments Null {A}.
Arguments NotNull {A} a.

(** The primitive values that occur as operands. *)
Inductive value : Type :=
| VUndefined
| VNull
| VBool (b : bool)
| VString (s : string).

#[export] Instance value_eq_dec : EqDecision value.
Proof. solve_decision. Defined.

#[export] Instance nullable_eq_dec `{EqDecision A} : EqDecision (nullable A).
Proof. solve_decision. Defined.

(** The conversion the conditional contexts apply: [undefined], [null],
    [false] and the empty string are falsy. *)
Definition ToBoolean (v : value) : bool :=
  match v with
  | VUndefined | VNull => false
  | VBool b => b
  | VString "" => false
  | VString _ => true
  end.

(** The conversion a template literal applies to each substitution. *)
Definition ToString (v : value) : string :=
  match v with
  | VUndefined => "undefined"
  | VNull => "null"
  | VBool true => "true"
  | VBool false => "false"
  | VString s => s
  end.

(** [a || b], [a && b] and [!a] on untyped operands. *)
Definition v_or (a b : value) : value := if ToBoolean a then a else b.
Definition v_and (a b : value) : value := if ToBoolean a then b else a.
Definition v_not (a : value) : value := VBool (negb (ToBoolean a)).

(** The embedding of a typed operand. *)
Class ToJs (A : Type) := to_js : A → value.
#[export] Hint Mode ToJs ! : typeclass_instances.

#[export] Instance string_to_js : ToJs string := VString.
#[export] Instance bool_to_js : ToJs bool := VBool.
#[export] Instance option_to_js `{ToJs A} : ToJs (option A) :=
  λ o, match o with Some a => to_js a | None => VUndefined end.
#[export] Instance nullable_to_js `{ToJs A} : ToJs (nullable A) :=
  λ o, match o with NotNull a => to_js a | Null => VNull end.

(** A typed operand in a conditional context. *)
Definition truthy `{ToJs A} (x : A) : bool := ToBoolean (to_js x).

(** A typed operand substituted in a template literal: [`${x}`]. *)
Definition tmpl `{ToJs A} (x : A) : string := ToString (to_js x).

(** [x || d] where [x] may be [undefined] and [d] is a default of the
    same type. *)
Definition js_or `{ToJs A} (x : option A) (d : A) : A :=
  match x with
  | Some a => if truthy a then a else d
  | None => d
  end.

(** [n?.f]: [undefined] when [n] is [null], the field otherwise. *)
Definition null_chain {A B} (n : nullable A) (f : A → B) : option B :=
  match n with
  | Null => None
  | NotNull a => Some (f a)
  end.

(** ** The operators on untyped operands *)
Section untyped.
Implicit Types (a b : value).

Lemma ToBoolean_v_or a b :
  ToBoolean (v_or a b) = ToBoolean a || ToBoolean b.
Proof. unfold v_or. by destruct (ToBoolean a) eqn:E; rewrite ?E. Qed.

Lemma ToBoolean_v_and a b :
  ToBoolean (v_and a b) = ToBoolean a && ToBoolean b.
Proof. unfold v_and. by destruct (ToBoolean a) eqn:E; rewrite ?E. Qed.

Lemma ToBoolean_v_not a : ToBoolean (v_not a) = negb (ToBoolean a).
Proof. done. Qed.

Lemma ToBoolean_string s : ToBoolean (VString s) = negb (bool_decide (s = "")).
Proof. by destruct s. Qed.

End untyped.

(** ** The typed operators compute what the untyped ones compute *)
Section typed.
Context `{ToJs A}.
Implicit Types (x : option A) (d : A).

Lemma js_or_sound x d : to_js (js_or x d) = v_or (to_js x) (to_js d).
Proof.
  unfold js_or, v_or, truthy. destruct x as [a|]; [|done].
  change (to_js (Some a)) with (to_js a). by destruct (ToBoolean (to_js a)).
Qed.

Lemma truthy_None : truthy (None : option A) = false.
Proof. done. Qed.

Lemma truthy_Some (a : A) : truthy (Some a) = truthy a.
Proof. done. Qed.

Lemma js_or_None d : js_or None d = d.
Proof. done. Qed.

Lemma js_or_truthy x d : truthy x = false → js_or x d = d.
Proof. unfold js_or. destruct x as [a|]; [|done]. by rewrite truthy_Some; intros ->. Qed.

Lemma truthy_js_or x d : truthy d = true → truthy (js_or x d) = true.
Proof. intros Hd. unfold js_or. js_crush. Qed.

End typed.

Section strings.
Implicit Types (s d : string) (o : option string) (ob : option bool).

Lemma truthy_string s : truthy s = negb (bool_decide (s = "")).
Proof. apply ToBoolean_string. Qed.

Lemma truthy_string_true s : truthy s = true ↔ s ≠ "".
Proof. rewrite truthy_string, negb_true_iff, bool_decide_eq_false. done. Qed.

Lemma truthy_opt_string o : truthy o = true ↔ ∃ s, o = Some s ∧ s ≠ "".
Proof.
  destruct o as [s|]; simpl.
  - rewrite truthy_Some, truthy_string_true. split; [by exists s|].
    by intros (? & [= <-] & ?).
  - rewrite truthy_None. split; [done|]. by intros (? & ? & ?).
Qed.

Lemma truthy_bool (b : bool) : truthy b = b.
Proof. done. Qed.

Lemma truthy_opt_bool ob : truthy ob = true ↔ ob = Some true.
Proof. destruct ob as [[]|]; naive_solver. Qed.

Lemma tmpl_string s : tmpl s = s.
Proof. done. Qed.

Lemma tmpl_Some s : tmpl (Some s) = s.
Proof. done. Qed.

Lemma tmpl_None : tmpl (None : option string) = "undefined".
Proof. done. Qed.

Lemma tmpl_Null : tmpl (Null : nullable string) = "null".
Proof. done. Qed.

(** [o || ""] is the string of [o], and the empty string for
    [undefined]. *)
Lemma js_or_empty o : js_or o "" = default "" o.
Proof. destruct o as [[|??]|]; done. Qed.

Lemma js_or_Some_ne s d : s ≠ "" → js_or (Some s) d = s.
Proof. intros Hs. unfold js_or. by rewrite (proj2 (truthy_string_true s)). Qed.

End strings.

#[export] Hint Rewrite @truthy_None @truthy_Some @js_or_None truthy_bool
  tmpl_string
  tmpl_Some tmpl_None tmpl_Null js_or_empty : js.

End JsValue.
