(* ===== verification/Json.v ===== *)
(** * Untyped payloads: the values of JSON and what the component does
      with them

    [res.json()] gives a value of JSON, whatever the service sent.  The
    component reads it without checking its shape: a property of a value
    that is [undefined] or [null] cannot be read, a method that a value
    does not have cannot be called, and each of these throws the
    [TypeError] that the [catch] of [fetchUserData] logs.  This file holds
    the values ([json], and [dyn] for a value that may be [undefined]),
    the completion of an expression ([completion]: a value or a throw)
    as a monad, and the operations of the language on them, from the
    language definition: reading a property ([prop], and [chain] for
    [?.]), the conversions [ToBoolean] and [ToString], [||], and the three
    methods the component calls ([find], [includes], [split]), each on
    every kind of receiver.

    The numbers of a payload are integers (type codes, flags and
    timestamps) that the number type holds exactly, of magnitude up to
    2^53: a number is a [Z], printed in decimal.  The keys the component
    reads are names of data (none is a method or [length]): on a string,
    an array, a number or a boolean they are [undefined]. *)

From stdpp Require Import pretty.
From S2P Require Import Prelude JsString JsValue.
Import JsString.

Module Json.

(** A value of JSON, parsed.  The fields of an object are its own
    properties, one entry for each key (the parser keeps one value for a
    key that the text repeats); [assoc] reads the first entry of a
    key. *)
Unset Elimination Schemes.
Inductive json : Type :=
| JNull
| JBool (b : bool)
| JNumber (n : Z)
| JString (s : string)
| JArray (elements : list json)
| JObject (fields : list (string * json)).
Set Elimination Schemes.

(** Induction on a value, with the property for the elements of an array
    and for the values of the fields of an object. *)
Section json_nested_ind.
Variable P : json → Prop.
Hypothesis HNull : P JNull.
Hypothesis HBool : ∀ b, P (JBool b).
Hypothesis HNumber : ∀ n, P (JNumber n).
Hypothesis HString : ∀ s, P (JString s).
Hypothesis HArray : ∀ elements, Forall P elements → P (JArray elements).
Hypothesis HObject :
  ∀ fields, Forall (λ kv, P kv.2) fields → P (JObject fields).

Fixpoint json_nested_ind (v : json) : P v :=
  match v with
  | JNull => HNull
  | JBool b => HBool b
  | JNumber n => HNumber n
  | JString s => HString s
  | JArray elements =>
      HArray elements (Forall_true P elements json_nested_ind)
  | JObject fields =>
      HObject fields
        (Forall_true (λ kv, P kv.2) fields (λ kv, json_nested_ind kv.2))
  end.

End json_nested_ind.

#[global] Instance json_eq_dec : EqDecision json.
Proof.
  refine (fix go (x y : json) {struct x} : Decision (x = y) :=
    match x, y with
    | JNull, JNull => left _
    | JBool a, JBool b => cast_if (decide (a = b))
    | JNumber a, JNumber b => cast_if (decide (a = b))
    | JString a, JString b => cast_if (decide (a = b))
    | JArray a, JArray b => cast_if (@list_eq_dec _ go a b)
    | JObject a, JObject b =>
        cast_if (@list_eq_dec _ (@prod_eq_dec _ _ _ go) a b)
    | _, _ => right _
    end); congruence.
Defined.

(** The value of an expression: a value of JSON, or [None] for
    [undefined]. *)
Definition dyn : Type := option json.

(** How the evaluation of an expression ends: with a value, or by
    throwing. *)
Inductive completion (A : Type) : Type :=
| Normal (a : A)
| Throw (e : string).
Arguments Normal {A} a.
Arguments Throw {A} e.

#[global] Instance completion_ret : MRet completion := @Normal.
#[global] Instance completion_bind : MBind completion := λ A B f c,
  match c with Normal a => f a | Throw e => Throw e end.
#[global] Instance completion_fmap : FMap completion := λ A B f c,
  match c with Normal a => Normal (f a) | Throw e => Throw e end.

(** An expression that throws. *)
Definition throws {A} (c : completion A) : Prop :=
  match c with Normal _ => False | Throw _ => True end.

#[global] Instance throws_dec {A} (c : completion A) : Decision (throws c).
Proof. destruct c; apply _. Defined.

(** The errors of the language the component can meet.  The language
    fixes the kind of error, a [TypeError]; the text of the message is
    the engine's, and nothing here depends on it. *)
Definition cannot_read (k : string) (what : string) : string :=
  "TypeError: Cannot read properties of " +:+ what +:+ " (reading '" +:+ k
  +:+ "')".

Definition not_a_function (k : string) : string :=
  "TypeError: " +:+ k +:+ " is not a function".

(** The property [k] among the fields of an object. *)
Fixpoint assoc (k : string) (fields : list (string * json)) : dyn :=
  match fields with
  | [] => None
  | (k', v) :: fields' => if decide (k' = k) then Some v else assoc k fields'
  end.

(** [v.k] for a value [v] that is neither [undefined] nor [null]. *)
Definition get (k : string) (v : json) : dyn :=
  match v with
  | JObject fields => assoc k fields
  | _ => None
  end.

(** [d.k]. *)
Definition prop (k : string) (d : dyn) : completion dyn :=
  match d with
  | None => Throw (cannot_read k "undefined")
  | Some JNull => Throw (cannot_read k "null")
  | Some v => Normal (get k v)
  end.

(** [d?.k]. *)
Definition chain (k : string) (d : dyn) : dyn :=
  match d with
  | None | Some JNull => None
  | Some v => get k v
  end.

(** [d === "s"] and [d === n]. *)
Definition is_string (s : string) (d : dyn) : bool :=
  match d with Some (JString s') => bool_decide (s' = s) | _ => false end.

Definition is_number (n : Z) (d : dyn) : bool :=
  match d with Some (JNumber n') => bool_decide (n' = n) | _ => false end.

(** The conversion of a conditional context. *)
Definition ToBoolean (d : dyn) : bool :=
  match d with
  | None | Some JNull => false
  | Some (JBool b) => b
  | Some (JNumber n) => negb (bool_decide (n = 0%Z))
  | Some (JString s) => negb (bool_decide (s = ""))
  | Some (JArray _) | Some (JObject _) => true
  end.

(** The error of a conversion to text that finds no text. *)
Definition no_primitive : string :=
  "TypeError: Cannot convert object to primitive value".

(** The conversion of a template literal.  A number is printed in
    decimal.  An array is the list of its elements separated by commas,
    with nothing for [null]; the conversion of an element that throws
    ends the conversion of the array.  An object is converted by the
    method [toString] it inherits, which gives the same text whatever the
    fields; when the object has a property [toString] of its own, which
    in a value of JSON is data and cannot be called, neither it nor
    [valueOf] gives a text and the conversion throws. *)
Fixpoint ToString_json (v : json) : completion string :=
  match v with
  | JNull => Normal "null"
  | JBool true => Normal "true"
  | JBool false => Normal "false"
  | JNumber n => Normal (pretty n)
  | JString s => Normal s
  | JArray elements =>
      join ","
      <$> mapM (λ e, match e with JNull => Normal "" | _ => ToString_json e end)
            elements
  | JObject fields =>
      match assoc "toString" fields with
      | Some _ => Throw no_primitive
      | None => Normal "[object Object]"
      end
  end.

Definition ToString (d : dyn) : completion string :=
  match d with None => Normal "undefined" | Some v => ToString_json v end.

(** The values whose conversion to text throws: an object with a property
    [toString] of its own, and an array that holds such a value. *)
Fixpoint unprintable_json (v : json) : bool :=
  match v with
  | JObject fields => bool_decide (is_Some (assoc "toString" fields))
  | JArray elements => existsb unprintable_json elements
  | _ => false
  end.

Definition unprintable (d : dyn) : bool :=
  match d with None => false | Some v => unprintable_json v end.

(** [a || b]. *)
Definition or_ (a b : dyn) : dyn := if ToBoolean a then a else b.

(** [v.includes(arg)] for a value [v] that is neither [undefined] nor
    [null]: the method of a string or of an array; no other value of JSON
    has it. *)
Definition includes_call (v : json) (arg : string) : completion bool :=
  match v with
  | JString s => Normal (includes s arg)
  | JArray elements => Normal (existsb (λ e, is_string arg (Some e)) elements)
  | _ => Throw (not_a_function "includes")
  end.

(** [d?.includes(arg)]. *)
Definition chain_includes (d : dyn) (arg : string) : completion dyn :=
  match d with
  | None | Some JNull => Normal None
  | Some v => (λ b, Some (JBool b)) <$> includes_call v arg
  end.

(** [v.split(sep)[1]] for a value [v] that is neither [undefined] nor
    [null]: only a string has the method. *)
Definition split_call1 (v : json) (sep : string) : completion dyn :=
  match v with
  | JString s => Normal (JString <$> nth1 (split s sep))
  | _ => Throw (not_a_function "split")
  end.

(** The loop of [Array.prototype.find]: the first element the callback
    accepts; a callback that throws ends the loop. *)
Fixpoint find_go (cb : json → completion bool) (elements : list json)
    : completion dyn :=
  match elements with
  | [] => Normal None
  | e :: elements' =>
      b ← cb e; if b : bool then Normal (Some e) else find_go cb elements'
  end.

(** [d.find(cb)]: only an array has the method. *)
Definition find_call (d : dyn) (cb : json → completion bool) : completion dyn :=
  match d with
  | None => Throw (cannot_read "find" "undefined")
  | Some JNull => Throw (cannot_read "find" "null")
  | Some (JArray elements) => find_go cb elements
  | Some _ => Throw (not_a_function "find")
  end.

(** The primitive operands of [JsValue] as values of JSON. *)
Definition of_value (v : JsValue.value) : dyn :=
  match v with
  | JsValue.VUndefined => None
  | JsValue.VNull => Some JNull
  | JsValue.VBool b => Some (JBool b)
  | JsValue.VString s => Some (JString s)
  end.

(** ** The monad of completions *)
Section monad.
Context {A B C : Type}.
Implicit Types (c : completion A) (f : A → completion B).

Lemma bind_Normal a f : Normal a ≫= f = f a.
Proof. done. Qed.

Lemma bind_Throw e f : Throw e ≫= f = Throw e.
Proof. done. Qed.

Lemma bind_ret c : c ≫= Normal = c.
Proof. by destruct c. Qed.

Lemma bind_assoc c f (g : B → completion C) :
  (c ≫= f) ≫= g = c ≫= (λ a, f a ≫= g).
Proof. by destruct c. Qed.

Lemma bind_Normal_inv c f b :
  c ≫= f = Normal b ↔ ∃ a, c = Normal a ∧ f a = Normal b.
Proof.
  destruct c as [a|e]; simpl; split.
  - intros E. by exists a.
  - by intros (a' & [= <-] & ?).
  - done.
  - by intros (? & ? & ?).
Qed.

Lemma throws_fmap c (g : A → B) : throws (g <$> c) ↔ throws c.
Proof. by destruct c. Qed.

(** A continuation that throws or not whatever the value it gets. *)
Lemma throws_seq c f (P : Prop) :
  (∀ a, throws (f a) ↔ P) → throws (c ≫= f) ↔ throws c ∨ P.
Proof. intros Hf. destruct c as [a|e]; simpl; [rewrite Hf|]; tauto. Qed.

Lemma throws_seq_iff c f (P Q : Prop) :
  (throws c ↔ P) → (∀ a, throws (f a) ↔ Q) → throws (c ≫= f) ↔ P ∨ Q.
Proof. intros <- Hf. by apply throws_seq. Qed.

Lemma throws_bind c f :
  throws (c ≫= f) ↔ throws c ∨ ∃ a, c = Normal a ∧ throws (f a).
Proof.
  destruct c as [a|e]; simpl; split.
  - intros E. right. by exists a.
  - by intros [[]|(a' & [= <-] & ?)].
  - by left.
  - done.
Qed.

(** A list is converted element by element, from the left; it throws
    when an element does. *)
Lemma throws_mapM f (l : list A) :
  throws (mapM f l) ↔ Exists (λ x, throws (f x)) l.
Proof.
  induction l as [|x l IH]; simpl; [by rewrite Exists_nil|].
  rewrite Exists_cons, <-IH.
  destruct (f x) as [b|e]; simpl; [|by split; auto].
  destruct (mapM f l); simpl; tauto.
Qed.

End monad.

(** ** The operations *)
Section operations.
Implicit Types (v e : json) (d : dyn) (k s : string).

Lemma ToBoolean_of_value (x : JsValue.value) :
  ToBoolean (of_value x) = JsValue.ToBoolean x.
Proof. destruct x as [| | |[|]]; done. Qed.

Lemma ToString_of_value (x : JsValue.value) :
  ToString (of_value x) = Normal (JsValue.ToString x).
Proof. by destruct x as [| |[]|]. Qed.

Lemma or_of_value (x y : JsValue.value) :
  or_ (of_value x) (of_value y) = of_value (JsValue.v_or x y).
Proof.
  unfold or_, JsValue.v_or. rewrite ToBoolean_of_value. by case_match.
Qed.

(** The conversion to text throws exactly on the values of
    [unprintable]. *)
Lemma ToString_json_throws v :
  throws (ToString_json v) ↔ unprintable_json v = true.
Proof.
  induction v as [|b|n|s|elements IH|fields _] using json_nested_ind;
    simpl; try (by destruct b); try done.
  - rewrite throws_fmap, throws_mapM, existsb_exists, Exists_exists.
    setoid_rewrite <-list_elem_of_In. rewrite Forall_forall in IH.
    split; intros (e & He & Ht); exists e; split; try done.
    + apply IH; [done|]. by destruct e.
    + apply IH in Ht; [|done]. by destruct e.
  - rewrite bool_decide_eq_true. destruct (assoc "toString" fields); simpl.
    + split; [eauto|done].
    + split; [done|]. by intros [? ?].
Qed.

Lemma ToString_throws d : throws (ToString d) ↔ unprintable d = true.
Proof. destruct d as [v|]; simpl; [apply ToString_json_throws|done]. Qed.

(** What throws on conversion is an object or an array, which a
    condition takes for true. *)
Lemma unprintable_ToBoolean d : unprintable d = true → ToBoolean d = true.
Proof. by destruct d as [[]|]. Qed.

(** A property can be read of every value but [undefined] and [null]. *)
Lemma prop_throws k d : throws (prop k d) ↔ d = None ∨ d = Some JNull.
Proof.
  destruct d as [[]|]; simpl; split; try done; try (intros [|]; done); eauto.
Qed.

Lemma prop_chain k d r : prop k d = Normal r → chain k d = r.
Proof. destruct d as [[]|]; simpl; by intros [= <-]. Qed.

(** [find] returns the first element the callback accepts, when the
    callback has rejected the elements before it without throwing. *)
Lemma find_go_Some cb elements e :
  find_go cb elements = Normal (Some e)
  ↔ ∃ pre post, elements = pre ++ e :: post
      ∧ Forall (λ x, cb x = Normal false) pre ∧ cb e = Normal true.
Proof.
  induction elements as [|x l IH]; simpl.
  - split; [done|]. intros (pre & post & E & _). by destruct pre.
  - destruct (cb x) as [[]|err] eqn:Hx; simpl.
    + split.
      * intros [= <-]. exists [], l. by split_and!.
      * intros ([|y pre] & post & [= -> ->] & Hpre & He); [done|].
        apply Forall_cons in Hpre as [Hy _]. congruence.
    + rewrite IH. split.
      * intros (pre & post & -> & Hpre & He). exists (x :: pre), post.
        split_and!; [done| |done]. by constructor.
      * intros ([|y pre] & post & [= -> ->] & Hpre & He); [congruence|].
        apply Forall_cons in Hpre as [_ Hpre]. eauto.
    + split; [done|].
      intros ([|y pre] & post & [= -> ->] & Hpre & He); [congruence|].
      apply Forall_cons in Hpre as [Hy _]. congruence.
Qed.

Lemma find_go_None cb elements :
  find_go cb elements = Normal None
  ↔ Forall (λ x, cb x = Normal false) elements.
Proof.
  induction elements as [|x l IH]; simpl; [by split; [constructor|]|].
  rewrite Forall_cons, <-IH. destruct (cb x) as [[]|err]; simpl.
  - split; [done|]. by intros [? _].
  - split; [done|]. by intros [_ ?].
  - split; [done|]. by intros [? _].
Qed.

(** [find] throws when its receiver is not an array, or when the
    callback throws on an element before any it accepts. *)
Lemma find_go_throws cb elements :
  throws (find_go cb elements)
  ↔ ∃ pre e post, elements = pre ++ e :: post
      ∧ Forall (λ x, cb x = Normal false) pre ∧ throws (cb e).
Proof.
  induction elements as [|x l IH]; simpl.
  - split; [done|]. intros (pre & e & post & E & _). by destruct pre.
  - destruct (cb x) as [[]|err] eqn:Hx; simpl.
    + split; [done|].
      intros ([|y pre] & e & post & [= -> ->] & Hpre & He).
      * by rewrite Hx in He.
      * apply Forall_cons in Hpre as [Hy _]. congruence.
    + rewrite IH. split.
      * intros (pre & e & post & -> & Hpre & He).
        exists (x :: pre), e, post. split_and!; [done| |done].
        by constructor.
      * intros ([|y pre] & e & post & [= -> ->] & Hpre & He).
        -- by rewrite Hx in He.
        -- apply Forall_cons in Hpre as [_ Hpre]. by exists pre, e, post.
    + split; [|done]. intros _. exists [], x, l.
      split_and!; [done|constructor|by rewrite Hx].
Qed.

End operations.

End Json.
