(* ===== verification/Lanyard.v ===== *)
(** * The data model: the interfaces of LanyardProfile.tsx

    One Module per TypeScript interface, so that every field keeps the
    name it has in the source ([Activity.name] and [ProfileActivity.name]
    are different projections).  The record of a Module is [t] and its
    constructor [mk].  The two object types the source writes inline
    (the [timestamps] and [assets] of an activity, the [activity] of the
    view state) get Modules of their own.

    [f?: T] is [option T], [T | null] is [nullable T], [number] is [Z],
    [T[]] is [list T].  [end] is a keyword of Rocq: the field is [end_]. *)

From S2P Require Import Prelude JsValue.
Import JsValue.

(** [interface DiscordUser]. *)
Module DiscordUser.
Record t : Type := mk {
  id : string;
  username : string;
  avatar : nullable string;
  discriminator : string;
  bot : bool;
  global_name : nullable string;
  avatar_decoration : nullable string;
  display_name : nullable string;
  public_flags : Z;
}.
#[global] Instance eq_dec : EqDecision t.
Proof. solve_decision. Defined.
End DiscordUser.

(** The [timestamps] of an activity. *)
Module ActivityTimestamps.
Record t : Type := mk {
  start : option Z;
  end_ : option Z;
}.
#[global] Instance eq_dec : EqDecision t.
Proof. solve_decision. Defined.
End ActivityTimestamps.

(** The [assets] of an activity. *)
Module ActivityAssets.
Record t : Type := mk {
  large_image : option string;
  large_text : option string;
  small_image : option string;
  small_text : option string;
}.
#[global] Instance eq_dec : EqDecision t.
Proof. solve_decision. Defined.
End ActivityAssets.

(** [interface Activity]. *)
Module Activity.
Record t : Type := mk {
  id : string;
  name : string;
  type : Z;
  state : option string;
  details : option string;
  timestamps : option ActivityTimestamps.t;
  application_id : string;
  assets : option ActivityAssets.t;
  created_at : option Z;
}.
#[global] Instance eq_dec : EqDecision t.
Proof. solve_decision. Defined.
End Activity.

(** The [timestamps] of the Spotify data. *)
Module SpotifyTimestamps.
Record t : Type := mk {
  start : Z;
  end_ : Z;
}.
#[global] Instance eq_dec : EqDecision t.
Proof. solve_decision. Defined.
End SpotifyTimestamps.

(** [interface SpotifyData]. *)
Module SpotifyData.
Record t : Type := mk {
  track_id : string;
  timestamps : SpotifyTimestamps.t;
  album : string;
  album_art_url : string;
  artist : string;
  song : string;
}.
#[global] Instance eq_dec : EqDecision t.
Proof. solve_decision. Defined.
End SpotifyData.

(** [interface LanyardData]: the payload of the presence service. *)
Module LanyardData.
Record t : Type := mk {
  spotify : nullable SpotifyData.t;
  discord_user : DiscordUser.t;
  activities : list Activity.t;
  discord_status : string;
  active_on_discord_web : bool;
  active_on_discord_desktop : bool;
  active_on_discord_mobile : bool;
  listening_to_spotify : bool;
}.
#[global] Instance eq_dec : EqDecision t.
Proof. solve_decision. Defined.
End LanyardData.

(** The [activity] of the view state. *)
Module ProfileActivity.
Record t : Type := mk {
  hidden : bool;
  bigImage : option string;
  bigImageTitle : option string;
  smallImage : option string;
  name : option string;
  state : option string;
  details : option string;
}.
#[global] Instance eq_dec : EqDecision t.
Proof. solve_decision. Defined.

(** [activity.bigImage = v]. *)
Definition set_bigImage (v : option string) (a : t) : t :=
  mk (hidden a) v (bigImageTitle a) (smallImage a) (name a) (state a)
     (details a).

(** [activity.smallImage = v]. *)
Definition set_smallImage (v : option string) (a : t) : t :=
  mk (hidden a) (bigImage a) (bigImageTitle a) v (name a) (state a)
     (details a).
End ProfileActivity.

(** [interface ProfileData]: the view state. *)
Module ProfileData.
Record t : Type := mk {
  avatar : string;
  discordStatus : string;
  username : string;
  status : string;
  activity : ProfileActivity.t;
}.
#[global] Instance eq_dec : EqDecision t.
Proof. solve_decision. Defined.

(** An assignment to a field of [d.activity]. *)
Definition map_activity (f : ProfileActivity.t → ProfileActivity.t)
    (d : t) : t :=
  mk (avatar d) (discordStatus d) (username d) (status d) (f (activity d)).

(** The first argument of [useState]: what is shown before the first
    answer arrives.  [loader] is [assets.loader], the image the module
    ./assets exports. *)
Definition initial (loader : string) : t :=
  mk loader "" "" ""
     (ProfileActivity.mk true (Some "") None (Some "") (Some "") (Some "")
        (Some "")).
End ProfileData.

(** Concrete payloads, on which the theorems of the development are
    instantiated. *)
Module Samples.

Definition user : DiscordUser.t :=
  DiscordUser.mk "1025214794766221384" "loneweeb" (NotNull "a1b2c3") "0"
    false Null Null Null 0%Z.

Definition custom : Activity.t :=
  Activity.mk "custom" "Custom Status" 4%Z (Some "hello") None None "0" None
    None.

Definition game : Activity.t :=
  Activity.mk "g1" "Visual Studio Code" 0%Z (Some "Editing") (Some "Normalize.v")
    None "999"
    (Some (ActivityAssets.mk (Some "abc123") None (Some "def456") None))
    None.

Definition proxied : Activity.t :=
  Activity.mk "g2" "Browser" 0%Z (Some "Watching") None None "777"
    (Some (ActivityAssets.mk (Some "mp:external/foo.png") None None None))
    None.

Definition listening : Activity.t :=
  Activity.mk "spotify:1" "Spotify" 2%Z (Some "Artist") (Some "Song")
    (Some (ActivityTimestamps.mk (Some 10%Z) (Some 20%Z))) "0"
    (Some (ActivityAssets.mk (Some "spotify:ab67616d") (Some "Album") None
             None))
    None.

Definition track : SpotifyData.t :=
  SpotifyData.mk "4uLU6hMC" (SpotifyTimestamps.mk 10 20)%Z "Album"
    "https://i.scdn.co/image/ab67616d" "Artist" "Song".

Definition payload (status : string) (activities : list Activity.t)
    (spotify : nullable SpotifyData.t) : LanyardData.t :=
  LanyardData.mk spotify user activities status false true false
    (bool_decide (spotify ≠ Null)).

Definition offline : LanyardData.t := payload "offline" [game] Null.
Definition idle_empty : LanyardData.t := payload "idle" [] Null.
Definition online_custom_only : LanyardData.t :=
  payload "online" [custom] Null.
Definition online_game : LanyardData.t :=
  payload "online" [custom; game] Null.
Definition online_game_more : LanyardData.t :=
  LanyardData.mk Null user [custom; custom; game; proxied; listening]
    "online" true true true false.
Definition online_proxied : LanyardData.t := payload "online" [proxied] Null.
Definition dnd_listening : LanyardData.t :=
  payload "dnd" [listening] (NotNull track).
Definition dnd_listening_no_data : LanyardData.t :=
  payload "dnd" [listening] Null.

End Samples.

(** Unfold the assignments to the view state and reduce the projections
    that are applied to a record, and nothing else. *)
Ltac view_simpl :=
  unfold ProfileData.map_activity, ProfileActivity.set_bigImage,
    ProfileActivity.set_smallImage in *;
  cbn [ProfileData.avatar ProfileData.discordStatus ProfileData.username
       ProfileData.status ProfileData.activity ProfileActivity.hidden
       ProfileActivity.bigImage ProfileActivity.bigImageTitle
       ProfileActivity.smallImage ProfileActivity.name
       ProfileActivity.state ProfileActivity.details] in *.
