(* ===== verification/Normalize.v ===== *)
(** * Normalisation: from the payload to the view state

    The body of [fetchUserData] between the destructuring of the payload
    and the call of [setProfileData] (LanyardProfile.tsx, lines 100-136):
    [currentActivity] selects the activity that is shown, [currentData] is
    the object literal, [setBigImage] and [setSmallImage] are the two
    conditional assignments that follow it, [normalize] is their
    composition. *)

From S2P Require Import Prelude JsString JsValue Lanyard.
Import JsString JsValue.

Module Normalize.

(** The two constants of the module. *)
Definition API_URL : string := "https://api.lanyard.rest/v1".
Definition USERID : string := "1025214794766221384".

(** The address [fetch] is called with. *)
Definition requestUrl : string := tmpl API_URL +:+ "/users/" +:+ tmpl USERID.

(** The double quote character, as it occurs inside a template literal. *)
Definition dquote : string := String "034" "".

(** [activities.find((activity) => activity.type !== 4)]. *)
Definition currentActivity (activities : list Activity.t)
    : option Activity.t :=
  List.find (λ activity, negb (Activity.type activity =? 4)%Z) activities.

(** [currentActivity?.assets?.large_image]. *)
Definition large_image (cur : option Activity.t) : option string :=
  (cur ≫= Activity.assets) ≫= ActivityAssets.large_image.

(** [currentActivity?.assets?.small_image]. *)
Definition small_image (cur : option Activity.t) : option string :=
  (cur ≫= Activity.assets) ≫= ActivityAssets.small_image.

(** [img?.includes(sub)]. *)
Definition includes_opt (img : option string) (sub : string) : option bool :=
  (λ s, includes s sub) <$> img.

(** [currentActivity?.assets?.large_image?.includes("spotify")] in a
    conditional context: the large image is the Spotify one. *)
Definition isSpotify (cur : option Activity.t) : bool :=
  truthy (includes_opt (large_image cur) "spotify").

(** The media-proxy address of an external image:
    [`https://media.discordapp.net/external/${img?.split("mp:external/")[1]}`]. *)
Definition externalUrl (img : option string) : string :=
  "https://media.discordapp.net/external/"
  +:+ tmpl (img ≫= λ s, nth1 (split s "mp:external/")).

(** The CDN address of an application asset:
    [`https://cdn.discordapp.com/app-assets/${currentActivity?.application_id}/${img}.png`]. *)
Definition appAssetUrl (cur : option Activity.t) (img : option string)
    : string :=
  "https://cdn.discordapp.com/app-assets/"
  +:+ tmpl (Activity.application_id <$> cur) +:+ "/" +:+ tmpl img +:+ ".png".

(** The address of an image, as both assignments compute it:
    [img?.includes("external") ? externalUrl : appAssetUrl]. *)
Definition resolveImage (cur : option Activity.t) (img : option string)
    : string :=
  if truthy (includes_opt img "external") then externalUrl img
  else appAssetUrl cur img.

(** The object literal [currentData]. *)
Definition currentData (data : LanyardData.t) : ProfileData.t :=
  let discord_user := LanyardData.discord_user data in
  let discord_status := LanyardData.discord_status data in
  let spotify := LanyardData.spotify data in
  let cur := currentActivity (LanyardData.activities data) in
  let is_spotify := isSpotify cur in
  ProfileData.mk
    ("https://cdn.discordapp.com/avatars/" +:+ tmpl USERID +:+ "/"
     +:+ tmpl (DiscordUser.avatar discord_user))
    discord_status
    ("@" +:+ tmpl (DiscordUser.username discord_user))
    (if bool_decide (discord_status ≠ "offline")
     then "Status: " +:+ dquote
          +:+ tmpl (js_or (cur ≫= Activity.state) "") +:+ dquote
     else "")
    (ProfileActivity.mk
       (bool_decide (discord_status = "offline"))
       (if is_spotify then null_chain spotify SpotifyData.album_art_url
        else Some "")
       (if is_spotify then null_chain spotify SpotifyData.album
        else Some "")
       (Some "")
       (Some (js_or (Activity.name <$> cur) "doing yo moma"))
       (Some (js_or (cur ≫= Activity.state) ""))
       (Some (js_or (cur ≫= Activity.details) ""))).

(** The first conditional assignment: a large image that is present and
    is not the Spotify one is resolved to an address. *)
Definition setBigImage (cur : option Activity.t) (d : ProfileData.t)
    : ProfileData.t :=
  if truthy (large_image cur) && negb (isSpotify cur)
  then
    ProfileData.map_activity
      (ProfileActivity.set_bigImage
         (Some (resolveImage cur (large_image cur))))
      d
  else d.

(** The second conditional assignment: the small image is resolved when
    there is one, and also whenever the large image is not the Spotify
    one. *)
Definition setSmallImage (cur : option Activity.t) (d : ProfileData.t)
    : ProfileData.t :=
  if truthy (small_image cur) || negb (isSpotify cur)
  then
    ProfileData.map_activity
      (ProfileActivity.set_smallImage
         (Some (resolveImage cur (small_image cur))))
      d
  else d.

(** The view state computed from a payload. *)
Definition normalize (data : LanyardData.t) : ProfileData.t :=
  let cur := currentActivity (LanyardData.activities data) in
  setSmallImage cur (setBigImage cur (currentData data)).

(** ** The closed form of [normalize]

    [bigImage_of] and [smallImage_of] say in one expression what the
    object literal and the two assignments leave in the two image
    fields. *)
Definition bigImage_of (data : LanyardData.t) : option string :=
  let cur := currentActivity (LanyardData.activities data) in
  if isSpotify cur
  then null_chain (LanyardData.spotify data) SpotifyData.album_art_url
  else if truthy (large_image cur)
       then Some (resolveImage cur (large_image cur))
       else Some "".

Definition smallImage_of (data : LanyardData.t) : option string :=
  let cur := currentActivity (LanyardData.activities data) in
  if truthy (small_image cur) || negb (isSpotify cur)
  then Some (resolveImage cur (small_image cur))
  else Some "".

(** Two payloads read the same when they agree on what [fetchUserData]
    reads: the Spotify data, the user, the status and the activity that
    is shown. *)
Definition same_reading (d1 d2 : LanyardData.t) : Prop :=
  LanyardData.spotify d1 = LanyardData.spotify d2
  ∧ LanyardData.discord_user d1 = LanyardData.discord_user d2
  ∧ LanyardData.discord_status d1 = LanyardData.discord_status d2
  ∧ currentActivity (LanyardData.activities d1)
    = currentActivity (LanyardData.activities d2).

#[global] Instance same_reading_dec d1 d2 : Decision (same_reading d1 d2).
Proof. unfold same_reading. apply _. Defined.

#[global] Instance same_reading_equivalence : Equivalence same_reading.
Proof.
  unfold same_reading. split.
  - by intros d.
  - intros d1 d2 (? & ? & ? & ?). by split_and!.
  - intros d1 d2 d3 (? & ? & ? & ?) (? & ? & ? & ?).
    split_and!; congruence.
Qed.

#[global] Instance normalize_proper : Proper (same_reading ==> (=)) normalize.
Proof.
  intros d1 d2 (Hs & Hu & Hst & Hc). unfold normalize, currentData.
  by rewrite Hs, Hu, Hst, Hc.
Qed.

(** The assignments as updates of one field. *)
Lemma setBigImage_eq cur d :
  setBigImage cur d
  = ProfileData.map_activity
      (ProfileActivity.set_bigImage
         (if truthy (large_image cur) && negb (isSpotify cur)
          then Some (resolveImage cur (large_image cur))
          else ProfileActivity.bigImage (ProfileData.activity d))) d.
Proof. unfold setBigImage. case_match; [done|]. by destruct d as [? ? ? ? []]. Qed.

Lemma setSmallImage_eq cur d :
  setSmallImage cur d
  = ProfileData.map_activity
      (ProfileActivity.set_smallImage
         (if truthy (small_image cur) || negb (isSpotify cur)
          then Some (resolveImage cur (small_image cur))
          else ProfileActivity.smallImage (ProfileData.activity d))) d.
Proof. unfold setSmallImage. case_match; [done|]. by destruct d as [? ? ? ? []]. Qed.

Section closed_form.
Context (data : LanyardData.t).
Let cur := currentActivity (LanyardData.activities data).

Lemma bigImage_currentData :
  ProfileActivity.bigImage (ProfileData.activity (currentData data))
  = if isSpotify cur
    then null_chain (LanyardData.spotify data) SpotifyData.album_art_url
    else Some "".
Proof. reflexivity. Qed.

Lemma bigImageTitle_currentData :
  ProfileActivity.bigImageTitle (ProfileData.activity (currentData data))
  = if isSpotify cur
    then null_chain (LanyardData.spotify data) SpotifyData.album
    else Some "".
Proof. reflexivity. Qed.

Lemma status_currentData :
  ProfileData.status (currentData data)
  = if bool_decide (LanyardData.discord_status data ≠ "offline")
    then "Status: " +:+ dquote +:+ default "" (cur ≫= Activity.state)
         +:+ dquote
    else "".
Proof. unfold currentData. simpl. by rewrite js_or_empty. Qed.

Lemma avatar_currentData :
  ProfileData.avatar (currentData data)
  = "https://cdn.discordapp.com/avatars/" +:+ USERID +:+ "/"
    +:+ tmpl (DiscordUser.avatar (LanyardData.discord_user data)).
Proof. reflexivity. Qed.

Lemma username_currentData :
  ProfileData.username (currentData data)
  = "@" +:+ DiscordUser.username (LanyardData.discord_user data).
Proof. reflexivity. Qed.

(** [normalize] in closed form: one record, each field one expression. *)
Lemma normalize_eq :
  normalize data
  = ProfileData.mk
      (ProfileData.avatar (currentData data))
      (LanyardData.discord_status data)
      (ProfileData.username (currentData data))
      (ProfileData.status (currentData data))
      (ProfileActivity.mk
         (bool_decide (LanyardData.discord_status data = "offline"))
         (bigImage_of data)
         (ProfileActivity.bigImageTitle
            (ProfileData.activity (currentData data)))
         (smallImage_of data)
         (Some (js_or (Activity.name <$> cur) "doing yo moma"))
         (Some (default "" (cur ≫= Activity.state)))
         (Some (default "" (cur ≫= Activity.details)))).
Proof.
  unfold normalize. rewrite setSmallImage_eq, setBigImage_eq. fold cur.
  view_simpl. f_equal. f_equal; [|by rewrite <-js_or_empty..].
  rewrite bigImage_currentData. unfold bigImage_of. fold cur.
  by destruct (isSpotify cur), (truthy (large_image cur)).
Qed.

(** The fields of the result, read off the closed form. *)
Lemma hidden_normalize :
  ProfileActivity.hidden (ProfileData.activity (normalize data))
  = bool_decide (LanyardData.discord_status data = "offline").
Proof. by rewrite normalize_eq. Qed.

Lemma discordStatus_normalize :
  ProfileData.discordStatus (normalize data)
  = LanyardData.discord_status data.
Proof. by rewrite normalize_eq. Qed.

Lemma avatar_normalize :
  ProfileData.avatar (normalize data)
  = "https://cdn.discordapp.com/avatars/" +:+ USERID +:+ "/"
    +:+ tmpl (DiscordUser.avatar (LanyardData.discord_user data)).
Proof. by rewrite normalize_eq. Qed.

Lemma username_normalize :
  ProfileData.username (normalize data)
  = "@" +:+ DiscordUser.username (LanyardData.discord_user data).
Proof. by rewrite normalize_eq. Qed.

Lemma status_normalize :
  ProfileData.status (normalize data)
  = if bool_decide (LanyardData.discord_status data ≠ "offline")
    then "Status: " +:+ dquote +:+ default "" (cur ≫= Activity.state)
         +:+ dquote
    else "".
Proof. by rewrite normalize_eq, <-status_currentData. Qed.

Lemma bigImage_normalize :
  ProfileActivity.bigImage (ProfileData.activity (normalize data))
  = bigImage_of data.
Proof. by rewrite normalize_eq. Qed.

Lemma bigImageTitle_normalize :
  ProfileActivity.bigImageTitle (ProfileData.activity (normalize data))
  = if isSpotify cur
    then null_chain (LanyardData.spotify data) SpotifyData.album
    else Some "".
Proof. by rewrite normalize_eq. Qed.

Lemma smallImage_normalize :
  ProfileActivity.smallImage (ProfileData.activity (normalize data))
  = smallImage_of data.
Proof. by rewrite normalize_eq. Qed.

Lemma name_normalize :
  ProfileActivity.name (ProfileData.activity (normalize data))
  = Some (js_or (Activity.name <$> cur) "doing yo moma").
Proof. by rewrite normalize_eq. Qed.

Lemma state_normalize :
  ProfileActivity.state (ProfileData.activity (normalize data))
  = Some (default "" (cur ≫= Activity.state)).
Proof. by rewrite normalize_eq. Qed.

Lemma details_normalize :
  ProfileActivity.details (ProfileData.activity (normalize data))
  = Some (default "" (cur ≫= Activity.details)).
Proof. by rewrite normalize_eq. Qed.

(** The view state when no activity is shown. *)
Lemma normalize_None :
  cur = None
  → normalize data
    = ProfileData.mk
        (ProfileData.avatar (currentData data))
        (LanyardData.discord_status data)
        (ProfileData.username (currentData data))
        (ProfileData.status (currentData data))
        (ProfileActivity.mk
           (bool_decide (LanyardData.discord_status data = "offline"))
           (Some "") (Some "")
           (Some "https://cdn.discordapp.com/app-assets/undefined/undefined.png")
           (Some "doing yo moma") (Some "") (Some "")).
Proof.
  intros E. rewrite normalize_eq. unfold bigImage_of, smallImage_of.
  by rewrite bigImageTitle_currentData; fold cur; rewrite E.
Qed.

End closed_form.

(** ** Resolving an image *)
Section images.
Implicit Types (img rest : string) (cur : option Activity.t).

Lemma resolveImage_external cur img :
  includes img "external" = true
  → resolveImage cur (Some img) = externalUrl (Some img).
Proof. unfold resolveImage, includes_opt. simpl. by intros ->. Qed.

Lemma resolveImage_asset cur img :
  includes img "external" = false
  → resolveImage cur (Some img) = appAssetUrl cur (Some img).
Proof. unfold resolveImage, includes_opt. simpl. by intros ->. Qed.

Lemma resolveImage_None cur : resolveImage cur None = appAssetUrl cur None.
Proof. done. Qed.

Lemma marker_includes_external rest :
  includes ("mp:external/" +:+ rest) "external" = true.
Proof. by apply (includes_app _ _ "mp:" ("/" +:+ rest)). Qed.

Lemma externalUrl_Some img :
  externalUrl (Some img)
  = "https://media.discordapp.net/external/"
    +:+ tmpl (nth1 (split img "mp:external/")).
Proof. reflexivity. Qed.

Lemma externalUrl_marker rest :
  includes rest "mp:external/" = false
  → externalUrl (Some ("mp:external/" +:+ rest))
    = "https://media.discordapp.net/external/" +:+ rest.
Proof.
  intros Hfree. by rewrite externalUrl_Some, nth1_split_prefix.
Qed.

Lemma resolveImage_ne cur (o : option string) : resolveImage cur o ≠ "".
Proof. unfold resolveImage. by case_match. Qed.

End images.

(** ** The activity that is shown *)
Section current.
Implicit Types (acts pre post : list Activity.t) (a b : Activity.t).

Lemma currentActivity_cons a acts :
  currentActivity (a :: acts)
  = if bool_decide (Activity.type a = 4%Z) then currentActivity acts
    else Some a.
Proof.
  unfold currentActivity. simpl.
  destruct (Z.eqb_spec (Activity.type a) 4); by case_bool_decide.
Qed.

Lemma currentActivity_custom acts :
  Forall (λ a, Activity.type a = 4%Z) acts → currentActivity acts = None.
Proof.
  induction 1 as [|a acts Ha _ IH]; [done|].
  by rewrite currentActivity_cons, bool_decide_eq_true_2.
Qed.

(** C24: the activity that is shown is the first one of the payload whose
    type code is not 4: every activity before it is a custom status, and
    it is not one. *)
Theorem currentActivity_first acts a :
  currentActivity acts = Some a
  ↔ ∃ pre post, acts = pre ++ a :: post
      ∧ Forall (λ b, Activity.type b = 4%Z) pre ∧ Activity.type a ≠ 4%Z.
Proof.
  split.
  - induction acts as [|b acts IH]; [done|].
    rewrite currentActivity_cons. case_bool_decide as Hb.
    + intros (pre & post & -> & Hpre & Ha)%IH. exists (b :: pre), post.
      split_and!; [done|by constructor|done].
    + intros [= ->]. by exists [], acts.
  - intros (pre & post & -> & Hpre & Ha).
    induction Hpre as [|b pre Hb _ IH]; cbn [app];
      rewrite currentActivity_cons.
    + by rewrite bool_decide_eq_false_2.
    + by rewrite bool_decide_eq_true_2.
Qed.

(** no activity is shown exactly when every activity of the payload
    is a custom status (type code 4), the empty list included. *)
Theorem currentActivity_None acts :
  currentActivity acts = None ↔ Forall (λ a, Activity.type a = 4%Z) acts.
Proof.
  split; [|apply currentActivity_custom].
  induction acts as [|b acts IH]; [by constructor|].
  rewrite currentActivity_cons. case_bool_decide as Hb; [|done].
  intros ?%IH. by constructor.
Qed.

End current.

(** ** What the view state shows *)
Section properties.
Context (data : LanyardData.t).
#[local] Abbreviation cur := (currentActivity (LanyardData.activities data)).

Lemma isSpotify_Some img :
  large_image cur = Some img → isSpotify cur = includes img "spotify".
Proof. unfold isSpotify. by intros ->. Qed.

Lemma bigImage_of_Some img :
  large_image cur = Some img
  → bigImage_of data
    = if includes img "spotify"
      then null_chain (LanyardData.spotify data) SpotifyData.album_art_url
      else if bool_decide (img = "") then Some ""
           else Some (resolveImage cur (Some img)).
Proof.
  intros E. unfold bigImage_of. rewrite (isSpotify_Some img), E by done.
  rewrite truthy_Some, truthy_string.
  by destruct (includes img "spotify"), (bool_decide (img = "")).
Qed.

(** C1: when the Discord status is "offline" the activity card is hidden
    and the status line is empty, whatever the activities are. *)
Theorem normalize_offline :
  LanyardData.discord_status data = "offline"
  → ProfileActivity.hidden (ProfileData.activity (normalize data)) = true
    ∧ ProfileData.status (normalize data) = "".
Proof. intros E. by rewrite hidden_normalize, status_normalize, E. Qed.

(** the activity card is hidden exactly when the Discord status is
    "offline". *)
Theorem normalize_hidden_iff :
  ProfileActivity.hidden (ProfileData.activity (normalize data)) = true
  ↔ LanyardData.discord_status data = "offline".
Proof. rewrite hidden_normalize. apply bool_decide_eq_true. Qed.

(** C37: when the Discord status is not "offline" the status line is the
    state of the shown activity between double quotes after "Status: ",
    with the empty string for a missing state or a missing activity. *)
Theorem normalize_online_status :
  LanyardData.discord_status data ≠ "offline"
  → ProfileData.status (normalize data)
    = "Status: " +:+ dquote +:+ default "" (cur ≫= Activity.state)
      +:+ dquote.
Proof. intros E. by rewrite status_normalize, bool_decide_eq_true_2. Qed.

(** C9: when no activity is shown (the list is empty or holds custom
    statuses only) the name is the placeholder, state and details are
    empty, the big image is empty, and the small image is the CDN address
    built from two [undefined] values. *)
Theorem normalize_no_activity :
  Forall (λ a, Activity.type a = 4%Z) (LanyardData.activities data)
  → normalize data
    = ProfileData.mk
        (ProfileData.avatar (currentData data))
        (LanyardData.discord_status data)
        (ProfileData.username (currentData data))
        (ProfileData.status (currentData data))
        (ProfileActivity.mk
           (bool_decide (LanyardData.discord_status data = "offline"))
           (Some "") (Some "")
           (Some "https://cdn.discordapp.com/app-assets/undefined/undefined.png")
           (Some "doing yo moma") (Some "") (Some "")).
Proof.
  intros E%currentActivity_custom. by apply normalize_None.
Qed.

(** C7: a large image whose key contains "spotify" resolves to the album
    art address of the payload's Spotify data, and the title to its album;
    both are [undefined] when the payload has no Spotify data. *)
Theorem normalize_spotify img :
  large_image cur = Some img → includes img "spotify" = true
  → ProfileActivity.bigImage (ProfileData.activity (normalize data))
    = null_chain (LanyardData.spotify data) SpotifyData.album_art_url
    ∧ ProfileActivity.bigImageTitle (ProfileData.activity (normalize data))
      = null_chain (LanyardData.spotify data) SpotifyData.album.
Proof.
  intros E S. rewrite bigImage_normalize, bigImageTitle_normalize.
  by rewrite (bigImage_of_Some img), (isSpotify_Some img), S.
Qed.

(** C2: a large image "mp:external/" followed by a path that holds no
    further marker, and which is not a Spotify image, resolves to the
    media proxy address of that path. *)
Theorem normalize_external rest :
  large_image cur = Some ("mp:external/" +:+ rest)
  → includes ("mp:external/" +:+ rest) "spotify" = false
  → includes rest "mp:external/" = false
  → ProfileActivity.bigImage (ProfileData.activity (normalize data))
    = Some ("https://media.discordapp.net/external/" +:+ rest).
Proof.
  intros E S Hfree. rewrite bigImage_normalize.
  rewrite (bigImage_of_Some _ E), S, bool_decide_eq_false_2 by done.
  by rewrite resolveImage_external, externalUrl_marker
    by auto using marker_includes_external.
Qed.

(** C8: a large image key that is not empty and contains neither
    "spotify" nor "external" resolves to the CDN address built from the
    application id of the shown activity and the key. *)
Theorem normalize_app_asset a img :
  cur = Some a → large_image cur = Some img → img ≠ ""
  → includes img "spotify" = false → includes img "external" = false
  → ProfileActivity.bigImage (ProfileData.activity (normalize data))
    = Some ("https://cdn.discordapp.com/app-assets/"
            +:+ Activity.application_id a +:+ "/" +:+ img +:+ ".png").
Proof.
  intros Ea E Hne S X. rewrite bigImage_normalize.
  rewrite (bigImage_of_Some _ E), S, bool_decide_eq_false_2 by done.
  by rewrite resolveImage_asset, Ea by done.
Qed.

(** C26: a small image that is present is resolved the way the large
    one is, whatever the large image is: to the media proxy when its key
    contains "external", to the app-assets address otherwise. *)
Theorem normalize_smallImage_some img :
  small_image cur = Some img → img ≠ ""
  → ProfileActivity.smallImage (ProfileData.activity (normalize data))
    = Some (if includes img "external" then externalUrl (Some img)
            else appAssetUrl cur (Some img)).
Proof.
  intros E Hne. rewrite smallImage_normalize. unfold smallImage_of.
  rewrite E, truthy_Some, truthy_string, bool_decide_eq_false_2 by done.
  reflexivity.
Qed.

(** C25: the small image is left empty only when the activity has no small
    image and its large image is the Spotify one; in every other case,
    a missing activity included, it is an address. *)
Theorem normalize_smallImage_empty :
  ProfileActivity.smallImage (ProfileData.activity (normalize data))
  = Some ""
  ↔ truthy (small_image cur) = false ∧ isSpotify cur = true.
Proof.
  rewrite smallImage_normalize. unfold smallImage_of.
  destruct (truthy (small_image cur)), (isSpotify cur); simpl;
    (split; [intros [=]|intros [??]]); try done;
    by destruct (resolveImage_ne cur (small_image cur)).
Qed.

(** C23: the text fields and the small image of the view state are always
    strings; the big image and its title are [undefined] exactly when the
    large image is the Spotify one and the payload has no Spotify data. *)
Theorem normalize_populated :
  is_Some (ProfileActivity.name (ProfileData.activity (normalize data)))
  ∧ is_Some (ProfileActivity.state (ProfileData.activity (normalize data)))
  ∧ is_Some (ProfileActivity.details (ProfileData.activity (normalize data)))
  ∧ is_Some
      (ProfileActivity.smallImage (ProfileData.activity (normalize data)))
  ∧ (ProfileActivity.bigImage (ProfileData.activity (normalize data)) = None
     ↔ isSpotify cur = true ∧ LanyardData.spotify data = Null)
  ∧ (ProfileActivity.bigImageTitle (ProfileData.activity (normalize data))
     = None
     ↔ isSpotify cur = true ∧ LanyardData.spotify data = Null).
Proof.
  rewrite name_normalize, state_normalize, details_normalize,
    smallImage_normalize, bigImage_normalize, bigImageTitle_normalize.
  unfold smallImage_of, bigImage_of. split_and!; try by eexists.
  - by case_match.
  - destruct (isSpotify cur), (LanyardData.spotify data),
      (truthy (large_image cur)); simpl; split; by intros; destruct_and?.
  - destruct (isSpotify cur), (LanyardData.spotify data); simpl;
      split; by intros; destruct_and?.
Qed.

End properties.

(** C36: the view state depends on the payload only through its Spotify
    data, its user, its status and the activity that is shown: the other
    activities and the presence flags have no effect. *)
Theorem normalize_frame (d1 d2 : LanyardData.t) :
  LanyardData.spotify d1 = LanyardData.spotify d2
  → LanyardData.discord_user d1 = LanyardData.discord_user d2
  → LanyardData.discord_status d1 = LanyardData.discord_status d2
  → currentActivity (LanyardData.activities d1)
    = currentActivity (LanyardData.activities d2)
  → normalize d1 = normalize d2.
Proof. intros Hs Hu Hst Hc. by apply normalize_proper. Qed.

(** ** The external marker *)
Section marker.
Implicit Types (img pre rest : string).

(** C27: an image that does not contain "mp:external/" has no second
    piece: its media proxy address ends in "undefined".  This is what an
    image that contains "external" without the full marker resolves to. *)
Theorem externalUrl_undefined img :
  includes img "mp:external/" = false
  → externalUrl (Some img) = "https://media.discordapp.net/external/undefined".
Proof.
  intros Hfree%(nth1_split_None _ "mp:external/"); [|done].
  by rewrite externalUrl_Some, Hfree.
Qed.

(** C28: the path of the media proxy address is the text between the
    first marker and the second: what follows a second marker is
    dropped. *)
Theorem externalUrl_between img pre rest :
  cut img "mp:external/" = Some (pre, rest)
  → externalUrl (Some img)
    = "https://media.discordapp.net/external/"
      +:+ from_option fst rest (cut rest "mp:external/").
Proof.
  intros E. by rewrite externalUrl_Some, nth1_split, E.
Qed.

(** The bound of the split.  The split is computed with as many rounds
    as the image has characters; any larger number of rounds gives the
    same address. *)
Lemma externalUrl_fuel img fuel :
  String.length img ≤ fuel
  → externalUrl (Some img)
    = "https://media.discordapp.net/external/"
      +:+ tmpl (nth1 (split_go fuel img "mp:external/")).
Proof.
  intros Hfuel. rewrite externalUrl_Some. unfold split.
  by rewrite (split_go_fuel (String.length img) fuel).
Qed.

End marker.

(** ** The theorems at concrete payloads *)

Lemma normalize_offline_witness :
  ProfileActivity.hidden (ProfileData.activity (normalize Samples.offline))
  = true
  ∧ ProfileData.status (normalize Samples.offline) = "".
Proof. apply (normalize_offline Samples.offline). reflexivity. Defined.

Lemma normalize_online_status_witness :
  ProfileData.status (normalize Samples.online_game)
  = "Status: " +:+ dquote +:+ "Editing" +:+ dquote.
Proof. apply (normalize_online_status Samples.online_game). discriminate. Defined.

Lemma normalize_no_activity_witness :
  ProfileActivity.name
    (ProfileData.activity (normalize Samples.online_custom_only))
  = Some "doing yo moma".
Proof.
  rewrite (normalize_no_activity Samples.online_custom_only);
    [reflexivity|repeat constructor].
Defined.

Lemma normalize_spotify_witness :
  ProfileActivity.bigImage
    (ProfileData.activity (normalize Samples.dnd_listening))
  = Some "https://i.scdn.co/image/ab67616d".
Proof.
  apply (normalize_spotify Samples.dnd_listening "spotify:ab67616d");
    reflexivity.
Defined.

Lemma normalize_external_witness :
  ProfileActivity.bigImage
    (ProfileData.activity (normalize Samples.online_proxied))
  = Some "https://media.discordapp.net/external/foo.png".
Proof.
  apply (normalize_external Samples.online_proxied "foo.png"); reflexivity.
Defined.

Lemma normalize_app_asset_witness :
  ProfileActivity.bigImage
    (ProfileData.activity (normalize Samples.online_game))
  = Some "https://cdn.discordapp.com/app-assets/999/abc123.png".
Proof.
  apply (normalize_app_asset Samples.online_game Samples.game "abc123");
    (reflexivity || discriminate).
Defined.

Lemma normalize_frame_witness :
  normalize Samples.online_game = normalize Samples.online_game_more.
Proof.
  apply (normalize_frame Samples.online_game Samples.online_game_more);
    reflexivity.
Defined.

Lemma externalUrl_undefined_witness :
  externalUrl (Some "external-thing")
  = "https://media.discordapp.net/external/undefined".
Proof. apply (externalUrl_undefined "external-thing"). reflexivity. Defined.

Lemma normalize_smallImage_some_witness :
  ProfileActivity.smallImage
    (ProfileData.activity (normalize Samples.online_game))
  = Some "https://cdn.discordapp.com/app-assets/999/def456.png".
Proof.
  apply (normalize_smallImage_some Samples.online_game "def456");
    [reflexivity|done].
Defined.

Lemma externalUrl_between_witness :
  externalUrl (Some "xmp:external/a/mp:external/b")
  = "https://media.discordapp.net/external/a/".
Proof.
  apply (externalUrl_between "xmp:external/a/mp:external/b" "x"
           "a/mp:external/b").
  reflexivity.
Defined.

End Normalize.
