(* ===== verification/Dynamic.v ===== *)
(** * Normalisation of an untyped payload

    The types of LanyardProfile.tsx are promises about the payload that
    nothing checks when the program runs.  [normalize] of [Normalize]
    reads the program at its types; [normalize_dyn] here reads the same
    lines (100 to 136) on a value of JSON of any shape, expression by
    expression and in the order of the source, with every place where
    the language throws: the destructuring of [data], the call of [find],
    the reads of [discord_user], the calls of [includes] and [split], and
    the substitutions of the template literals, which convert a value to
    text.

    [encode] writes a typed payload as the value of JSON the service
    sends for it.  On such a value [normalize_dyn] does not throw and
    computes the view state [normalize] computes ([normalize_dyn_encode]):
    the typed reading is what the program does on every payload that
    keeps the promises of the interfaces.  The last section says which
    payloads make it throw: exactly those of [ill_shaped], stage by
    stage ([currentActivity_throws], [currentData_throws],
    [setBigImage_throws], [setSmallImage_throws]) and for the whole
    reading ([normalize_dyn_throws]). *)

From S2P Require Import Prelude JsString JsValue Json Lanyard Normalize.
Import JsString JsValue Json Normalize.

(** The [activity] of the view state, with the values as they are at run
    time. *)
Module DynActivity.
Record t : Type := mk {
  hidden : bool;
  bigImage : dyn;
  bigImageTitle : dyn;
  smallImage : dyn;
  name : dyn;
  state : dyn;
  details : dyn;
}.

(** [activity.bigImage = v] and [activity.smallImage = v]. *)
Definition set_bigImage (v : dyn) (a : t) : t :=
  mk (hidden a) v (bigImageTitle a) (smallImage a) (name a) (state a)
     (details a).

Definition set_smallImage (v : dyn) (a : t) : t :=
  mk (hidden a) (bigImage a) (bigImageTitle a) v (name a) (state a)
     (details a).
End DynActivity.

(** The view state, with the values as they are at run time. *)
Module DynProfile.
Record t : Type := mk {
  avatar : string;
  discordStatus : dyn;
  username : string;
  status : string;
  activity : DynActivity.t;
}.

Definition map_activity (f : DynActivity.t → DynActivity.t) (d : t) : t :=
  mk (avatar d) (discordStatus d) (username d) (status d) (f (activity d)).
End DynProfile.

Module Dynamic.

(** [d?. rest]: the rest of an optional chain is evaluated on a value
    that is neither [undefined] nor [null], and the chain is [undefined]
    otherwise. *)
Definition after_chain (d : dyn) (rest : json → completion dyn)
    : completion dyn :=
  match d with
  | None | Some JNull => Normal None
  | Some v => rest v
  end.

(** [d.includes(arg)] and [d.split(sep)[1]] on a value that may be
    [undefined] or [null]. *)
Definition call_includes (d : dyn) (arg : string) : completion dyn :=
  match d with
  | None => Throw (cannot_read "includes" "undefined")
  | Some JNull => Throw (cannot_read "includes" "null")
  | Some v => (λ b, Some (JBool b)) <$> includes_call v arg
  end.

Definition call_split1 (d : dyn) (sep : string) : completion dyn :=
  match d with
  | None => Throw (cannot_read "split" "undefined")
  | Some JNull => Throw (cannot_read "split" "null")
  | Some v => split_call1 v sep
  end.

(** [(activity) => activity.type !== 4]. *)
Definition notCustom (activity : json) : completion bool :=
  type ← prop "type" (Some activity); Normal (negb (is_number 4 type)).

(** [activities.find((activity) => activity.type !== 4)]. *)
Definition currentActivity (activities : dyn) : completion dyn :=
  find_call activities notCustom.

(** [currentActivity?.assets?.large_image] and
    [currentActivity?.assets?.small_image]. *)
Definition large_image (cur : dyn) : dyn :=
  chain "large_image" (chain "assets" cur).

Definition small_image (cur : dyn) : dyn :=
  chain "small_image" (chain "assets" cur).

(** [currentActivity?.assets?.large_image?.includes("spotify")]. *)
Definition isSpotify (cur : dyn) : completion dyn :=
  chain_includes (large_image cur) "spotify".

(** The two address templates.  Each substitution is converted to text
    when it is reached, from the left, and the conversion may throw. *)
Definition externalUrl (piece : dyn) : completion string :=
  text ← ToString piece;
  Normal ("https://media.discordapp.net/external/" +:+ text).

Definition appAssetUrl (cur : dyn) (img : dyn) : completion string :=
  id ← ToString (chain "application_id" cur);
  image ← ToString img;
  Normal ("https://cdn.discordapp.com/app-assets/" +:+ id +:+ "/" +:+ image
          +:+ ".png").

(** The conditional of [status]: the template with the state of the
    activity, or the empty string for an offline user. *)
Definition statusLine (discord_status cur : dyn) : completion string :=
  if negb (is_string "offline" discord_status)
  then state ← ToString (or_ (chain "state" cur) (Some (JString "")));
       Normal ("Status: " +:+ dquote +:+ state +:+ dquote)
  else Normal "".

(** The object literal [currentData], property by property. *)
Definition currentData (discord_user discord_status spotify cur : dyn)
    : completion DynProfile.t :=
  avatar ← prop "avatar" discord_user;
  avatar ← ToString avatar;
  username ← prop "username" discord_user;
  username ← ToString username;
  status ← statusLine discord_status cur;
  spot ← isSpotify cur;
  spot' ← isSpotify cur;
  Normal
    (DynProfile.mk
       ("https://cdn.discordapp.com/avatars/" +:+ tmpl USERID +:+ "/"
        +:+ avatar)
       discord_status
       ("@" +:+ username)
       status
       (DynActivity.mk
          (is_string "offline" discord_status)
          (if ToBoolean spot then chain "album_art_url" spotify
           else Some (JString ""))
          (if ToBoolean spot' then chain "album" spotify
           else Some (JString ""))
          (Some (JString ""))
          (or_ (chain "name" cur) (Some (JString "doing yo moma")))
          (or_ (chain "state" cur) (Some (JString "")))
          (or_ (chain "details" cur) (Some (JString ""))))).

(** [if (large_image && !large_image?.includes("spotify"))
    currentData.activity.bigImage = ...].  In the assignment the call of
    [includes] and of [split] is on [large_image] itself, after the
    optional chain to [assets]. *)
Definition setBigImage (cur : dyn) (d : DynProfile.t)
    : completion DynProfile.t :=
  guard ← (if ToBoolean (large_image cur)
           then spot ← isSpotify cur; Normal (negb (ToBoolean spot))
           else Normal false);
  if guard : bool then
    external ← after_chain (chain "assets" cur)
                 (λ assets, call_includes (get "large_image" assets) "external");
    url ← (if ToBoolean external
           then piece ← after_chain (chain "assets" cur)
                          (λ assets,
                             call_split1 (get "large_image" assets)
                               "mp:external/");
                externalUrl piece
           else appAssetUrl cur (large_image cur));
    Normal
      (DynProfile.map_activity
         (DynActivity.set_bigImage (Some (JString url))) d)
  else Normal d.

(** [if (small_image || !large_image?.includes("spotify"))
    currentData.activity.smallImage = ...]. *)
Definition setSmallImage (cur : dyn) (d : DynProfile.t)
    : completion DynProfile.t :=
  guard ← (if ToBoolean (small_image cur) then Normal true
           else spot ← isSpotify cur; Normal (negb (ToBoolean spot)));
  if guard : bool then
    external ← chain_includes (small_image cur) "external";
    url ← (if ToBoolean external
           then piece ← after_chain (small_image cur)
                          (λ img, split_call1 img "mp:external/");
                externalUrl piece
           else appAssetUrl cur (small_image cur));
    Normal
      (DynProfile.map_activity
         (DynActivity.set_smallImage (Some (JString url))) d)
  else Normal d.

(** Lines 100 to 136 of [fetchUserData], from [data] to the value that
    is passed to [setProfileData]. *)
Definition normalize_dyn (data : dyn) : completion DynProfile.t :=
  discord_user ← prop "discord_user" data;
  discord_status ← prop "discord_status" data;
  activities ← prop "activities" data;
  spotify ← prop "spotify" data;
  cur ← currentActivity activities;
  d ← currentData discord_user discord_status spotify cur;
  d ← setBigImage cur d;
  setSmallImage cur d.

(** [const { data } = await res.json()] and the rest: from the body of
    the answer to the value for [setProfileData]. *)
Definition of_body (body : json) : completion DynProfile.t :=
  data ← prop "data" (Some body); normalize_dyn data.

(** ** Typed payloads as values of JSON *)

Definition encode_nullable (n : nullable string) : json :=
  match n with Null => JNull | NotNull s => JString s end.

(** An optional field: present with its value, or absent. *)
Definition optional (k : string) (o : option json) : list (string * json) :=
  match o with Some v => [(k, v)] | None => [] end.

Definition encode_user (u : DiscordUser.t) : json :=
  JObject [
    ("id", JString (DiscordUser.id u));
    ("username", JString (DiscordUser.username u));
    ("avatar", encode_nullable (DiscordUser.avatar u));
    ("discriminator", JString (DiscordUser.discriminator u));
    ("bot", JBool (DiscordUser.bot u));
    ("global_name", encode_nullable (DiscordUser.global_name u));
    ("avatar_decoration", encode_nullable (DiscordUser.avatar_decoration u));
    ("display_name", encode_nullable (DiscordUser.display_name u));
    ("public_flags", JNumber (DiscordUser.public_flags u))].

Definition encode_timestamps (t : ActivityTimestamps.t) : json :=
  JObject (optional "start" (JNumber <$> ActivityTimestamps.start t)
           ++ optional "end" (JNumber <$> ActivityTimestamps.end_ t)).

Definition encode_assets (a : ActivityAssets.t) : json :=
  JObject (optional "large_image" (JString <$> ActivityAssets.large_image a)
           ++ optional "large_text" (JString <$> ActivityAssets.large_text a)
           ++ optional "small_image" (JString <$> ActivityAssets.small_image a)
           ++ optional "small_text" (JString <$> ActivityAssets.small_text a)).

Definition encode_activity (a : Activity.t) : json :=
  JObject ([("id", JString (Activity.id a));
            ("name", JString (Activity.name a));
            ("type", JNumber (Activity.type a))]
           ++ optional "state" (JString <$> Activity.state a)
           ++ optional "details" (JString <$> Activity.details a)
           ++ optional "timestamps" (encode_timestamps <$> Activity.timestamps a)
           ++ [("application_id", JString (Activity.application_id a))]
           ++ optional "assets" (encode_assets <$> Activity.assets a)
           ++ optional "created_at" (JNumber <$> Activity.created_at a)).

Definition encode_spotify (s : nullable SpotifyData.t) : json :=
  match s with
  | Null => JNull
  | NotNull s =>
      JObject [
        ("track_id", JString (SpotifyData.track_id s));
        ("timestamps",
         JObject [
           ("start", JNumber (SpotifyTimestamps.start (SpotifyData.timestamps s)));
           ("end", JNumber (SpotifyTimestamps.end_ (SpotifyData.timestamps s)))]);
        ("album", JString (SpotifyData.album s));
        ("album_art_url", JString (SpotifyData.album_art_url s));
        ("artist", JString (SpotifyData.artist s));
        ("song", JString (SpotifyData.song s))]
  end.

(** The value of JSON of a payload that keeps the promises of
    [interface LanyardData]. *)
Definition encode (d : LanyardData.t) : json :=
  JObject [
    ("spotify", encode_spotify (LanyardData.spotify d));
    ("discord_user", encode_user (LanyardData.discord_user d));
    ("activities", JArray (encode_activity <$> LanyardData.activities d));
    ("discord_status", JString (LanyardData.discord_status d));
    ("active_on_discord_web", JBool (LanyardData.active_on_discord_web d));
    ("active_on_discord_desktop",
     JBool (LanyardData.active_on_discord_desktop d));
    ("active_on_discord_mobile",
     JBool (LanyardData.active_on_discord_mobile d));
    ("listening_to_spotify", JBool (LanyardData.listening_to_spotify d))].

(** The body of an answer of the service: [{ "data": ... }]. *)
Definition body_of (d : LanyardData.t) : json :=
  JObject [("success", JBool true); ("data", encode d)].

(** A typed view state as the values it holds at run time. *)
Definition untyped (v : ProfileData.t) : DynProfile.t :=
  let a := ProfileData.activity v in
  DynProfile.mk (ProfileData.avatar v)
    (Some (JString (ProfileData.discordStatus v)))
    (ProfileData.username v) (ProfileData.status v)
    (DynActivity.mk (ProfileActivity.hidden a)
       (JString <$> ProfileActivity.bigImage a)
       (JString <$> ProfileActivity.bigImageTitle a)
       (JString <$> ProfileActivity.smallImage a)
       (JString <$> ProfileActivity.name a)
       (JString <$> ProfileActivity.state a)
       (JString <$> ProfileActivity.details a)).

(** An activity of type 4, a custom status: what the callback of [find]
    rejects. *)
Definition custom (activity : json) : Prop :=
  activity ≠ JNull ∧ get "type" activity = Some (JNumber 4).

(** The activity to show among the elements of [activities]: the first
    that is not a custom status, after custom statuses only; or none,
    when every element is a custom status. *)
Definition shown (elements : list json) (cur : dyn) : Prop :=
  match cur with
  | None => Forall custom elements
  | Some a =>
      ∃ pre post, elements = pre ++ a :: post ∧ Forall custom pre
        ∧ a ≠ JNull ∧ ¬ custom a
  end.

(** [undefined] or [null]; a value that has the method [includes]; an
    array. *)
Definition nullish (d : dyn) : bool :=
  match d with None | Some JNull => true | Some _ => false end.

Definition has_includes (d : dyn) : bool :=
  match d with Some (JString _) | Some (JArray _) => true | _ => false end.

Definition is_array (d : dyn) : bool :=
  match d with Some (JArray _) => true | _ => false end.

(** A value on which [?.includes] throws: it is there and has no such
    method. *)
Definition no_includes (d : dyn) : bool :=
  negb (nullish d) && negb (has_includes d).

(** What [includes] answers on an image that has the method: a text
    that holds [s], or an array with the text [s] among its elements. *)
Definition mentions (s : string) (img : dyn) : bool :=
  match img with
  | Some (JString t) => includes t s
  | Some (JArray elements) => existsb (λ e, is_string s (Some e)) elements
  | _ => false
  end.

(** A user the object literal cannot be built from: there is none, or
    its [avatar] or its [username] has no text. *)
Definition bad_user (discord_user : dyn) : bool :=
  nullish discord_user
  || unprintable (chain "avatar" discord_user)
  || unprintable (chain "username" discord_user).

(** A status line that cannot be built: the user is not offline and the
    [state] of the activity to show has no text. *)
Definition bad_status (discord_status cur : dyn) : bool :=
  negb (is_string "offline" discord_status)
  && unprintable (chain "state" cur).

(** An image whose address cannot be built: [includes] cannot be called
    on it; or it is an array that holds the text "external", on which
    [split] cannot be called; or it is not external and the
    [application_id] or the image itself has no text. *)
Definition bad_address (cur img : dyn) : bool :=
  no_includes img
  || (if mentions "external" img then is_array img
      else unprintable (chain "application_id" cur) || unprintable img).

(** The guards of the two assignments. *)
Definition assigns_big (cur : dyn) : bool :=
  ToBoolean (large_image cur) && negb (mentions "spotify" (large_image cur)).

Definition assigns_small (cur : dyn) : bool :=
  ToBoolean (small_image cur) || negb (mentions "spotify" (large_image cur)).

(** The images of the activity to show on which the component throws:
    a large image without [includes], or an image that is assigned and
    whose address cannot be built. *)
Definition bad_images (cur : dyn) : bool :=
  no_includes (large_image cur)
  || assigns_big cur && bad_address cur (large_image cur)
  || assigns_small cur && bad_address cur (small_image cur).

(** The shapes of [data] on which the component throws: no [data];
    [activities] that is not an array; a [null] among the activities,
    before any that is not a custom status; a user, a status line or
    images of the activity to show that cannot be read or printed. *)
Inductive ill_shaped : dyn → Prop :=
| no_data data :
    nullish data = true → ill_shaped data
| no_activities v :
    (∀ elements, get "activities" v ≠ Some (JArray elements))
    → ill_shaped (Some v)
| null_activity v pre post :
    get "activities" v = Some (JArray (pre ++ JNull :: post))
    → Forall custom pre
    → ill_shaped (Some v)
| no_user v :
    bad_user (get "discord_user" v) = true
    → ill_shaped (Some v)
| bad_activity v elements cur :
    get "activities" v = Some (JArray elements)
    → shown elements cur
    → bad_status (get "discord_status" v) cur = true ∨ bad_images cur = true
    → ill_shaped (Some v).

(** A payload that breaks the promises of the interfaces and on which
    nothing throws: the status is a number, the user has neither avatar
    nor name, the activity is a text. *)
Definition unexpected : json :=
  JObject [
    ("discord_user", JObject []);
    ("discord_status", JNumber 5);
    ("activities", JArray [JString "coding"]);
    ("spotify", JBool true)].

(** ** Typed values seen untyped *)
Section values.
Implicit Types (o : option string) (s arg : string).

Lemma ToBoolean_JString o : ToBoolean (JString <$> o) = truthy o.
Proof. by destruct o as [[|]|]. Qed.

Lemma ToString_JString o : ToString (JString <$> o) = Normal (tmpl o).
Proof. by destruct o. Qed.

Lemma ToString_encode_nullable (n : nullable string) :
  ToString (Some (encode_nullable n)) = Normal (tmpl n).
Proof. by destruct n. Qed.

Lemma or_JString o s :
  or_ (JString <$> o) (Some (JString s)) = Some (JString (js_or o s)).
Proof.
  unfold or_. rewrite ToBoolean_JString. destruct o as [s'|]; [|done].
  rewrite truthy_Some. simpl. by destruct (truthy s').
Qed.

Lemma chain_includes_JString o arg :
  chain_includes (JString <$> o) arg
  = Normal ((λ b, JBool b) <$> includes_opt o arg).
Proof. by destruct o. Qed.

Lemma ToBoolean_JBool (ob : option bool) :
  ToBoolean ((λ b, JBool b) <$> ob) = truthy ob.
Proof. by destruct ob. Qed.

End values.

#[export] Hint Rewrite ToBoolean_JString ToString_JString
  ToString_encode_nullable or_JString chain_includes_JString
  ToBoolean_JBool : js.

(** ** Reading an encoded payload *)
Section reading.
Implicit Types (a : Activity.t) (cur : option Activity.t).
Implicit Types (u : DiscordUser.t) (d : LanyardData.t).

Lemma prop_avatar u :
  prop "avatar" (Some (encode_user u))
  = Normal (Some (encode_nullable (DiscordUser.avatar u))).
Proof. reflexivity. Qed.

Lemma prop_username u :
  prop "username" (Some (encode_user u))
  = Normal (Some (JString (DiscordUser.username u))).
Proof. reflexivity. Qed.

Lemma notCustom_encode a :
  notCustom (encode_activity a) = Normal (negb (Activity.type a =? 4)%Z).
Proof.
  unfold notCustom. simpl. do 2 f_equal.
  case_bool_decide as E; [by rewrite E|]. symmetry. by apply Z.eqb_neq.
Qed.

(** The activity [find] selects in the encoded list is the encoding of
    the activity the typed reading selects. *)
Lemma currentActivity_encode (acts : list Activity.t) :
  currentActivity (Some (JArray (encode_activity <$> acts)))
  = Normal (encode_activity <$> Normalize.currentActivity acts).
Proof.
  unfold currentActivity, Normalize.currentActivity. simpl.
  induction acts as [|a acts IH]; [done|].
  cbn [fmap list_fmap find_go List.find]. rewrite notCustom_encode.
  cbn [mbind completion_bind]. by destruct (negb _).
Qed.

Lemma chain_assets cur :
  chain "assets" (encode_activity <$> cur)
  = encode_assets <$> (cur ≫= Activity.assets).
Proof.
  destruct cur as [[? ? ? [] [] [] ? [] []]|]; reflexivity.
Qed.

Lemma chain_state cur :
  chain "state" (encode_activity <$> cur) = JString <$> (cur ≫= Activity.state).
Proof.
  destruct cur as [[? ? ? [] [] [] ? [] []]|]; reflexivity.
Qed.

Lemma chain_details cur :
  chain "details" (encode_activity <$> cur)
  = JString <$> (cur ≫= Activity.details).
Proof.
  destruct cur as [[? ? ? [] [] [] ? [] []]|]; reflexivity.
Qed.

Lemma chain_name cur :
  chain "name" (encode_activity <$> cur) = JString <$> (Activity.name <$> cur).
Proof. by destruct cur. Qed.

Lemma chain_application_id cur :
  chain "application_id" (encode_activity <$> cur)
  = JString <$> (Activity.application_id <$> cur).
Proof.
  destruct cur as [[? ? ? [] [] [] ? [] []]|]; reflexivity.
Qed.

Lemma large_image_encode cur :
  large_image (encode_activity <$> cur) = JString <$> Normalize.large_image cur.
Proof.
  unfold large_image, Normalize.large_image. rewrite chain_assets.
  destruct (cur ≫= Activity.assets) as [[[] [] [] []]|]; reflexivity.
Qed.

Lemma small_image_encode cur :
  small_image (encode_activity <$> cur) = JString <$> Normalize.small_image cur.
Proof.
  unfold small_image, Normalize.small_image. rewrite chain_assets.
  destruct (cur ≫= Activity.assets) as [[[] [] [] []]|]; reflexivity.
Qed.

Lemma isSpotify_encode cur :
  isSpotify (encode_activity <$> cur)
  = Normal ((λ b, JBool b)
              <$> includes_opt (Normalize.large_image cur) "spotify").
Proof.
  unfold isSpotify. by rewrite large_image_encode, chain_includes_JString.
Qed.

Lemma chain_album_art_url (s : nullable SpotifyData.t) :
  chain "album_art_url" (Some (encode_spotify s))
  = JString <$> null_chain s SpotifyData.album_art_url.
Proof. by destruct s. Qed.

Lemma chain_album (s : nullable SpotifyData.t) :
  chain "album" (Some (encode_spotify s))
  = JString <$> null_chain s SpotifyData.album.
Proof. by destruct s. Qed.

Lemma appAssetUrl_encode cur (img : option string) :
  appAssetUrl (encode_activity <$> cur) (JString <$> img)
  = Normal (Normalize.appAssetUrl cur img).
Proof.
  unfold appAssetUrl, Normalize.appAssetUrl.
  by rewrite chain_application_id, !ToString_JString.
Qed.

Lemma large_includes cur img arg :
  Normalize.large_image cur = Some img
  → after_chain (chain "assets" (encode_activity <$> cur))
      (λ assets, call_includes (get "large_image" assets) arg)
    = Normal (Some (JBool (includes img arg))).
Proof.
  unfold Normalize.large_image. rewrite chain_assets.
  destruct (cur ≫= Activity.assets) as [[[] [] [] []]|]; simpl;
    by intros [= ->].
Qed.

Lemma large_split1 cur img sep :
  Normalize.large_image cur = Some img
  → after_chain (chain "assets" (encode_activity <$> cur))
      (λ assets, call_split1 (get "large_image" assets) sep)
    = Normal (JString <$> nth1 (split img sep)).
Proof.
  unfold Normalize.large_image. rewrite chain_assets.
  destruct (cur ≫= Activity.assets) as [[[] [] [] []]|]; simpl;
    by intros [= ->].
Qed.

Lemma small_split1 (o : option string) sep :
  after_chain (JString <$> o) (λ img, split_call1 img sep)
  = Normal (JString <$> (o ≫= λ s, nth1 (split s sep))).
Proof. by destruct o. Qed.

Lemma prop_encode d :
  prop "discord_user" (Some (encode d))
  = Normal (Some (encode_user (LanyardData.discord_user d)))
  ∧ prop "discord_status" (Some (encode d))
    = Normal (Some (JString (LanyardData.discord_status d)))
  ∧ prop "activities" (Some (encode d))
    = Normal (Some (JArray (encode_activity <$> LanyardData.activities d)))
  ∧ prop "spotify" (Some (encode d))
    = Normal (Some (encode_spotify (LanyardData.spotify d))).
Proof. split_and!; reflexivity. Qed.

End reading.

(** ** The typed reading is the untyped one on typed payloads *)
Section refinement.
Implicit Types (cur : option Activity.t) (d : LanyardData.t).
Implicit Types (v : ProfileData.t).

Lemma statusLine_encode (ds : string) cur :
  statusLine (Some (JString ds)) (encode_activity <$> cur)
  = Normal (if negb (bool_decide (ds = "offline"))
            then "Status: " +:+ dquote
                 +:+ tmpl (js_or (cur ≫= Activity.state) "") +:+ dquote
            else "").
Proof.
  unfold statusLine. cbn [is_string]. destruct (negb _); [|done].
  by rewrite chain_state, or_JString.
Qed.

Lemma currentData_encode d :
  currentData (Some (encode_user (LanyardData.discord_user d)))
    (Some (JString (LanyardData.discord_status d)))
    (Some (encode_spotify (LanyardData.spotify d)))
    (encode_activity <$> Normalize.currentActivity (LanyardData.activities d))
  = Normal (untyped (Normalize.currentData d)).
Proof.
  unfold currentData.
  rewrite prop_avatar, prop_username, isSpotify_encode, statusLine_encode.
  cbn [mbind completion_bind]. rewrite ToString_encode_nullable.
  cbn [mbind completion_bind ToString ToString_json]. f_equal.
  rewrite chain_state, chain_details, chain_name, chain_album,
    chain_album_art_url, !or_JString, ToBoolean_JBool.
  unfold untyped, Normalize.currentData. cbn [is_string].
  rewrite bool_decide_not. view_simpl.
  fold (Normalize.isSpotify
          (Normalize.currentActivity (LanyardData.activities d))).
  by destruct (Normalize.isSpotify _).
Qed.

Lemma untyped_set_bigImage url v :
  DynProfile.map_activity (DynActivity.set_bigImage (Some (JString url)))
    (untyped v)
  = untyped
      (ProfileData.map_activity (ProfileActivity.set_bigImage (Some url)) v).
Proof. reflexivity. Qed.

Lemma untyped_set_smallImage url v :
  DynProfile.map_activity (DynActivity.set_smallImage (Some (JString url)))
    (untyped v)
  = untyped
      (ProfileData.map_activity (ProfileActivity.set_smallImage (Some url)) v).
Proof. reflexivity. Qed.

(** The address the assignment to [bigImage] builds, when the large
    image is present. *)
Lemma bigImage_url cur img :
  Normalize.large_image cur = Some img
  → (external ← after_chain (chain "assets" (encode_activity <$> cur))
                  (λ assets,
                     call_includes (get "large_image" assets) "external");
     if ToBoolean external
     then piece ← after_chain (chain "assets" (encode_activity <$> cur))
                    (λ assets,
                       call_split1 (get "large_image" assets) "mp:external/");
          externalUrl piece
     else appAssetUrl (encode_activity <$> cur)
            (JString <$> Normalize.large_image cur))
    = Normal (resolveImage cur (Some img)).
Proof.
  intros E. rewrite (large_includes cur img), (large_split1 cur img) by done.
  rewrite E, (appAssetUrl_encode cur (Some img)).
  cbn [mbind completion_bind ToBoolean]. unfold resolveImage.
  cbn [includes_opt fmap option_fmap option_map]. rewrite truthy_Some, truthy_bool.
  destruct (includes img "external"); [|done].
  cbn [mbind completion_bind]. unfold externalUrl.
  by rewrite ToString_JString.
Qed.

Lemma setBigImage_encode cur v :
  setBigImage (encode_activity <$> cur) (untyped v)
  = Normal (untyped (Normalize.setBigImage cur v)).
Proof.
  unfold setBigImage, Normalize.setBigImage.
  rewrite large_image_encode, ToBoolean_JString, isSpotify_encode.
  destruct (truthy (Normalize.large_image cur)) eqn:T; [|done].
  cbn [mbind completion_bind]. rewrite ToBoolean_JBool.
  fold (Normalize.isSpotify cur). destruct (Normalize.isSpotify cur); [done|].
  cbn [negb andb]. apply truthy_opt_string in T as (img & E & _).
  rewrite <-bind_assoc, (bigImage_url cur img E), E.
  by rewrite bind_Normal, untyped_set_bigImage.
Qed.

(** The address the assignment to [smallImage] builds. *)
Lemma smallImage_url cur :
  (external ← chain_includes (JString <$> Normalize.small_image cur)
                "external";
   if ToBoolean external
   then piece ← after_chain (JString <$> Normalize.small_image cur)
                  (λ img, split_call1 img "mp:external/");
        externalUrl piece
   else appAssetUrl (encode_activity <$> cur)
          (JString <$> Normalize.small_image cur))
  = Normal (resolveImage cur (Normalize.small_image cur)).
Proof.
  rewrite chain_includes_JString, small_split1, appAssetUrl_encode.
  cbn [mbind completion_bind]. rewrite ToBoolean_JBool. unfold resolveImage.
  destruct (truthy (includes_opt _ _)); [|done].
  cbn [mbind completion_bind]. unfold externalUrl, Normalize.externalUrl.
  by rewrite ToString_JString.
Qed.

Lemma setSmallImage_encode cur v :
  setSmallImage (encode_activity <$> cur) (untyped v)
  = Normal (untyped (Normalize.setSmallImage cur v)).
Proof.
  unfold setSmallImage, Normalize.setSmallImage.
  rewrite small_image_encode, ToBoolean_JString, isSpotify_encode.
  assert ((if truthy (Normalize.small_image cur) then Normal true
           else spot ← Normal ((λ b, JBool b)
                         <$> includes_opt (Normalize.large_image cur)
                               "spotify");
                Normal (negb (ToBoolean spot)))
          = Normal (truthy (Normalize.small_image cur)
                    || negb (Normalize.isSpotify cur))) as ->.
  { destruct (truthy _); [done|]. cbn [mbind completion_bind].
    by rewrite ToBoolean_JBool. }
  cbn [mbind completion_bind]. destruct (_ || _); [|done].
  by rewrite <-bind_assoc, smallImage_url, bind_Normal,
    untyped_set_smallImage.
Qed.

Lemma normalize_dyn_untyped d :
  normalize_dyn (Some (encode d)) = Normal (untyped (normalize d)).
Proof.
  unfold normalize_dyn. destruct (prop_encode d) as (-> & -> & -> & ->).
  cbn [mbind completion_bind]. rewrite currentActivity_encode.
  cbn [mbind completion_bind]. rewrite currentData_encode.
  cbn [mbind completion_bind]. rewrite setBigImage_encode.
  cbn [mbind completion_bind]. by rewrite setSmallImage_encode.
Qed.

Lemma normalize_dyn_encode_eq d :
  of_body (body_of d) = Normal (untyped (normalize d)).
Proof. apply normalize_dyn_untyped. Qed.

(** C5: the typed reading is exact on typed payloads.  On the value of
    JSON of a payload that keeps the promises of [interface LanyardData],
    and on the body that holds it, the lines 98 to 136 do not throw and
    compute the view state the typed reading computes. *)
Theorem normalize_dyn_encode d :
  normalize_dyn (Some (encode d)) = Normal (untyped (normalize d))
  ∧ of_body (body_of d) = Normal (untyped (normalize d)).
Proof. split; apply normalize_dyn_untyped. Qed.

End refinement.

(** ** The payloads on which the component throws *)
Section errors.
Implicit Types (v activity : json) (data : dyn).

Lemma notCustom_custom activity :
  notCustom activity = Normal false ↔ custom activity.
Proof.
  unfold notCustom, custom.
  destruct activity as [| | | | |fields]; simpl;
    try (split; [done|by intros [_ ?]]).
  destruct (assoc "type" fields) as [[| |n| | |]|]; simpl;
    try (split; [done|by intros [_ ?]]).
  case_bool_decide as E; simpl; [by rewrite E|].
  split; [done|]. intros [_ [= ?]]. done.
Qed.

Lemma notCustom_throws activity : throws (notCustom activity) ↔ activity = JNull.
Proof. by destruct activity. Qed.

Lemma prop_not_null k v : v ≠ JNull → prop k (Some v) = Normal (get k v).
Proof. by destruct v. Qed.

Lemma notCustom_true activity :
  notCustom activity = Normal true ↔ activity ≠ JNull ∧ ¬ custom activity.
Proof.
  rewrite <-notCustom_custom, <-notCustom_throws.
  destruct (notCustom activity) as [[]|]; simpl; split; try done.
  - by split; [intros []|].
  - by intros [_ []].
  - by intros [[] _].
Qed.

Lemma Forall_custom pre :
  Forall (λ x, notCustom x = Normal false) pre ↔ Forall custom pre.
Proof. apply Forall_proper; [|done]. intros x. apply notCustom_custom. Qed.

(** [find] returns the activity to show. *)
Lemma currentActivity_shown data cur :
  currentActivity data = Normal cur
  ↔ ∃ elements, data = Some (JArray elements) ∧ shown elements cur.
Proof.
  destruct data as [[| | | |elements|]|]; simpl;
    try (split; [done|by intros (? & ? & _)]).
  unfold shown. destruct cur as [a|].
  - rewrite find_go_Some. setoid_rewrite Forall_custom.
    setoid_rewrite notCustom_true. split.
    + intros (pre & post & -> & Hpre & Ha).
      exists (pre ++ a :: post). split; [done|]. by exists pre, post.
    + intros (? & [= <-] & pre & post & -> & Hpre & Ha).
      by exists pre, post.
  - rewrite find_go_None, Forall_custom. split; [eauto|].
    by intros (? & [= <-] & ?).
Qed.

Lemma currentActivity_throws data :
  throws (currentActivity data)
  ↔ (∀ elements, data ≠ Some (JArray elements))
    ∨ ∃ pre post, data = Some (JArray (pre ++ JNull :: post))
        ∧ Forall custom pre.
Proof.
  destruct data as [[| | | |elements|]|]; simpl;
    try (split; [by left|done]).
  rewrite find_go_throws. split.
  - intros (pre & e & post & -> & Hpre & ->%notCustom_throws).
    right. exists pre, post. split; [done|].
    eapply Forall_impl; [done|]. intros a. apply notCustom_custom.
  - intros [H|(pre & post & [= ->] & Hpre)]; [by destruct (H elements)|].
    exists pre, JNull, post. split_and!; [done| |done].
    eapply Forall_impl; [done|]. intros a. apply notCustom_custom.
Qed.

(** The calls of [includes] on the images. *)
Lemma chain_includes_throws img arg :
  throws (chain_includes img arg) ↔ no_includes img = true.
Proof. by destruct img as [[]|]. Qed.

Lemma chain_includes_Normal img arg :
  no_includes img = false
  → ∃ r, chain_includes img arg = Normal r ∧ ToBoolean r = mentions arg img.
Proof. destruct img as [[]|]; try done; simpl; eauto. Qed.

Lemma after_chain_assets cur (f : dyn → completion dyn) :
  nullish (large_image cur) = false
  → after_chain (chain "assets" cur) (λ assets, f (get "large_image" assets))
    = f (large_image cur).
Proof. unfold large_image. by destruct (chain "assets" cur) as [[]|]. Qed.

Lemma call_includes_chain img arg :
  nullish img = false → call_includes img arg = chain_includes img arg.
Proof. by destruct img as [[]|]. Qed.

Lemma call_split1_chain img sep :
  nullish img = false
  → call_split1 img sep = after_chain img (λ v, split_call1 v sep).
Proof. by destruct img as [[]|]. Qed.

(** The templates. *)
Lemma unprintable_or x s :
  unprintable (or_ x (Some (JString s))) = unprintable x.
Proof.
  unfold or_. destruct (ToBoolean x) eqn:E; [done|]. symmetry.
  apply not_true_is_false. intros H%unprintable_ToBoolean. congruence.
Qed.

Lemma statusLine_throws ds cur :
  throws (statusLine ds cur) ↔ bad_status ds cur = true.
Proof.
  unfold statusLine, bad_status. destruct (negb _); simpl; [|done].
  rewrite (throws_seq _ _ False), ToString_throws, unprintable_or by done.
  tauto.
Qed.

Lemma appAssetUrl_throws cur img :
  throws (appAssetUrl cur img)
  ↔ unprintable (chain "application_id" cur) || unprintable img = true.
Proof.
  unfold appAssetUrl.
  rewrite (throws_seq _ _ (throws (ToString img) ∨ False)),
    !ToString_throws, orb_true_iff; [tauto|].
  intros id. by apply throws_seq.
Qed.

(** The address of an image: the conditional of the two assignments. *)
Lemma address_throws cur img :
  throws (external ← chain_includes img "external";
          if ToBoolean external
          then piece ← after_chain img (λ v, split_call1 v "mp:external/");
               externalUrl piece
          else appAssetUrl cur img)
  ↔ bad_address cur img = true.
Proof.
  unfold bad_address. destruct (no_includes img) eqn:Hn.
  { split; [done|]. intros _. apply throws_bind. left.
    by apply chain_includes_throws. }
  destruct (chain_includes_Normal img "external" Hn) as (r & -> & Hr).
  cbn [mbind completion_bind orb]. rewrite Hr.
  destruct (mentions "external" img) eqn:Hm; [|apply appAssetUrl_throws].
  destruct img as [[| | |s|l|]|]; try done; simpl.
  by destruct (nth1 (split s _)).
Qed.

(** The large image as the assignment reads it, after a guard that
    found it truthy. *)
Lemma big_address cur (k : dyn → completion string) :
  nullish (large_image cur) = false
  → (external ← after_chain (chain "assets" cur)
                  (λ assets, call_includes (get "large_image" assets)
                               "external");
     if ToBoolean external
     then piece ← after_chain (chain "assets" cur)
                    (λ assets, call_split1 (get "large_image" assets)
                                 "mp:external/");
          externalUrl piece
     else k (large_image cur))
    = (external ← chain_includes (large_image cur) "external";
       if ToBoolean external
       then piece ← after_chain (large_image cur)
                      (λ v, split_call1 v "mp:external/");
            externalUrl piece
       else k (large_image cur)).
Proof.
  intros Hn.
  rewrite (after_chain_assets cur (λ x, call_includes x "external")),
    (after_chain_assets cur (λ x, call_split1 x "mp:external/")) by done.
  by rewrite call_includes_chain, call_split1_chain.
Qed.

(** ** Stage by stage *)

Lemma currentData_throws du ds sp cur :
  throws (currentData du ds sp cur)
  ↔ bad_user du = true ∨ bad_status ds cur = true
    ∨ no_includes (large_image cur) = true.
Proof.
  unfold currentData, bad_user. destruct (nullish du) eqn:Hdu.
  { split; [by left|]. intros _. by destruct du as [[]|]. }
  assert (∀ k, prop k du = Normal (chain k du)) as Hprop
    by (intros k; by destruct du as [[]|]).
  rewrite !Hprop. cbn [mbind completion_bind orb].
  rewrite orb_true_iff, <-!ToString_throws, <-statusLine_throws,
    <-(chain_includes_throws _ "spotify").
  fold (isSpotify cur).
  rewrite (throws_seq _ _
    (throws (ToString (chain "username" du))
     ∨ throws (statusLine ds cur) ∨ throws (isSpotify cur))); [tauto|].
  intros avatar.
  apply throws_seq. intros username. apply throws_seq. intros status.
  rewrite (throws_seq _ _ (throws (isSpotify cur))); [tauto|].
  intros spot. by rewrite (throws_seq _ _ False); [tauto|].
Qed.

Lemma isSpotify_Normal cur :
  no_includes (large_image cur) = false
  → ∃ r, isSpotify cur = Normal r
      ∧ ToBoolean r = mentions "spotify" (large_image cur).
Proof. apply chain_includes_Normal. Qed.

Lemma setBigImage_throws cur d :
  no_includes (large_image cur) = false
  → throws (setBigImage cur d)
    ↔ assigns_big cur && bad_address cur (large_image cur) = true.
Proof.
  intros Hn. unfold setBigImage, assigns_big.
  destruct (isSpotify_Normal cur Hn) as (r & -> & Hr).
  destruct (ToBoolean (large_image cur)) eqn:Hli; [|done].
  cbn [mbind completion_bind andb]. rewrite Hr.
  destruct (negb (mentions _ _)); [|done]. cbn [andb].
  rewrite <-bind_assoc, (big_address cur (appAssetUrl cur))
    by (by destruct (large_image cur) as [[]|]).
  rewrite (throws_seq _ _ False) by done. rewrite address_throws. tauto.
Qed.

Lemma setSmallImage_throws cur d :
  no_includes (large_image cur) = false
  → throws (setSmallImage cur d)
    ↔ assigns_small cur && bad_address cur (small_image cur) = true.
Proof.
  intros Hn. unfold setSmallImage, assigns_small.
  destruct (isSpotify_Normal cur Hn) as (r & -> & Hr).
  assert ((if ToBoolean (small_image cur) then Normal true
           else spot ← Normal r; Normal (negb (ToBoolean spot)))
          = Normal (ToBoolean (small_image cur) || negb (ToBoolean r)))
    as -> by (by destruct (ToBoolean (small_image cur))).
  cbn [mbind completion_bind]. rewrite Hr.
  destruct (_ || _); [|done]. cbn [andb].
  rewrite <-bind_assoc, (throws_seq _ _ False) by done.
  rewrite address_throws. tauto.
Qed.

Lemma normalize_dyn_Some v :
  v ≠ JNull
  → normalize_dyn (Some v)
    = cur ← currentActivity (get "activities" v);
      d ← currentData (get "discord_user" v) (get "discord_status" v)
             (get "spotify" v) cur;
      d ← setBigImage cur d;
      setSmallImage cur d.
Proof. intros Hv. unfold normalize_dyn. by rewrite !prop_not_null. Qed.

(** After [find]: the object literal and the two assignments throw
    exactly on a bad user, a bad status line or bad images. *)
Lemma after_find_throws du ds sp cur :
  throws (d ← currentData du ds sp cur; d ← setBigImage cur d;
          setSmallImage cur d)
  ↔ bad_user du = true ∨ bad_status ds cur = true ∨ bad_images cur = true.
Proof.
  unfold bad_images. destruct (no_includes (large_image cur)) eqn:Hn.
  { rewrite throws_bind, currentData_throws, Hn. cbn [orb]. tauto. }
  rewrite (throws_seq _ _
    (assigns_big cur && bad_address cur (large_image cur) = true
     ∨ assigns_small cur && bad_address cur (small_image cur) = true)).
  - rewrite currentData_throws, Hn, !orb_true_iff. cbn [orb].
    intuition congruence.
  - intros d. apply throws_seq_iff; [by apply setBigImage_throws|].
    intros d'. by apply setSmallImage_throws.
Qed.

Lemma ill_shaped_throws data : ill_shaped data → throws (normalize_dyn data).
Proof.
  intros [data' Hd|v Hv|v pre post Hv Hpre|v Hu|v elements cur Hv Hcur Hbad];
    [by destruct data' as [[]|]|..];
    (destruct (decide (v = JNull)) as [->|Hn]; [done|]);
    rewrite normalize_dyn_Some by done; apply throws_bind.
  - left. apply currentActivity_throws. by left.
  - left. apply currentActivity_throws. right. by exists pre, post.
  - destruct (currentActivity _) as [cur|]; [right|by left].
    exists cur. split; [done|]. apply after_find_throws. by left.
  - right. exists cur. split; [|apply after_find_throws; by right].
    apply currentActivity_shown. eauto.
Qed.

Lemma throws_ill_shaped data : throws (normalize_dyn data) → ill_shaped data.
Proof.
  destruct data as [v|]; [|by constructor].
  destruct (decide (v = JNull)) as [->|Hv]; [by constructor|].
  rewrite normalize_dyn_Some by done.
  intros [Hc|(cur & Hcur & [H|H]%after_find_throws)]%throws_bind.
  - apply currentActivity_throws in Hc as [Hc|(pre & post & Hc & Hpre)].
    + by apply no_activities.
    + by eapply null_activity.
  - by apply no_user.
  - apply currentActivity_shown in Hcur as (elements & Hv' & Hcur).
    by eapply bad_activity.
Qed.

(** The same from the body: a body that is [null] has no [data] to
    read, and any other body has the [data] of [get]. *)
Lemma of_body_throws body :
  throws (of_body body) ↔ ill_shaped (get "data" body).
Proof.
  unfold of_body. destruct (decide (body = JNull)) as [->|Hb].
  - split; [by constructor|done].
  - rewrite prop_not_null by done.
    split; [apply throws_ill_shaped|apply ill_shaped_throws].
Qed.

(** C13: the payloads on which the component throws.  The lines 98 to
    136 throw exactly on the values of [data] that [ill_shaped] lists:
    [undefined] or [null]; [activities] that is not an array, or that
    holds a [null] before the first activity that is not a custom
    status; no [discord_user], or one whose [avatar] or [username] cannot
    be converted to text; a user that is not offline with a [state] that
    cannot be converted to text; a large image without the method
    [includes]; an image that is assigned and whose address cannot be
    built. *)
Theorem normalize_dyn_throws data body :
  (throws (normalize_dyn data) ↔ ill_shaped data)
  ∧ (throws (of_body body) ↔ ill_shaped (get "data" body)).
Proof.
  split; [|apply of_body_throws].
  split; [apply throws_ill_shaped|apply ill_shaped_throws].
Qed.

End errors.

(** A payload of an unexpected shape that is not ill-shaped: the lines
    run to their end on it. *)
Lemma normalize_dyn_throws_witness : ¬ ill_shaped (Some unexpected).
Proof.
  intros H.
  exact (proj2 (proj1 (normalize_dyn_throws (Some unexpected) JNull)) H).
Defined.

End Dynamic.
