(* ===== verification/Fetch.v ===== *)
(** * The fetch boundary: how one call of [fetchUserData] ends

    [fetchUserData] awaits the request, awaits the body, normalises the
    payload and calls [setProfileData]; whatever is thrown on the way is
    caught and logged (LanyardProfile.tsx, lines 95-144).  [outcome] lists
    the ways the two awaits and the destructuring can end, [fetchUserData]
    is the effect of the call on the state of the widget once the outcome
    is known.  The state of the widget is the cell of [useState] together
    with what has been written to the console.

    [run] applies a sequence of outcomes in the order in which the calls
    end, which is the order that matters: the calls are asynchronous and
    may end in another order than they were started in. *)

From S2P Require Import Prelude JsString JsValue Lanyard Normalize.
Import JsValue Normalize.

Module Fetch.

(** The ways a call ends.  [fetch] rejects on a network failure only: a
    response with an error status is a response, and fails later, when
    its body has no [data] of the expected shape. *)
Inductive outcome : Type :=
| Rejected (err : string)
| BadBody (err : string)
| BadShape (err : string)
| Fulfilled (data : LanyardData.t).

#[global] Instance outcome_eq_dec : EqDecision outcome.
Proof. solve_decision. Defined.

(** The state of the widget. *)
Record t : Type := mk {
  profileData : ProfileData.t;
  console : list string;
}.

#[global] Instance eq_dec : EqDecision t.
Proof. solve_decision. Defined.

(** The state after the first render. *)
Definition initial (loader : string) : t := mk (ProfileData.initial loader) [].

(** [{ ...prevData, ...currentData }]: every key of the view state is a
    key of [currentData], so each is taken from it; the copy is shallow,
    [activity] is taken whole. *)
Definition spread (prevData currentData : ProfileData.t) : ProfileData.t :=
  ProfileData.mk
    (ProfileData.avatar currentData)
    (ProfileData.discordStatus currentData)
    (ProfileData.username currentData)
    (ProfileData.status currentData)
    (ProfileData.activity currentData).

(** [setProfileData(updater)]: the cell takes the value the updater
    computes from the value it holds. *)
Definition setProfileData (updater : ProfileData.t → ProfileData.t)
    (w : t) : t :=
  mk (updater (profileData w)) (console w).

(** [console.error(err)]. *)
Definition console_error (err : string) (w : t) : t :=
  mk (profileData w) (console w ++ [err]).

(** The error a failed call logs. *)
Definition error_of (o : outcome) : option string :=
  match o with
  | Rejected err | BadBody err | BadShape err => Some err
  | Fulfilled _ => None
  end.

(** A call has failed when it logs an error. *)
Definition has_failed (o : outcome) : bool := bool_decide (is_Some (error_of o)).

(** One call of [fetchUserData], from its outcome. *)
Definition fetchUserData (o : outcome) (w : t) : t :=
  match o with
  | Fulfilled data =>
      let currentData := normalize data in
      setProfileData (λ prevData, spread prevData currentData) w
  | Rejected err | BadBody err | BadShape err => console_error err w
  end.

(** The calls that end, in the order in which they end. *)
Definition run (os : list outcome) (w : t) : t :=
  fold_left (λ w o, fetchUserData o w) os w.

(** The payload of the last call of a sequence that was fulfilled. *)
Definition last_fulfilled (os : list outcome) : option LanyardData.t :=
  last (omap (λ o, match o with Fulfilled d => Some d | _ => None end) os).

(** The errors of a sequence of calls, in order. *)
Definition errors (os : list outcome) : list string := omap error_of os.

Section facts.
Implicit Types (o : outcome) (os : list outcome) (w : t) (d : LanyardData.t).

Lemma spread_eq (prevData currentData : ProfileData.t) :
  spread prevData currentData = currentData.
Proof. by destruct currentData. Qed.

Lemma fetchUserData_Fulfilled d w :
  fetchUserData (Fulfilled d) w = mk (normalize d) (console w).
Proof. unfold fetchUserData, setProfileData. by rewrite spread_eq. Qed.

Lemma fetchUserData_error o err w :
  error_of o = Some err
  → fetchUserData o w = mk (profileData w) (console w ++ [err]).
Proof. by destruct o; intros [= ->]. Qed.

Lemma profileData_has_failed o w :
  has_failed o = true → profileData (fetchUserData o w) = profileData w.
Proof.
  unfold has_failed. intros [err E]%bool_decide_eq_true.
  by rewrite (fetchUserData_error o err).
Qed.

(** Payloads that read the same have the same effect. *)
Lemma fetchUserData_same_reading d1 d2 w :
  same_reading d1 d2
  → fetchUserData (Fulfilled d1) w = fetchUserData (Fulfilled d2) w.
Proof. intros Hd. rewrite !fetchUserData_Fulfilled. by rewrite Hd. Qed.

Lemma run_nil w : run [] w = w.
Proof. done. Qed.

Lemma run_cons o os w : run (o :: os) w = run os (fetchUserData o w).
Proof. done. Qed.

Lemma run_app os1 os2 w : run (os1 ++ os2) w = run os2 (run os1 w).
Proof. apply fold_left_app. Qed.

Lemma run_snoc os o w : run (os ++ [o]) w = fetchUserData o (run os w).
Proof. by rewrite run_app. Qed.

Lemma last_fulfilled_snoc os o :
  last_fulfilled (os ++ [o])
  = match o with Fulfilled d => Some d | _ => last_fulfilled os end.
Proof.
  unfold last_fulfilled. rewrite omap_app.
  destruct o; simpl; by rewrite ?app_nil_r, ?last_snoc.
Qed.

Lemma errors_snoc os o :
  errors (os ++ [o]) = errors os ++ option_list (error_of o).
Proof. unfold errors. rewrite omap_app. by destruct o. Qed.


(** After any sequence of calls the view state is the normalised payload
    of the call that was fulfilled last, in the order in which the calls
    ended, and the initial one when none was. *)
Lemma run_profileData os w :
  profileData (run os w)
  = from_option normalize (profileData w) (last_fulfilled os).
Proof.
  induction os as [|o os IH] using rev_ind; [done|].
  rewrite run_snoc, last_fulfilled_snoc.
  destruct o as [err|err|err|d]; [exact IH..|].
  by rewrite fetchUserData_Fulfilled.
Qed.

(** The console holds the errors of the failed calls, in the order in
    which the calls ended, after what it held before. *)
Lemma run_console os w : console (run os w) = console w ++ errors os.
Proof.
  induction os as [|o os IH] using rev_ind; [by rewrite app_nil_r|].
  rewrite run_snoc, errors_snoc, app_assoc, <-IH.
  destruct o as [err|err|err|d]; [done..|].
  by rewrite fetchUserData_Fulfilled, app_nil_r.
Qed.

End facts.

(** ** What a call does to the state *)
Section properties.
Implicit Types (o : outcome) (os : list outcome) (w : t) (d : LanyardData.t).

(** C3: a call that fails (the request is rejected, the body is not JSON
    or has not the expected shape) leaves the view state as it was and
    appends its error to the console: nothing is thrown, nothing partial
    is committed. *)
Theorem fetchUserData_failure o err w :
  error_of o = Some err
  → profileData (fetchUserData o w) = profileData w
    ∧ console (fetchUserData o w) = console w ++ [err].
Proof. intros E. by rewrite (fetchUserData_error o err). Qed.

(** the view state changes only when a call is fulfilled. *)
Theorem fetchUserData_changes o w :
  profileData (fetchUserData o w) ≠ profileData w → ∃ d, o = Fulfilled d.
Proof. destruct o as [err|err|err|d]; [done..|by exists d]. Qed.

End properties.

(** ** The theorems at concrete outcomes *)

Lemma fetchUserData_failure_witness :
  profileData
    (fetchUserData (Rejected "TypeError: Failed to fetch") (initial "l.gif"))
  = ProfileData.initial "l.gif"
  ∧ console
      (fetchUserData (Rejected "TypeError: Failed to fetch") (initial "l.gif"))
    = ["TypeError: Failed to fetch"].
Proof.
  apply (fetchUserData_failure (Rejected "TypeError: Failed to fetch")
           "TypeError: Failed to fetch" (initial "l.gif")).
  reflexivity.
Defined.

Lemma fetchUserData_changes_witness :
  ∃ d, Fulfilled Samples.online_game = Fulfilled d.
Proof.
  apply (fetchUserData_changes (Fulfilled Samples.online_game)
           (initial "l.gif")).
  vm_compute. discriminate.
Defined.

End Fetch.
