(* ===== verification/Scheduler.v ===== *)
(** * The poll scheduler: the effect of [useEffect] and its timer

    The effect (LanyardProfile.tsx, lines 146-154) starts one call of
    [fetchUserData] when the widget is mounted and registers a timer that
    starts another one every second; its cleanup clears the timer when the
    widget is unmounted.  Each call is asynchronous: it is started, stays
    pending while the request is under way, and ends later, in any order
    with respect to the other calls and to the timer.

    The scheduler is modelled as a labelled transition system over one
    instance of the widget.  The events are [Mount], [Tick] (the timer
    fires), [Settle i o] (the pending call [i] ends with outcome [o]) and
    [Unmount]; [exec] is the executable transition function, [step] the
    transition relation, [reachable] its closure from the initial state.
    Time is not modelled: a tick may happen at any moment while the timer
    is registered, and a pending call may end at any moment, so that every
    schedule of the event loop is a run of the model.

    The scheduler does not look inside the calls.  What it needs from the
    fetcher is the interface [Fetcher]: the effect of a call that ends on
    the state of the widget, what the widget shows, and the promise that
    a failed call does not change what is shown. *)

From S2P Require Import Prelude.

Module Scheduler.

(** The interface to the fetcher: [W] is the state of the widget, [Out]
    the outcomes of a call, [V] what the widget shows. *)
Class Fetcher (W Out V : Type) : Type := {
  settle : Out → W → W;
  shown : W → V;
  failed : Out → bool;
  settle_failed o w : failed o = true → shown (settle o w) = shown w;
}.

(** The life of one instance of the widget. *)
Inductive phase : Type := Fresh | Mounted | Disposed.

#[global] Instance phase_eq_dec : EqDecision phase.
Proof. solve_decision. Defined.

(** The events of the loop. *)
Inductive event (Out : Type) : Type :=
| Mount
| Tick
| Settle (i : nat) (o : Out)
| Unmount.
Arguments Mount {Out}.
Arguments Tick {Out}.
Arguments Settle {Out} i o.
Arguments Unmount {Out}.

(** The state of the loop: the phase of the instance, the timer that is
    registered, the number of timers and of calls created so far (the
    next identifiers), the calls that have not ended, and the state of the
    widget. *)
Record state (W : Type) : Type := mk {
  life : phase;
  interval : option nat;
  timers : nat;
  started : nat;
  pending : list nat;
  widget : W;
}.
Arguments mk {W}.
Arguments life {W}.
Arguments interval {W}.
Arguments timers {W}.
Arguments started {W}.
Arguments pending {W}.
Arguments widget {W}.

Section loop.
Context {W Out V : Type} `{!Fetcher W Out V}.
Implicit Types (s : state W) (e : event Out) (es : list (event Out)).
Implicit Types (i : nat) (o : Out).

(** Before the first render is committed. *)
Definition init (w : W) : state W := mk Fresh None 0 0 [] w.

(** The synchronous part of [fetchUserData()]: the request is sent and
    the call is pending. *)
Definition start s : state W :=
  mk (life s) (interval s) (timers s) (S (started s))
     (pending s ++ [started s]) (widget s).

(** [setInterval(fetchUserData, 1000)]: a timer is registered. *)
Definition setInterval s : state W :=
  mk (life s) (Some (timers s)) (S (timers s)) (started s) (pending s)
     (widget s).

(** [clearInterval(interval)]. *)
Definition clearInterval s : state W :=
  mk (life s) None (timers s) (started s) (pending s) (widget s).

(** The effect: [fetchUserData(); const interval = setInterval(...)]. *)
Definition mount s : state W :=
  let s := start s in
  let s := setInterval s in
  mk Mounted (interval s) (timers s) (started s) (pending s) (widget s).

(** The timer fires: [fetchUserData()]. *)
Definition tick s : state W := start s.

(** The cleanup of the effect: [clearInterval(interval)]. *)
Definition unmount s : state W :=
  let s := clearInterval s in
  mk Disposed (interval s) (timers s) (started s) (pending s) (widget s).

(** The call [i] ends with outcome [o]: the rest of [fetchUserData]
    runs. *)
Definition settle_call i o s : state W :=
  mk (life s) (interval s) (timers s) (started s)
     (filter (λ j, j ≠ i) (pending s)) (settle o (widget s)).

(** One event, when the loop can take it. *)
Definition exec e s : option (state W) :=
  match e with
  | Mount => if decide (life s = Fresh) then Some (mount s) else None
  | Tick => if interval s is Some _ then Some (tick s) else None
  | Settle i o =>
      if decide (i ∈ pending s) then Some (settle_call i o s) else None
  | Unmount => if decide (life s = Mounted) then Some (unmount s) else None
  end.

(** A sequence of events. *)
Fixpoint exec_all es s : option (state W) :=
  match es with
  | [] => Some s
  | e :: es' => exec e s ≫= exec_all es'
  end.

(** The transition relation. *)
Inductive step : state W → event Out → state W → Prop :=
| step_mount s : life s = Fresh → step s Mount (mount s)
| step_tick s t : interval s = Some t → step s Tick (tick s)
| step_settle s i o : i ∈ pending s → step s (Settle i o) (settle_call i o s)
| step_unmount s : life s = Mounted → step s Unmount (unmount s).

(** The states the loop can be in, from the initial state with widget
    [w]. *)
Inductive reachable (w : W) : state W → Prop :=
| reachable_init : reachable w (init w)
| reachable_step s e s' : reachable w s → step s e s' → reachable w s'.

(** The outcomes of the calls that ended during a sequence of events, in
    the order in which they ended. *)
Definition settled es : list Out :=
  omap (λ e, match e with Settle _ o => Some o | _ => None end) es.

(** The events that start a call. *)
Definition is_start e : bool :=
  match e with
  | Mount | Tick => true
  | Settle _ _ | Unmount => false
  end.

(** The number of calls a sequence of events starts. *)
Definition starts es : nat := length (filter (λ e, is_start e = true) es).

(** What holds in every state the loop can be in: the timer is
    registered exactly while the instance is mounted; nothing has been
    created before the mount; the pending calls are distinct calls that
    were started; at most one timer is ever created. *)
Definition inv s : Prop :=
  (is_Some (interval s) ↔ life s = Mounted)
  ∧ (life s = Fresh → started s = 0 ∧ timers s = 0)
  ∧ Forall (λ i, i < started s) (pending s)
  ∧ NoDup (pending s)
  ∧ timers s ≤ 1.

End loop.

(** ** Two fetchers under one schedule

    The loop run with two fetchers whose outcomes and widget states are
    related: the events are related when they are the same event with
    related outcomes, the states when they differ in the state of the
    widget only, and there by the relation. *)
Section relations.
Context {W1 Out1 W2 Out2 : Type}.
Context (R : W1 → W2 → Prop) (Ro : Out1 → Out2 → Prop).

Inductive event_rel : event Out1 → event Out2 → Prop :=
| mount_rel : event_rel Mount Mount
| tick_rel : event_rel Tick Tick
| settle_rel i o1 o2 : Ro o1 o2 → event_rel (Settle i o1) (Settle i o2)
| unmount_rel : event_rel Unmount Unmount.

Definition state_rel (s1 : state W1) (s2 : state W2) : Prop :=
  life s1 = life s2 ∧ interval s1 = interval s2 ∧ timers s1 = timers s2
  ∧ started s1 = started s2 ∧ pending s1 = pending s2
  ∧ R (widget s1) (widget s2).

End relations.

(** ** Runs and steps *)
Section runs.
Context {W Out V : Type} `{!Fetcher W Out V}.
Implicit Types (s : state W) (e : event Out) (es : list (event Out)).
Implicit Types (i : nat) (o : Out) (w : W).

Lemma exec_step e s s' : exec e s = Some s' ↔ step s e s'.
Proof.
  split.
  - destruct e; simpl; repeat case_match; intros [= <-]; try done;
      by econstructor.
  - intros [s0 E|s0 t E|s0 i o E|s0 E]; simpl.
    + by rewrite decide_True.
    + by rewrite E.
    + by rewrite decide_True.
    + by rewrite decide_True.
Qed.

Lemma exec_Settle i o s :
  i ∈ pending s → exec (Settle i o) s = Some (settle_call i o s).
Proof. intros Hi. by apply exec_step, step_settle. Qed.

Lemma exec_Unmount s : life s = Mounted → exec Unmount s = Some (unmount s).
Proof. intros Hl. by apply exec_step, step_unmount. Qed.

Lemma pending_settle_call i j o s :
  i ∈ pending s → i ≠ j → i ∈ pending (settle_call j o s).
Proof. intros Hi Hne. by apply list_elem_of_filter. Qed.

Lemma exec_all_app es1 es2 s :
  exec_all (es1 ++ es2) s = exec_all es1 s ≫= exec_all es2.
Proof.
  revert s. induction es1 as [|e es1 IH]; intros s; simpl; [done|].
  destruct (exec e s) as [s1|]; simpl; [apply IH|done].
Qed.

Lemma exec_all_snoc es e s s' :
  exec_all (es ++ [e]) s = Some s'
  ↔ ∃ s1, exec_all es s = Some s1 ∧ step s1 e s'.
Proof.
  rewrite exec_all_app. setoid_rewrite <-exec_step.
  destruct (exec_all es s) as [s1|]; simpl.
  - destruct (exec e s1) as [s2|] eqn:E; simpl; split.
    + intros [= <-]. by exists s1.
    + intros (? & [= <-] & E'). by rewrite E in E'.
    + done.
    + intros (? & [= <-] & E'). by rewrite E in E'.
  - split; [done|]. by intros (? & ? & ?).
Qed.

(** The reachable states are the results of the runs from the initial
    state. *)
Lemma reachable_exec_all w s :
  reachable w s ↔ ∃ es, exec_all es (init w) = Some s.
Proof.
  split.
  - induction 1 as [|s e s' _ [es IH] Hstep]; [by exists []|].
    exists (es ++ [e]). apply exec_all_snoc. by exists s.
  - intros [es Hes]. revert s Hes.
    induction es as [|e es IH] using rev_ind; intros s.
    + intros [= <-]. constructor.
    + intros (s1 & H1 & Hstep)%exec_all_snoc.
      eapply reachable_step; [by apply IH|done].
Qed.

(** Induction on runs, from the last event. *)
Lemma run_ind w (P : list (event Out) → state W → Prop) :
  P [] (init w)
  → (∀ es s e s', exec_all es (init w) = Some s → P es s → step s e s'
       → P (es ++ [e]) s')
  → ∀ es s, exec_all es (init w) = Some s → P es s.
Proof.
  intros Hinit Hstep es.
  induction es as [|e es IH] using rev_ind; intros s.
  - by intros [= <-].
  - intros (s1 & H1 & Hs)%exec_all_snoc. eauto.
Qed.

End runs.

(** ** Lists of pending calls *)
Section pending.
Implicit Types (i n : nat) (l : list nat).

Lemma filter_ne_fresh i l : i ∉ l → filter (λ j, j ≠ i) l = l.
Proof.
  induction l as [|j l IH]; [done|]. intros [Hj Hl]%not_elem_of_cons.
  by rewrite filter_cons_True, IH by done.
Qed.

Lemma length_filter_ne i l :
  NoDup l → i ∈ l → S (length (filter (λ j, j ≠ i) l)) = length l.
Proof.
  induction 1 as [|j l Hj Hl IH]; [by intros ?%elem_of_nil|].
  intros [->|Hi]%elem_of_cons.
  - by rewrite filter_cons_False, filter_ne_fresh by auto.
  - rewrite filter_cons_True by (intros ->; done). simpl. by rewrite IH.
Qed.

Lemma pending_snoc n l :
  Forall (λ i, i < n) l → NoDup l
  → Forall (λ i, i < S n) (l ++ [n]) ∧ NoDup (l ++ [n]).
Proof.
  intros Hlt Hnd. split.
  - apply Forall_app. split; [|by repeat constructor].
    eapply Forall_impl; [done|]. simpl. lia.
  - apply NoDup_app. split_and!; [done| |apply NoDup_singleton].
    intros i Hi ->%list_elem_of_singleton.
    rewrite Forall_forall in Hlt. specialize (Hlt _ Hi). lia.
Qed.

End pending.

(** ** The invariant *)
Section invariant.
Context {W Out V : Type} `{!Fetcher W Out V}.
Implicit Types (s : state W) (e : event Out) (es : list (event Out)).
Implicit Types (i : nat) (o : Out) (w : W).

Lemma inv_init w : inv (init w).
Proof.
  unfold inv. simpl. split_and!; [|done|constructor|constructor|lia].
  split; [by intros [??]|done].
Qed.

Lemma inv_step s e s' : inv s → step s e s' → inv s'.
Proof.
  intros Hinv Hstep.
  destruct Hstep as [s E|s t E|s i o E|s E];
    destruct Hinv as (Ht & Hf & Hp & Hd & Hn); unfold inv; simpl.
  - destruct (Hf E) as [Hs Htm]. destruct (pending_snoc _ _ Hp Hd).
    split_and!; [|done..|lia]. split; [done|by eexists].
  - destruct (pending_snoc _ _ Hp Hd).
    split_and!; [done| |done..]. intros Hfresh.
    assert (life s = Mounted) by (apply Ht; by eexists). congruence.
  - split_and!; [done..| |by apply NoDup_filter|done].
    apply Forall_forall. intros j [_ Hj]%list_elem_of_filter.
    rewrite Forall_forall in Hp. auto.
  - split_and!; [|done..]. split; [by intros [??]|done].
Qed.

Lemma reachable_inv w s : reachable w s → inv s.
Proof. induction 1; eauto using inv_init, inv_step. Qed.

(** The state of the widget after a run is the effect of the calls that
    ended, in the order in which they ended. *)
Lemma widget_exec_all w es s :
  exec_all es (init w) = Some s
  → widget s = fold_left (λ w o, settle o w) (settled es) w.
Proof.
  revert es s.
  apply (run_ind w (λ es s,
           widget s = fold_left (λ w o, settle o w) (settled es) w));
    [done|].
  intros es s e s' _ IH Hstep.
  unfold settled. rewrite omap_app, fold_left_app. fold (settled es).
  rewrite <-IH. by destruct Hstep.
Qed.

(** Once the instance is disposed only pending calls can end. *)
Lemma disposed_step s e s' :
  life s = Disposed → interval s = None → step s e s'
  → life s' = Disposed ∧ interval s' = None ∧ started s' = started s
    ∧ timers s' = timers s.
Proof.
  intros Hl Hi Hstep. destruct Hstep; simpl; split_and?; congruence.
Qed.

End invariant.

(** ** What the loop guarantees *)
Section properties.
Context {W Out V : Type} `{!Fetcher W Out V}.
Implicit Types (s : state W) (e : event Out) (es : list (event Out)).
Implicit Types (i : nat) (o : Out) (w : W).

(** C4: in every state the loop can be in, the timer is registered
    exactly while the instance is mounted, and the instance has created
    at most one timer. *)
Theorem timer_registered_iff_mounted w s :
  reachable w s
  → (is_Some (interval s) ↔ life s = Mounted) ∧ timers s ≤ 1.
Proof. intros (? & ? & ? & ? & ?)%reachable_inv. done. Qed.

(** C16: once the instance is unmounted no call is started and no timer
    is registered any more, whatever happens afterwards: the only events
    left are the ends of the calls that were pending. *)
Theorem disposed_is_quiet w s es s' :
  reachable w s → life s = Disposed → exec_all es s = Some s'
  → life s' = Disposed ∧ interval s' = None ∧ started s' = started s
    ∧ timers s' = timers s.
Proof.
  intros (Ht & _)%reachable_inv Hl.
  assert (interval s = None) as Hi.
  { destruct (interval s) eqn:E; [|done].
    assert (life s = Mounted) by (apply Ht; by eexists). congruence. }
  clear Ht. revert s Hl Hi. induction es as [|e es IH]; intros s Hl Hi.
  - by intros [= <-].
  - simpl. destruct (exec e s) as [s1|] eqn:E; [|done]. simpl.
    apply exec_step in E.
    destruct (disposed_step _ _ _ Hl Hi E) as (? & ? & <- & <-). eauto.
Qed.

(** C17: accounting of the calls.  After a run the number of calls that
    were started is the number of mounts and ticks of the run, and each
    of them is pending or has ended: none is lost, none ends twice. *)
Theorem calls_accounting w es s :
  exec_all es (init w) = Some s
  → started s = starts es
    ∧ length (pending s) + length (settled es) = starts es.
Proof.
  revert es s.
  apply (run_ind w (λ es s,
           started s = starts es
           ∧ length (pending s) + length (settled es) = starts es));
    [done|].
  intros es s e s' Hrun [IH1 IH2] Hstep.
  assert (NoDup (pending s)) as Hd.
  { eapply reachable_inv, reachable_exec_all. by exists es. }
  unfold starts, settled in *.
  rewrite filter_app, length_app, omap_app, length_app.
  destruct Hstep as [s E|s t E|s i o E|s E]; simpl; rewrite ?length_app;
    simpl; try lia.
  pose proof (length_filter_ne i _ Hd E). lia.
Qed.

(** C29: a run in which every call that ended had failed shows what the
    widget showed at the start.  This uses only what the interface
    promises of a failed call. *)
Theorem failures_keep_view w es s :
  exec_all es (init w) = Some s
  → Forall (λ o, failed o = true) (settled es)
  → shown (widget s) = shown w.
Proof.
  intros ->%widget_exec_all Hall. revert w.
  induction Hall as [|o os Ho _ IH]; intros w; [done|].
  simpl. by rewrite IH, settle_failed.
Qed.

(** C10: a stale answer can win.  Whenever two calls are pending, the
    one that was started later may end first; when the earlier one ends
    after it, the effect of the earlier call is applied last: what it
    writes replaces what the later call wrote. *)
Theorem stale_answer_wins s i j o0 o1 :
  i ∈ pending s → j ∈ pending s → i < j
  → ∃ s1 s2,
      exec (Settle j o1) s = Some s1
      ∧ widget s1 = settle o1 (widget s)
      ∧ exec (Settle i o0) s1 = Some s2
      ∧ widget s2 = settle o0 (settle o1 (widget s)).
Proof.
  intros Hi Hj Hlt. eexists _, _.
  split; [by apply exec_Settle|]. split; [done|].
  split; [apply exec_Settle, pending_settle_call; [done|lia]|done].
Qed.

(** C11: a call that is pending when the widget is unmounted can still
    end afterwards, and then writes the state of the widget: the cleanup
    clears the timer and does not cancel the calls that are pending. *)
Theorem write_after_unmount s i o :
  life s = Mounted → i ∈ pending s
  → ∃ s', exec_all [Unmount; Settle i o] s = Some s'
      ∧ life s' = Disposed ∧ interval s' = None
      ∧ widget s' = settle o (widget s).
Proof.
  intros Hl Hi. exists (settle_call i o (unmount s)). split; [|done].
  cbn [exec_all]. rewrite exec_Unmount by done. cbn [mbind option_bind].
  by rewrite exec_Settle.
Qed.

End properties.

(** ** Simulation between two fetchers *)
Section simulation.
Context {W1 Out1 V1 W2 Out2 V2 : Type}.
Context `{!Fetcher W1 Out1 V1, !Fetcher W2 Out2 V2}.
Context (R : W1 → W2 → Prop) (Ro : Out1 → Out2 → Prop).
Hypothesis settle_sim :
  ∀ o1 o2 w1 w2, Ro o1 o2 → R w1 w2 → R (settle o1 w1) (settle o2 w2).

Lemma exec_sim e1 e2 s1 s2 :
  event_rel Ro e1 e2 → state_rel R s1 s2
  → option_Forall2 (state_rel R) (exec e1 s1) (exec e2 s2).
Proof.
  intros He (Hl & Hi & Ht & Hs & Hp & Hw).
  destruct s1 as [l1 i1 t1 n1 p1 w1], s2 as [l2 i2 t2 n2 p2 w2].
  simpl in *. subst l2 i2 t2 n2 p2.
  destruct He as [| |i o1 o2 Ho|]; simpl; repeat case_match;
    constructor; unfold state_rel; simpl; split_and?; auto.
Qed.

(** The loop does not look inside the calls.  Under the same schedule,
    two fetchers whose calls keep a relation between the states of their
    widgets go through states that differ in the state of the widget
    only, and there by the relation; one run exists when the other
    does. *)
Lemma exec_all_sim es1 es2 s1 s2 :
  Forall2 (event_rel Ro) es1 es2 → state_rel R s1 s2
  → option_Forall2 (state_rel R) (exec_all es1 s1) (exec_all es2 s2).
Proof.
  intros Hes. revert s1 s2.
  induction Hes as [|e1 e2 es1 es2 He _ IH]; intros s1 s2 Hs; simpl.
  - by constructor.
  - destruct (exec_sim e1 e2 s1 s2 He Hs) as [s1' s2' Hs'|]; simpl; [|constructor].
    by apply IH.
Qed.

End simulation.

End Scheduler.
