(* ===== verification/Answer.v ===== *)
(** * The fetch boundary on untyped answers

    [fetchUserData] as it runs (LanyardProfile.tsx, lines 95-144): the
    request is rejected, or its body is not JSON, or the body is a value
    of JSON of whatever shape, on which the lines 98 to 136 run and may
    throw.  [answer] lists the three cases, [fetchUserData] is the effect
    of the call on the state of the widget at run time.

    [Fetch] reads the same function at the types of the source, with an
    outcome [BadShape] for bodies of another shape.  [abstracts] relates
    the outcomes of [Fetch] to the answers they stand for, and the typed
    widget is shown to go through the states of the untyped one under
    every schedule: what is proved of the typed widget holds of the
    program on the answers that [abstracts] covers. *)

From S2P Require Import Prelude JsString JsValue Json Lanyard Normalize.
From S2P Require Import Dynamic Fetch Scheduler.
Import Json Normalize Dynamic Scheduler.

Module Answer.

(** What the service sent, if anything. *)
Inductive answer : Type :=
| NetworkError (err : string)
| NotJson (err : string)
| Body (body : json).

(** The state of the widget at run time. *)
Record t : Type := mk {
  profileData : DynProfile.t;
  console : list string;
}.

(** The state after the first render. *)
Definition initial (loader : string) : t :=
  mk (untyped (ProfileData.initial loader)) [].

(** [{ ...prevData, ...currentData }]. *)
Definition spread (prevData currentData : DynProfile.t) : DynProfile.t :=
  DynProfile.mk
    (DynProfile.avatar currentData)
    (DynProfile.discordStatus currentData)
    (DynProfile.username currentData)
    (DynProfile.status currentData)
    (DynProfile.activity currentData).

(** [setProfileData(updater)] and [console.error(err)]. *)
Definition setProfileData (updater : DynProfile.t → DynProfile.t) (w : t) : t :=
  mk (updater (profileData w)) (console w).

Definition console_error (err : string) (w : t) : t :=
  mk (profileData w) (console w ++ [err]).

(** One call of [fetchUserData], from the answer to its request. *)
Definition fetchUserData (a : answer) (w : t) : t :=
  match a with
  | NetworkError err | NotJson err => console_error err w
  | Body body =>
      match of_body body with
      | Normal currentData =>
          setProfileData (λ prevData, spread prevData currentData) w
      | Throw err => console_error err w
      end
  end.

(** A call has failed when it ends in the [catch]. *)
Definition has_failed (a : answer) : bool :=
  match a with
  | NetworkError _ | NotJson _ => true
  | Body body => bool_decide (throws (of_body body))
  end.

(** The state of the typed widget as it is at run time. *)
Definition untyped_cell (w : Fetch.t) : t :=
  mk (untyped (Fetch.profileData w)) (Fetch.console w).

(** The answers an outcome of [Fetch] stands for. *)
Inductive abstracts : Fetch.outcome → answer → Prop :=
| abstracts_rejected err :
    abstracts (Fetch.Rejected err) (NetworkError err)
| abstracts_bad_body err :
    abstracts (Fetch.BadBody err) (NotJson err)
| abstracts_bad_shape err body :
    of_body body = Throw err → abstracts (Fetch.BadShape err) (Body body)
| abstracts_fulfilled d :
    abstracts (Fetch.Fulfilled d) (Body (body_of d)).

(** The answer of the service for a user it does not monitor. *)
Definition not_monitored : json :=
  JObject [
    ("success", JBool false);
    ("error",
     JObject [("code", JString "user_not_monitored");
              ("message", JString "User is not being monitored by Lanyard")])].

(** A body whose [avatar] is an object with a property [toString]: the
    template of the avatar address cannot convert it to text. *)
Definition object_avatar : json :=
  JObject [
    ("success", JBool true);
    ("data",
     JObject [
       ("discord_user",
        JObject [("username", JString "lone");
                 ("avatar", JObject [("toString", JNumber 1)])]);
       ("discord_status", JString "online");
       ("activities", JArray []);
       ("spotify", JNull)])].

Section facts.
Implicit Types (a : answer) (o : Fetch.outcome) (w : t) (body : json).

Lemma spread_untyped_eq (prevData currentData : DynProfile.t) :
  spread prevData currentData = currentData.
Proof. by destruct currentData. Qed.

Lemma of_body_body_of d : of_body (body_of d) = Normal (untyped (normalize d)).
Proof. apply normalize_dyn_encode_eq. Qed.

Lemma fetchUserData_Normal body v w :
  of_body body = Normal v
  → fetchUserData (Body body) w = mk v (console w).
Proof.
  intros E. unfold fetchUserData, setProfileData. by rewrite E, spread_untyped_eq.
Qed.

Lemma fetchUserData_Throw body err w :
  of_body body = Throw err
  → fetchUserData (Body body) w = mk (profileData w) (console w ++ [err]).
Proof. intros E. unfold fetchUserData. by rewrite E. Qed.

Lemma profileData_failed_answer a w :
  has_failed a = true → profileData (fetchUserData a w) = profileData w.
Proof.
  destruct a as [err|err|body]; [done..|]. simpl.
  intros H%bool_decide_eq_true. by destruct (of_body body).
Qed.

Lemma fetchUserData_abstracts o a (w : Fetch.t) :
  abstracts o a
  → fetchUserData a (untyped_cell w) = untyped_cell (Fetch.fetchUserData o w).
Proof.
  intros [err|err|err body E|d]; [done..| |].
  - by rewrite (fetchUserData_Throw _ _ _ E).
  - by rewrite (fetchUserData_Normal _ _ _ (of_body_body_of d)),
      Fetch.fetchUserData_Fulfilled.
Qed.

Lemma has_failed_abstracts o a :
  abstracts o a → has_failed a = Fetch.has_failed o.
Proof.
  intros [err|err|err body E|d]; [done..| |]; simpl.
  - by rewrite E.
  - by rewrite of_body_body_of.
Qed.

End facts.

(** The fetcher at run time meets the interface of the scheduler. *)
#[global] Instance fetcher : Fetcher t answer DynProfile.t := {|
  settle := fetchUserData;
  shown := profileData;
  failed := has_failed;
  settle_failed := profileData_failed_answer;
|}.

(** ** The typed boundary and the boundary at run time *)
Section properties.
Implicit Types (a : answer) (o : Fetch.outcome) (w : t) (body : json).

(** C14: the typed boundary is the boundary at run time.  For an outcome
    of [Fetch] and an answer it stands for (a rejected request, a body
    that is not JSON, a body on which the component throws, the body of
    a typed payload) the call at run time takes the state of the typed
    widget to the state the typed call takes it to, and fails when the
    typed call fails. *)
Theorem fetchUserData_refines o a (w : Fetch.t) :
  abstracts o a
  → fetchUserData a (untyped_cell w) = untyped_cell (Fetch.fetchUserData o w)
    ∧ has_failed a = Fetch.has_failed o.
Proof.
  intros H. split; [by apply fetchUserData_abstracts|].
  by apply has_failed_abstracts.
Qed.

(** C12: an ill-shaped body ends in the [catch].  When the [data] of
    the body is ill-shaped (there is none, [activities] is not an array
    or holds a [null] before the activity to show, the user, the status
    line or an image cannot be read or converted to text), the call
    fails: it logs one error and leaves the view state as it was. *)
Theorem fetchUserData_ill_shaped body w :
  ill_shaped (get "data" body)
  → has_failed (Body body) = true
    ∧ profileData (fetchUserData (Body body) w) = profileData w
    ∧ ∃ err, console (fetchUserData (Body body) w) = console w ++ [err].
Proof.
  intros Hthrows%of_body_throws.
  destruct (of_body body) as [v|err] eqn:E; [done|].
  rewrite (fetchUserData_Throw _ _ _ E). simpl. rewrite E. eauto.
Qed.

End properties.

Lemma fetchUserData_refines_witness :
  fetchUserData (Body (body_of Samples.online_game))
    (untyped_cell (Fetch.initial "l.gif"))
  = untyped_cell
      (Fetch.fetchUserData (Fetch.Fulfilled Samples.online_game)
         (Fetch.initial "l.gif"))
  ∧ has_failed (Body (body_of Samples.online_game))
    = Fetch.has_failed (Fetch.Fulfilled Samples.online_game).
Proof. apply fetchUserData_refines. constructor. Defined.

(** The answer of the service for a user it does not monitor has no
    [data]: the call ends in the [catch]. *)
Example not_monitored_fails :
  has_failed (Body not_monitored) = true
  ∧ profileData (fetchUserData (Body not_monitored) (initial "l.gif"))
    = profileData (initial "l.gif").
Proof. split; reflexivity. Qed.

Lemma fetchUserData_ill_shaped_witness :
  has_failed (Body object_avatar) = true
  ∧ profileData (fetchUserData (Body object_avatar) (initial "l.gif"))
    = profileData (initial "l.gif")
  ∧ ∃ err, console (fetchUserData (Body object_avatar) (initial "l.gif"))
           = console (initial "l.gif") ++ [err].
Proof. apply fetchUserData_ill_shaped. apply no_user. reflexivity. Defined.

End Answer.
