(* ===== verification/Render.v ===== *)
(** * The view renderer: [getStatusStyles] and the markup

    The component returns a tree of elements computed from the view state
    (LanyardProfile.tsx, lines 156-246).  [node] is that tree: elements
    with their attributes and children, and text.  [getStatusStyles] is
    the switch on the status, [render] the markup, card by card.

    The tree is observed the way a page observes it: [getElementById],
    the class list of an element, which elements are under a [hidden]
    class, their text, and the lines of text the page shows
    ([visible_text], which also sees the elements without identifier).
    The theorems state what is on the screen for a view state, and
    [Widget] composes them with the fetcher. *)

From Stdlib Require Import QArith_base.
From S2P Require Import Prelude JsString JsValue Lanyard.
Import JsString JsValue.

(** The object [getStatusStyles] returns: every case of the switch sets
    the same four keys, the default case none. *)
Module StatusStyles.

Record t : Type := mk {
  background : option string;
  title : option string;
  color : option string;
  opacity : option Q;
}.

#[global] Instance Q_eq_dec : EqDecision Q.
Proof. solve_decision. Defined.

#[global] Instance eq_dec : EqDecision t.
Proof. solve_decision. Defined.

(** The object literal [{}]. *)
Definition empty : t := mk None None None None.

End StatusStyles.

Module Render.

(** The attributes the markup uses. *)
Inductive attr : Type :=
| Id (v : string)
| ClassName (v : string)
| Src (v : option string)
| Alt (v : string)
| AriaLabel (v : string)
| Style (v : StatusStyles.t).

#[global] Instance attr_eq_dec : EqDecision attr.
Proof. solve_decision. Defined.

(** An element with its tag, attributes and children, or a text child:
    a literal of the markup or the value of an expression, which renders
    nothing when it is undefined. *)
Unset Elimination Schemes.
Inductive node : Type :=
| Elem (tag : string) (attrs : list attr) (children : list node)
| Text (v : option string).
Set Elimination Schemes.

(** Induction on a tree, with the property for all the children of an
    element. *)
Section node_children_ind.
Variable P : node → Prop.
Hypothesis HElem :
  ∀ tag attrs children, Forall P children → P (Elem tag attrs children).
Hypothesis HText : ∀ v, P (Text v).

Fixpoint node_children_ind (n : node) : P n :=
  match n with
  | Elem tag attrs children =>
      HElem tag attrs children (Forall_true P children node_children_ind)
  | Text v => HText v
  end.

End node_children_ind.

(** [const getStatusStyles = () => { switch (discordStatus) ... }]. *)
Definition getStatusStyles (profileData : ProfileData.t) : StatusStyles.t :=
  let discordStatus := ProfileData.discordStatus profileData in
  if decide (discordStatus = "online") then
    StatusStyles.mk (Some "#3ba45d") (Some "Online") (Some "#3ba45d")
      (Some (Qmake 1 1))
  else if decide (discordStatus = "dnd") then
    StatusStyles.mk (Some "#ed4245") (Some "Do not disturb") (Some "#ed4245")
      (Some (Qmake 1 1))
  else if decide (discordStatus = "idle") then
    StatusStyles.mk (Some "#faa81a") (Some "Idle") (Some "#faa81a")
      (Some (Qmake 1 1))
  else if decide (discordStatus = "offline") then
    StatusStyles.mk (Some "#747e8c") (Some "Offline") (Some "unset")
      (Some (Qmake 1 2))
  else StatusStyles.empty.

(** [`${!x ? "hidden" : ""}`], the class of a part of the activity card. *)
Definition hiddenUnless (x : option string) : string :=
  tmpl (if negb (truthy x) then "hidden" else "").

(** The first card: picture, status dot, user name and status lines. *)
Definition homeCard (profileData : ProfileData.t) : node :=
  let avatar := ProfileData.avatar profileData in
  let discordStatus := ProfileData.discordStatus profileData in
  let username := ProfileData.username profileData in
  let status := ProfileData.status profileData in
  Elem "div" [ClassName "card"] [
    Elem "div" [ClassName "card-title"] [Text (Some "@loneweeb > home")];
    Elem "div" [ClassName "user-profile"] [
      Elem "div" [ClassName "profile-pic"] [
        Elem "img" [Id "pfp"; Src (Some avatar); Alt ""] [];
        Elem "div" [Id "status-dot"; AriaLabel discordStatus;
                    Style (getStatusStyles profileData)] []];
      Elem "div" [ClassName "user-info"] [
        Elem "div" [Id "username"] [Text (Some username)];
        Elem "div" [Id "status"] [Text (Some status)];
        Elem "div" [Id "status2"] [
          Text (Some (if negb (bool_decide (discordStatus = "offline"))
                      then discordStatus else "unknown"))];
        Elem "div" [ClassName "connections"] []]]].

(** The second card: the images and the three lines of the activity. *)
Definition activityCard (profileData : ProfileData.t) : node :=
  let activity := ProfileData.activity profileData in
  Elem "div"
    [ClassName ("activity card " +:+
       tmpl (if ProfileActivity.hidden activity then "hidden" else ""))] [
    Elem "div" [ClassName "card-title"] [Text (Some "@loneweeb > activity")];
    Elem "div" [ClassName "activity-wrapper"] [
      Elem "div" [ClassName "activity-images"] [
        Elem "img" [Id "activity-big-image";
                    ClassName (hiddenUnless (ProfileActivity.bigImage activity));
                    Src (ProfileActivity.bigImage activity); Alt ""] [];
        Elem "img" [Id "activity-small-image";
                    ClassName (hiddenUnless (ProfileActivity.smallImage activity));
                    Src (ProfileActivity.smallImage activity); Alt ""] []];
      Elem "div" [ClassName "activity-info"] [
        Elem "div" [Id "activity-name";
                    ClassName (hiddenUnless (ProfileActivity.name activity))]
          [Text (ProfileActivity.name activity)];
        Elem "div" [Id "activity-state";
                    ClassName (hiddenUnless (ProfileActivity.state activity))]
          [Text (ProfileActivity.state activity)];
        Elem "div" [Id "activity-detail";
                    ClassName (hiddenUnless (ProfileActivity.details activity))]
          [Text (ProfileActivity.details activity)]]]].

(** The third card, which does not depend on the view state. *)
Definition aboutCard : node :=
  Elem "div" [ClassName "card"] [
    Elem "div" [ClassName "card-title"] [Text (Some "@loneweeb > about me")];
    Elem "div" [ClassName "about-me"] [
      Elem "header" [ClassName "heading"] [Text (Some "about me")];
      Elem "div" [ClassName "bio"] [
        Elem "ul" [] [
          Elem "li" [] [Text (Some "ϡ 17 years old")];
          Elem "li" [] [Text (Some "ϡ straight male")];
          Elem "li" [] [Text (Some "ϡ looking for my soulmate")];
          Elem "li" [] [Text (Some "ϡ indian")]]]]].

(** What the component returns. *)
Definition render (profileData : ProfileData.t) : node :=
  Elem "div" [ClassName "wrapper"]
    [homeCard profileData; activityCard profileData; aboutCard].

(** ** Observing the tree *)

Definition attrs_of (n : node) : list attr :=
  match n with Elem _ attrs _ => attrs | Text _ => [] end.

Definition children_of (n : node) : list node :=
  match n with Elem _ _ children => children | Text _ => [] end.

(** The value of the attribute [id], [className], [src] and [style]. *)
Definition id_of (n : node) : option string :=
  head (omap (λ a, match a with Id v => Some v | _ => None end) (attrs_of n)).

Definition className_of (n : node) : string :=
  default ""
    (head (omap (λ a, match a with ClassName v => Some v | _ => None end)
             (attrs_of n))).

Definition src_of (n : node) : option string :=
  default None
    (head (omap (λ a, match a with Src v => Some v | _ => None end)
             (attrs_of n))).

Definition style_of (n : node) : option StatusStyles.t :=
  head (omap (λ a, match a with Style v => Some v | _ => None end)
          (attrs_of n)).

(** The classes of an element: the pieces of its class name between
    spaces. *)
Definition classList (n : node) : list string :=
  filter (λ c, c ≠ "") (split (className_of n) " ").

(** The style sheet does not display the elements of class [hidden]. *)
Definition is_hidden (n : node) : bool :=
  bool_decide ("hidden" ∈ classList n).

(** The first result of [f] along a list. *)
Definition first_some {A B} (f : A → option B) : list A → option B :=
  fix go l :=
    match l with
    | [] => None
    | a :: l' => match f a with Some b => Some b | None => go l' end
    end.

(** The first element with a given identifier, in document order. *)
Fixpoint getElementById (i : string) (n : node) : option node :=
  match n with
  | Text _ => None
  | Elem _ _ children =>
      if decide (id_of n = Some i) then Some n
      else first_some (getElementById i) children
  end.

(** The identifiers of the tree, in document order. *)
Fixpoint ids (n : node) : list string :=
  match n with
  | Text _ => []
  | Elem _ _ children => option_list (id_of n) ++ children ≫= ids
  end.

(** The identifiers of the elements that are displayed: those that are
    not of class [hidden] and not inside an element that is. *)
Fixpoint displayed (n : node) : list string :=
  match n with
  | Text _ => []
  | Elem _ _ children =>
      if is_hidden n then []
      else option_list (id_of n) ++ children ≫= displayed
  end.

(** A line of text on the page: a text that is undefined or empty shows
    nothing. *)
Definition line (x : option string) : list string :=
  if truthy x then [default "" x] else [].

(** The lines of text the page shows, in document order: the texts that
    are not inside an element of class [hidden].  Unlike [displayed] it
    sees the elements that have no identifier, the frame of the activity
    card and the titles of the cards among them. *)
Fixpoint visible_text (n : node) : list string :=
  match n with
  | Text v => line v
  | Elem _ _ children =>
      if is_hidden n then [] else children ≫= visible_text
  end.

(** The text of a node. *)
Fixpoint textContent (n : node) : string :=
  match n with
  | Text v => default "" v
  | Elem _ _ children =>
      foldr (λ m acc, textContent m +:+ acc) "" children
  end.

(** The text of the element with a given identifier. *)
Definition text_at (i : string) (n : node) : option string :=
  textContent <$> getElementById i n.

(** The source and the style of the element with a given identifier. *)
Definition src_at (i : string) (n : node) : option string :=
  getElementById i n ≫= src_of.

Definition style_at (i : string) (n : node) : option StatusStyles.t :=
  getElementById i n ≫= style_of.

(** The element [i] is displayed with text [s]. *)
Definition shows (i s : string) (n : node) : Prop :=
  i ∈ displayed n ∧ text_at i n = Some s.

(** The identifier of a part of the activity card, when the part is
    displayed. *)
Definition part (i : string) (x : option string) : list string :=
  if truthy x then [i] else [].

(** Two view states look the same when they agree on every field but
    the title of the big image. *)
Definition same_look (v1 v2 : ProfileData.t) : Prop :=
  ProfileData.avatar v1 = ProfileData.avatar v2
  ∧ ProfileData.discordStatus v1 = ProfileData.discordStatus v2
  ∧ ProfileData.username v1 = ProfileData.username v2
  ∧ ProfileData.status v1 = ProfileData.status v2
  ∧ ProfileActivity.hidden (ProfileData.activity v1)
    = ProfileActivity.hidden (ProfileData.activity v2)
  ∧ ProfileActivity.bigImage (ProfileData.activity v1)
    = ProfileActivity.bigImage (ProfileData.activity v2)
  ∧ ProfileActivity.smallImage (ProfileData.activity v1)
    = ProfileActivity.smallImage (ProfileData.activity v2)
  ∧ ProfileActivity.name (ProfileData.activity v1)
    = ProfileActivity.name (ProfileData.activity v2)
  ∧ ProfileActivity.state (ProfileData.activity v1)
    = ProfileActivity.state (ProfileData.activity v2)
  ∧ ProfileActivity.details (ProfileData.activity v1)
    = ProfileActivity.details (ProfileData.activity v2).

#[global] Instance same_look_dec v1 v2 : Decision (same_look v1 v2).
Proof. unfold same_look. apply _. Defined.

#[global] Instance same_look_equivalence : Equivalence same_look.
Proof.
  unfold same_look. split.
  - by intros v.
  - intros v1 v2 H. destruct_and!. by split_and!.
  - intros v1 v2 v3 H1 H2. destruct_and!. split_and!; congruence.
Qed.

(** The statuses the switch has a case for. *)
Definition statuses : list string := ["online"; "dnd"; "idle"; "offline"].

(** The lines of the third card. *)
Definition about_lines : list string :=
  ["@loneweeb > about me"; "about me"; "ϡ 17 years old"; "ϡ straight male";
   "ϡ looking for my soulmate"; "ϡ indian"].

(** [discordStatus !== "offline" ? discordStatus : "unknown"], the second
    status line. *)
Definition status2 (profileData : ProfileData.t) : string :=
  let discordStatus := ProfileData.discordStatus profileData in
  if negb (bool_decide (discordStatus = "offline")) then discordStatus
  else "unknown".

(** The identifiers of the first card. *)
Definition home_ids : list string :=
  ["pfp"; "status-dot"; "username"; "status"; "status2"].

#[global] Arguments getStatusStyles : simpl never.

(** The text of an element whose only child is a text. *)
Ltac text_leaf :=
  lazymatch goal with
  | |- text_at _ _ = Some ?s =>
      change (Some (s +:+ "") = Some s); by autorewrite with js
  end.

(** ** Trees in general *)
Section trees.
Implicit Types (n m : node) (i : string) (ns : list node).

Lemma first_some_Some {A B} (f : A → option B) l b :
  first_some f l = Some b → ∃ a, a ∈ l ∧ f a = Some b.
Proof.
  induction l as [|a l IH]; [done|]. simpl.
  destruct (f a) as [b'|] eqn:E.
  - intros [= ->]. exists a. split; [left|done].
  - intros (a' & ? & ?)%IH. exists a'. split; [by right|done].
Qed.

Lemma first_some_is_Some {A B} (f : A → option B) l :
  is_Some (first_some f l) ↔ Exists (λ a, is_Some (f a)) l.
Proof.
  induction l as [|a l IH]; simpl.
  - split; [by intros [??]|by intros ?%Exists_nil].
  - rewrite Exists_cons, <-IH. destruct (f a) as [b|]; split; eauto.
    intros [[??]|?]; done.
Qed.

Lemma id_of_option_list i n : i ∈ option_list (id_of n) ↔ id_of n = Some i.
Proof.
  destruct (id_of n) as [j|]; simpl.
  - rewrite list_elem_of_singleton. split; congruence.
  - split; [by intros ?%elem_of_nil|done].
Qed.

(** The element found has the identifier that was asked for. *)
Lemma getElementById_id i n m : getElementById i n = Some m → id_of m = Some i.
Proof.
  revert m.
  induction n as [tag attrs ns IH|v] using node_children_ind; intros m;
    simpl; [|done].
  case_decide as E; [by intros [= <-]|].
  intros (n' & Hn' & Hm)%first_some_Some.
  rewrite Forall_forall in IH. eauto.
Qed.

(** An identifier is found exactly when it occurs in the tree. *)
Lemma getElementById_ids i n : is_Some (getElementById i n) ↔ i ∈ ids n.
Proof.
  induction n as [tag attrs ns IH|v] using node_children_ind; simpl.
  2:{ split; [by intros [??]|by intros ?%elem_of_nil]. }
  rewrite elem_of_app, id_of_option_list, list_elem_of_bind.
  case_decide as E; [split; eauto|].
  rewrite first_some_is_Some, (Exists_iff_Forall _ _ _ IH), Exists_exists.
  split; [intros (n & ? & ?); eauto|]. intros [?|(n & ? & ?)]; [done|eauto].
Qed.

(** What is displayed is part of the tree. *)
Lemma displayed_ids n : displayed n ⊆ ids n.
Proof.
  induction n as [tag attrs ns IH|v] using node_children_ind; simpl; [|done].
  destruct (is_hidden _); [apply list_subseteq_nil|].
  intros i. rewrite !elem_of_app, !list_elem_of_bind.
  intros [?|(n & Hi & Hn)]; [by left|right]. exists n. split; [|done].
  rewrite Forall_forall in IH. by apply IH.
Qed.

Lemma visible_shown tag attrs children :
  is_hidden (Elem tag attrs children) = false
  → visible_text (Elem tag attrs children) = children ≫= visible_text.
Proof. intros H. cbn [visible_text]. by rewrite H. Qed.

Lemma visible_Text (x : option string) : visible_text (Text x) = line x.
Proof. done. Qed.

Lemma visible_leaf tag attrs : visible_text (Elem tag attrs []) = [].
Proof. cbn [visible_text]. by destruct (is_hidden _). Qed.

End trees.

(** The lines of a tree whose hidden elements are known: the elements
    that are displayed are unfolded into their children. *)
Ltac visible_lines :=
  repeat first
    [ rewrite visible_leaf
    | rewrite visible_Text
    | rewrite bind_cons
    | rewrite bind_nil
    | rewrite visible_shown by reflexivity ];
  rewrite ?app_nil_r, ?app_nil_l.

(** ** The style of the status dot *)
Section styles.
Implicit Types (v : ProfileData.t).

Lemma getStatusStyles_cases v :
  (ProfileData.discordStatus v = "online"
   ∧ getStatusStyles v
     = StatusStyles.mk (Some "#3ba45d") (Some "Online") (Some "#3ba45d")
         (Some (Qmake 1 1)))
  ∨ (ProfileData.discordStatus v = "dnd"
     ∧ getStatusStyles v
       = StatusStyles.mk (Some "#ed4245") (Some "Do not disturb")
           (Some "#ed4245") (Some (Qmake 1 1)))
  ∨ (ProfileData.discordStatus v = "idle"
     ∧ getStatusStyles v
       = StatusStyles.mk (Some "#faa81a") (Some "Idle") (Some "#faa81a")
           (Some (Qmake 1 1)))
  ∨ (ProfileData.discordStatus v = "offline"
     ∧ getStatusStyles v
       = StatusStyles.mk (Some "#747e8c") (Some "Offline") (Some "unset")
           (Some (Qmake 1 2)))
  ∨ ((ProfileData.discordStatus v ∉ statuses)
     ∧ getStatusStyles v = StatusStyles.empty).
Proof.
  unfold getStatusStyles, statuses. cbv zeta.
  repeat case_decide; eauto 6.
  do 4 right. split; [|done]. in_list.
Qed.

(** C31: a status that is not one of the four the switch knows gives the
    empty style, and only such a status does. *)
Theorem getStatusStyles_default v :
  getStatusStyles v = StatusStyles.empty
  ↔ ProfileData.discordStatus v ∉ statuses.
Proof.
  unfold statuses.
  destruct (getStatusStyles_cases v) as [H|[H|[H|[H|H]]]];
    destruct H as [Hs ->]; split; try done; in_list.
Qed.

(** C30: the dot is dimmed to one half exactly when the status is
    offline; for the three other known statuses it is opaque and its
    colour is its background. *)
Theorem getStatusStyles_opacity v :
  (StatusStyles.opacity (getStatusStyles v) = Some (Qmake 1 2)
   ↔ ProfileData.discordStatus v = "offline")
  ∧ (ProfileData.discordStatus v ∈ ["online"; "dnd"; "idle"]
     → StatusStyles.opacity (getStatusStyles v) = Some (Qmake 1 1)
       ∧ StatusStyles.color (getStatusStyles v)
         = StatusStyles.background (getStatusStyles v)).
Proof.
  unfold StatusStyles.empty.
  destruct (getStatusStyles_cases v) as [H|[H|[H|[H|H]]]];
    destruct H as [Hs ->]; unfold statuses in Hs;
    cbn [StatusStyles.opacity StatusStyles.color StatusStyles.background];
    (split; [split; intros E|intros Hin]);
    try done; try congruence; in_list.
Qed.

(** the background tells the four known statuses apart. *)
Theorem getStatusStyles_injective v v' :
  ProfileData.discordStatus v ∈ statuses
  → StatusStyles.background (getStatusStyles v)
    = StatusStyles.background (getStatusStyles v')
  → ProfileData.discordStatus v = ProfileData.discordStatus v'.
Proof.
  intros Hin.
  destruct (getStatusStyles_cases v) as [H|[H|[H|[H|H]]]];
    destruct H as [Hs ->]; [| | | |done];
    destruct (getStatusStyles_cases v') as [H|[H|[H|[H|H]]]];
    destruct H as [Hs' ->]; simpl; intros; simplify_eq; congruence.
Qed.

End styles.

Lemma getStatusStyles_injective_witness :
  ProfileData.discordStatus
    (ProfileData.mk "a.png" "idle" "@a" ""
       (ProfileData.activity (ProfileData.initial "")))
  = ProfileData.discordStatus
      (ProfileData.mk "b.png" "idle" "@b" ""
         (ProfileData.activity (ProfileData.initial ""))).
Proof.
  apply getStatusStyles_injective; [|reflexivity].
  unfold statuses. in_list.
Defined.

(** ** What is on the screen *)

(** The markup depends on the look of the view state only. *)
#[global] Instance getStatusStyles_proper :
  Proper (same_look ==> (=)) getStatusStyles.
Proof.
  intros v1 v2 (_ & Hs & _). unfold getStatusStyles. by rewrite Hs.
Qed.

#[global] Instance render_proper : Proper (same_look ==> (=)) render.
Proof.
  intros v1 v2 H. pose proof (getStatusStyles_proper _ _ H) as Hg.
  destruct H as (Ha & Hs & Hu & Hst & Hh & Hb & Hsm & Hn & Hstate & Hd).
  unfold render, homeCard, activityCard.
  by rewrite Ha, Hs, Hu, Hst, Hh, Hb, Hsm, Hn, Hstate, Hd, Hg.
Qed.

Section screen.
Implicit Types (v : ProfileData.t) (x : option string) (i : string).

Lemma hiddenUnless_eq (x : option string) :
  hiddenUnless x = if truthy x then "" else "hidden".
Proof. unfold hiddenUnless. by destruct (truthy x). Qed.

Lemma visible_part i x :
  visible_text (Elem "div" [Id i; ClassName (hiddenUnless x)] [Text x])
  = line x.
Proof.
  rewrite hiddenUnless_eq. unfold line. cbn [visible_text].
  destruct (truthy x) eqn:E; [|done].
  change (line x ++ [] = [default "" x]). unfold line.
  by rewrite E.
Qed.

Lemma part_elem_of i j x : i ∈ part j x ↔ i = j ∧ truthy x = true.
Proof. unfold part. destruct (truthy x); in_list. Qed.

Lemma part_default i (o : option string) :
  part i (Some (default "" o)) = part i o.
Proof. by destruct o. Qed.

Lemma part_truthy i x : truthy x = true → part i x = [i].
Proof. unfold part. by intros ->. Qed.

Lemma displayed_homeCard v : displayed (homeCard v) = home_ids.
Proof. reflexivity. Qed.

Lemma displayed_aboutCard : displayed aboutCard = [].
Proof. reflexivity. Qed.

Lemma displayed_activityCard v :
  displayed (activityCard v)
  = if ProfileActivity.hidden (ProfileData.activity v) then []
    else part "activity-big-image"
           (ProfileActivity.bigImage (ProfileData.activity v))
         ++ part "activity-small-image"
              (ProfileActivity.smallImage (ProfileData.activity v))
         ++ part "activity-name"
              (ProfileActivity.name (ProfileData.activity v))
         ++ part "activity-state"
              (ProfileActivity.state (ProfileData.activity v))
         ++ part "activity-detail"
              (ProfileActivity.details (ProfileData.activity v)).
Proof.
  unfold activityCard, part. rewrite !hiddenUnless_eq.
  destruct (ProfileActivity.hidden _); [reflexivity|].
  repeat match goal with |- context [truthy ?x] => destruct (truthy x) end;
    reflexivity.
Qed.

Lemma displayed_render v :
  displayed (render v) = home_ids ++ displayed (activityCard v).
Proof.
  change (displayed (render v))
    with (displayed (homeCard v) ++ displayed (activityCard v)
          ++ displayed aboutCard ++ []).
  by rewrite displayed_homeCard, displayed_aboutCard, !app_nil_r.
Qed.

Lemma visible_homeCard v :
  visible_text (homeCard v)
  = ["@loneweeb > home"] ++ line (Some (ProfileData.username v))
    ++ line (Some (ProfileData.status v)) ++ line (Some (status2 v)).
Proof.
  unfold homeCard, status2. by visible_lines.
Qed.

Lemma visible_activityCard v :
  visible_text (activityCard v)
  = if ProfileActivity.hidden (ProfileData.activity v) then []
    else ["@loneweeb > activity"]
         ++ line (ProfileActivity.name (ProfileData.activity v))
         ++ line (ProfileActivity.state (ProfileData.activity v))
         ++ line (ProfileActivity.details (ProfileData.activity v)).
Proof.
  unfold activityCard. destruct (ProfileActivity.hidden _); [reflexivity|].
  visible_lines. by rewrite !visible_part.
Qed.

Lemma visible_aboutCard : visible_text aboutCard = about_lines.
Proof. reflexivity. Qed.

Lemma text_at_status v :
  text_at "status" (render v) = Some (ProfileData.status v).
Proof. text_leaf. Qed.

Lemma text_at_status2 v :
  text_at "status2" (render v)
  = Some (if decide (ProfileData.discordStatus v = "offline")
          then "unknown" else ProfileData.discordStatus v).
Proof.
  transitivity
    (Some (if negb (bool_decide (ProfileData.discordStatus v = "offline"))
           then ProfileData.discordStatus v else "unknown")); [text_leaf|].
  js_crush.
Qed.

Lemma text_at_activity_name v :
  text_at "activity-name" (render v)
  = Some (default "" (ProfileActivity.name (ProfileData.activity v))).
Proof. text_leaf. Qed.

(** The identifiers of the markup are the same ten for every view
    state, and no two elements share one. *)
Lemma render_ids v :
  ids (render v)
  = home_ids ++ ["activity-big-image"; "activity-small-image";
                 "activity-name"; "activity-state"; "activity-detail"]
  ∧ NoDup (ids (render v)).
Proof.
  split; [reflexivity|].
  change (ids (render v)) with (ids (render (ProfileData.initial ""))).
  apply (bool_decide_unpack (NoDup _)). exact I.
Qed.

(** C18: what is displayed.  The first card is always displayed; the parts
    of the activity card are displayed when the card is not hidden and the
    part is neither undefined nor empty. *)
Theorem render_displayed v :
  displayed (render v)
  = home_ids
    ++ if ProfileActivity.hidden (ProfileData.activity v) then []
       else part "activity-big-image"
              (ProfileActivity.bigImage (ProfileData.activity v))
            ++ part "activity-small-image"
                 (ProfileActivity.smallImage (ProfileData.activity v))
            ++ part "activity-name"
                 (ProfileActivity.name (ProfileData.activity v))
            ++ part "activity-state"
                 (ProfileActivity.state (ProfileData.activity v))
            ++ part "activity-detail"
                 (ProfileActivity.details (ProfileData.activity v)).
Proof. by rewrite displayed_render, displayed_activityCard. Qed.

(** C19: the text on the page.  The page shows the title of the first
    card, the user name and the two status lines when they are not
    empty; then, unless the activity is hidden, the title of the activity
    card and the lines of the activity that are neither undefined nor
    empty; then the third card.  A hidden activity card shows nothing,
    its title included. *)
Theorem render_visible_text v :
  visible_text (render v)
  = ["@loneweeb > home"]
    ++ line (Some (ProfileData.username v))
    ++ line (Some (ProfileData.status v))
    ++ line (Some (status2 v))
    ++ (if ProfileActivity.hidden (ProfileData.activity v) then []
        else ["@loneweeb > activity"]
             ++ line (ProfileActivity.name (ProfileData.activity v))
             ++ line (ProfileActivity.state (ProfileData.activity v))
             ++ line (ProfileActivity.details (ProfileData.activity v)))
    ++ about_lines.
Proof.
  change (visible_text (render v))
    with (visible_text (homeCard v) ++ visible_text (activityCard v)
          ++ visible_text aboutCard ++ []).
  rewrite visible_homeCard, visible_activityCard, visible_aboutCard.
  by rewrite app_nil_r, <-!app_assoc.
Qed.

(** C32: the lines of text.  The user name and the status line are the
    fields of the view state; the second status line is the status, or
    [unknown] for the status offline; the lines of the activity are its
    fields, and nothing for an undefined one. *)
Theorem render_text v :
  text_at "username" (render v) = Some (ProfileData.username v)
  ∧ text_at "status" (render v) = Some (ProfileData.status v)
  ∧ text_at "status2" (render v)
    = Some (if decide (ProfileData.discordStatus v = "offline")
            then "unknown" else ProfileData.discordStatus v)
  ∧ text_at "activity-name" (render v)
    = Some (default "" (ProfileActivity.name (ProfileData.activity v)))
  ∧ text_at "activity-state" (render v)
    = Some (default "" (ProfileActivity.state (ProfileData.activity v)))
  ∧ text_at "activity-detail" (render v)
    = Some (default "" (ProfileActivity.details (ProfileData.activity v))).
Proof.
  split_and!; try text_leaf; apply text_at_status2.
Qed.

(** C33: the images and the dot.  The picture is the avatar, the two
    images of the activity are its two image fields, undefined included;
    the status dot carries its identifier, the status as label and, as
    style, the whole object [getStatusStyles] returns, title included:
    the title is a key of the style, not an attribute of the dot. *)
Theorem render_sources v :
  src_at "pfp" (render v) = Some (ProfileData.avatar v)
  ∧ src_at "activity-big-image" (render v)
    = ProfileActivity.bigImage (ProfileData.activity v)
  ∧ src_at "activity-small-image" (render v)
    = ProfileActivity.smallImage (ProfileData.activity v)
  ∧ attrs_of <$> getElementById "status-dot" (render v)
    = Some [Id "status-dot"; AriaLabel (ProfileData.discordStatus v);
            Style (getStatusStyles v)].
Proof. split_and!; reflexivity. Qed.

(** C34: the title of the big image is not part of the markup: two view
    states that agree on every other field are rendered the same. *)
Theorem render_bigImageTitle_unused v v' :
  same_look v v' → render v = render v'.
Proof. intros H. by rewrite H. Qed.

End screen.

Lemma render_bigImageTitle_unused_witness :
  render
    (ProfileData.mk "a.png" "dnd" "@a" ""
       (ProfileActivity.mk false (Some "art.png") (Some "Album") (Some "")
          (Some "Spotify") (Some "Artist") (Some "Song")))
  = render
      (ProfileData.mk "a.png" "dnd" "@a" ""
         (ProfileActivity.mk false (Some "art.png") None (Some "")
            (Some "Spotify") (Some "Artist") (Some "Song"))).
Proof. apply render_bigImageTitle_unused. by repeat split. Defined.

End Render.
