(* ===== verification/Widget.v ===== *)
(** * The widget: the scheduler instantiated with the fetcher

    [LanyardProfile] is the cell of [useState], the function
    [fetchUserData] and the effect of [useEffect].  Here the fetcher of
    [Fetch] is shown to meet the interface the scheduler of [Scheduler] is
    written against, and the loop is run on it: what the widget shows
    after any schedule, and the two schedules that the design of the
    source leaves open (a stale answer that arrives last, an answer that
    arrives after the widget is unmounted).  The theorems of [Scheduler]
    are applied here to concrete runs of the widget. *)

From S2P Require Import Prelude JsValue Lanyard Normalize Fetch Scheduler.
From S2P Require Import Dynamic Answer Render.
Import JsValue Normalize Scheduler Render.

Module Widget.

(** The fetcher of the widget meets the interface of the scheduler. *)
#[global] Instance fetcher : Fetcher Fetch.t Fetch.outcome ProfileData.t := {|
  settle := Fetch.fetchUserData;
  shown := Fetch.profileData;
  failed := Fetch.has_failed;
  settle_failed := Fetch.profileData_has_failed;
|}.

(** The component before its first render is committed: the cell of
    [useState] holds the initial view state, nothing is scheduled. *)
Definition LanyardProfile (loader : string) : state Fetch.t :=
  init (Fetch.initial loader).

(** The component at run time, before its first render is committed. *)
Definition LanyardProfile_untyped (loader : string) : state Answer.t :=
  init (Answer.initial loader).

(** What the component returns when it is rendered in a state of the
    loop. *)
Definition screen (s : state Fetch.t) : node :=
  render (Fetch.profileData (widget s)).

(** An ordinary second of the life of the widget: mounted, one answer,
    a tick, a failure. *)
Definition ordinary : list (event Fetch.outcome) :=
  [Mount; Settle 0 (Fetch.Fulfilled Samples.online_game); Tick;
   Settle 1 (Fetch.Rejected "TypeError: Failed to fetch")].

(** A second in which the service cannot be reached. *)
Definition unreachable : list (event Fetch.outcome) :=
  [Mount; Settle 0 (Fetch.Rejected "TypeError: Failed to fetch"); Tick;
   Settle 1 (Fetch.BadBody "SyntaxError: Unexpected token")].

(** The widget with two calls under way: mounted, then one tick. *)
Definition overlapping (loader : string) : state Fetch.t :=
  tick (mount (LanyardProfile loader)).

Section facts.
Implicit Types (es : list (event Fetch.outcome)) (s : state Fetch.t).
Implicit Types (w : Fetch.t) (d : LanyardData.t) (i j : nat).

Lemma reachable_overlapping loader :
  reachable (Fetch.initial loader) (overlapping loader).
Proof.
  eapply reachable_step; [eapply reachable_step; [apply reachable_init|]|].
  - by apply step_mount.
  - by eapply step_tick.
Qed.

(** C6: last write wins, over every schedule.  After any run of the loop
    the view state is the normalised payload of the call that was
    fulfilled last, in the order in which the calls ended, and the view
    state of the start when no call was fulfilled; the screen is its
    rendering; the console holds the errors of the failed calls in the
    order in which they ended. *)
Theorem view_after_run w es s :
  exec_all es (init w) = Some s
  → Fetch.profileData (widget s)
    = from_option normalize (Fetch.profileData w)
        (Fetch.last_fulfilled (settled es))
    ∧ screen s
      = render (from_option normalize (Fetch.profileData w)
                  (Fetch.last_fulfilled (settled es)))
    ∧ Fetch.console (widget s)
      = Fetch.console w ++ Fetch.errors (settled es).
Proof.
  unfold screen. intros E. rewrite (widget_exec_all _ _ _ E).
  change (fold_left _ (settled es) w) with (Fetch.run (settled es) w).
  by rewrite Fetch.run_profileData, Fetch.run_console.
Qed.

(** What the widget shows once a call has ended with a payload. *)
Lemma shown_Fulfilled d w :
  Fetch.profileData (settle (Fetch.Fulfilled d) w) = normalize d.
Proof. apply (f_equal Fetch.profileData (Fetch.fetchUserData_Fulfilled _ _)). Qed.

Lemma screen_settle_Fulfilled i d s :
  screen (settle_call i (Fetch.Fulfilled d) s) = render (normalize d).
Proof. apply (f_equal render), shown_Fulfilled. Qed.

(** C22: until a call is fulfilled.  Under every schedule in which no
    call has been fulfilled yet (none has ended, or all have failed) the
    page shows the loader as picture, a dot without style, no user name
    and no status line, and nothing of the activity card, its title
    included: the text on the page is the title of the first card and
    the third card. *)
Theorem screen_loading loader es s :
  exec_all es (LanyardProfile loader) = Some s
  → Fetch.last_fulfilled (settled es) = None
  → visible_text (screen s) = "@loneweeb > home" :: about_lines
    ∧ displayed (screen s) = home_ids
    ∧ src_at "pfp" (screen s) = Some loader
    ∧ style_at "status-dot" (screen s) = Some StatusStyles.empty.
Proof.
  unfold screen, LanyardProfile. intros E Hnone.
  rewrite (widget_exec_all _ _ _ E).
  change (fold_left _ (settled es) (Fetch.initial loader))
    with (Fetch.run (settled es) (Fetch.initial loader)).
  rewrite Fetch.run_profileData, Hnone. split_and!; reflexivity.
Qed.

End facts.

(** ** The typed widget and the widget at run time *)
Section untyped.
Implicit Types (es : list (event Fetch.outcome)).
Implicit Types (answers : list (event Answer.answer)).

(** C15: the typed widget is the widget at run time.  Under a schedule
    whose answers the outcomes of a typed schedule stand for, the widget
    at run time has a run exactly when the typed widget has one, and
    then its timer, its calls and its phase are those of the typed
    widget and its state is the state of the typed widget seen
    untyped. *)
Theorem untyped_widget_refines es answers loader :
  Forall2 (event_rel Answer.abstracts) es answers
  → option_Forall2 (state_rel (λ w1 w2, w2 = Answer.untyped_cell w1))
      (exec_all es (LanyardProfile loader))
      (exec_all answers (LanyardProfile_untyped loader)).
Proof.
  intros Hes. apply (exec_all_sim _ Answer.abstracts); [|done|done].
  intros o a w1 w2 Ha ->. exact (Answer.fetchUserData_abstracts o a w1 Ha).
Qed.

End untyped.

(** ** From the payload to the screen

    The screen once a call has ended with a payload, whatever the state
    of the loop was. *)
Section display.
Context (data : LanyardData.t) (s : state Fetch.t) (i : nat).
#[local] Abbreviation cur := (currentActivity (LanyardData.activities data)).
#[local] Abbreviation answer := (settle_call i (Fetch.Fulfilled data) s).

Lemma displayed_normalize :
  displayed (render (normalize data))
  = home_ids
    ++ if bool_decide (LanyardData.discord_status data = "offline") then []
       else part "activity-big-image" (bigImage_of data)
            ++ part "activity-small-image" (smallImage_of data)
            ++ ["activity-name"]
            ++ part "activity-state" (cur ≫= Activity.state)
            ++ part "activity-detail" (cur ≫= Activity.details).
Proof.
  rewrite displayed_render, displayed_activityCard, hidden_normalize,
    bigImage_normalize, smallImage_normalize, name_normalize,
    state_normalize, details_normalize.
  case_bool_decide; [done|]. rewrite !part_default.
  by rewrite (part_truthy "activity-name") by by apply truthy_js_or.
Qed.

(** C20: an offline user.  When the status of the payload is offline
    nothing of the activity is displayed, the status line is empty, the
    second status line reads unknown, and the dot is grey and dimmed. *)
Theorem screen_offline :
  LanyardData.discord_status data = "offline"
  → displayed (screen answer) = home_ids
    ∧ text_at "status" (screen answer) = Some ""
    ∧ text_at "status2" (screen answer) = Some "unknown"
    ∧ style_at "status-dot" (screen answer)
      = Some (StatusStyles.mk (Some "#747e8c") (Some "Offline")
                (Some "unset") (Some (QArith_base.Qmake 1 2))).
Proof.
  intros E. rewrite screen_settle_Fulfilled, displayed_normalize,
    text_at_status, text_at_status2, status_normalize,
    discordStatus_normalize, E.
  split_and!; try done.
  change (Some (getStatusStyles (normalize data)) = Some (getStatusStyles
    (ProfileData.mk "" "offline" "" "" (ProfileData.activity (normalize data))))).
  unfold getStatusStyles. by rewrite discordStatus_normalize, E.
Qed.

(** C21: a user with no activity to show.  When the user is not offline
    and the activities are empty or all custom statuses, the activity
    card shows the placeholder name and a small image whose address is
    built from two undefined values; the big image, the state and the
    details are not displayed. *)
Theorem screen_no_activity :
  LanyardData.discord_status data ≠ "offline"
  → Forall (λ a, Activity.type a = 4%Z) (LanyardData.activities data)
  → displayed (screen answer)
    = home_ids ++ ["activity-small-image"; "activity-name"]
    ∧ src_at "activity-small-image" (screen answer)
      = Some "https://cdn.discordapp.com/app-assets/undefined/undefined.png"
    ∧ text_at "activity-name" (screen answer) = Some "doing yo moma".
Proof.
  intros Hon E%currentActivity_custom.
  rewrite screen_settle_Fulfilled, displayed_normalize,
    text_at_activity_name, bool_decide_eq_false_2 by done.
  unfold bigImage_of, smallImage_of. rewrite E, (normalize_None data E).
  done.
Qed.

(** C35: the name of the activity is displayed whenever the user is not
    offline: an empty or missing name is replaced by the placeholder. *)
Theorem screen_name_displayed :
  LanyardData.discord_status data ≠ "offline"
  → "activity-name" ∈ displayed (screen answer)
    ∧ text_at "activity-name" (screen answer) ≠ Some "".
Proof.
  intros Hon. rewrite screen_settle_Fulfilled, displayed_normalize,
    bool_decide_eq_false_2 by done.
  split; [rewrite !elem_of_app; do 3 right; left; by left|].
  rewrite text_at_activity_name, name_normalize. simpl.
  destruct cur as [a|]; simpl; [|done]. unfold js_or.
  destruct (truthy (Activity.name a)) eqn:Ha; [|done].
  intros [= Hn]. by rewrite Hn in Ha.
Qed.

End display.

(** ** The theorems on runs of the widget *)

Lemma view_after_run_witness :
  ∃ s, exec_all ordinary (LanyardProfile "l.gif") = Some s
    ∧ Fetch.profileData (widget s)
      = from_option normalize (ProfileData.initial "l.gif")
          (Fetch.last_fulfilled (settled ordinary))
    ∧ screen s
      = render (from_option normalize (ProfileData.initial "l.gif")
                  (Fetch.last_fulfilled (settled ordinary)))
    ∧ Fetch.console (widget s) = [] ++ Fetch.errors (settled ordinary).
Proof.
  eexists. split; [reflexivity|].
  apply (view_after_run (Fetch.initial "l.gif") ordinary). reflexivity.
Defined.

Lemma untyped_widget_refines_witness :
  option_Forall2 (state_rel (λ w1 w2, w2 = Answer.untyped_cell w1))
    (exec_all ordinary (LanyardProfile "l.gif"))
    (exec_all
       [Mount;
        Settle 0 (Answer.Body (Dynamic.body_of Samples.online_game));
        Tick; Settle 1 (Answer.NetworkError "TypeError: Failed to fetch")]
       (LanyardProfile_untyped "l.gif")).
Proof.
  apply (untyped_widget_refines ordinary). repeat constructor.
Defined.

Lemma screen_loading_witness :
  ∃ s, exec_all unreachable (LanyardProfile "l.gif") = Some s
    ∧ visible_text (screen s) = "@loneweeb > home" :: about_lines
    ∧ displayed (screen s) = home_ids
    ∧ src_at "pfp" (screen s) = Some "l.gif"
    ∧ style_at "status-dot" (screen s) = Some StatusStyles.empty.
Proof.
  eexists. split; [reflexivity|].
  apply (screen_loading "l.gif" unreachable); reflexivity.
Defined.

Lemma screen_offline_witness :
  displayed (screen (settle_call 0 (Fetch.Fulfilled Samples.offline)
                       (mount (LanyardProfile "l.gif")))) = home_ids
  ∧ text_at "status"
      (screen (settle_call 0 (Fetch.Fulfilled Samples.offline)
                 (mount (LanyardProfile "l.gif")))) = Some ""
  ∧ text_at "status2"
      (screen (settle_call 0 (Fetch.Fulfilled Samples.offline)
                 (mount (LanyardProfile "l.gif")))) = Some "unknown"
  ∧ style_at "status-dot"
      (screen (settle_call 0 (Fetch.Fulfilled Samples.offline)
                 (mount (LanyardProfile "l.gif"))))
    = Some (StatusStyles.mk (Some "#747e8c") (Some "Offline")
              (Some "unset") (Some (QArith_base.Qmake 1 2))).
Proof. apply (screen_offline Samples.offline). reflexivity. Defined.

Lemma screen_no_activity_witness :
  displayed (screen (settle_call 0 (Fetch.Fulfilled Samples.online_custom_only)
                       (mount (LanyardProfile "l.gif"))))
  = home_ids ++ ["activity-small-image"; "activity-name"]
  ∧ src_at "activity-small-image"
      (screen (settle_call 0 (Fetch.Fulfilled Samples.online_custom_only)
                 (mount (LanyardProfile "l.gif"))))
    = Some "https://cdn.discordapp.com/app-assets/undefined/undefined.png"
  ∧ text_at "activity-name"
      (screen (settle_call 0 (Fetch.Fulfilled Samples.online_custom_only)
                 (mount (LanyardProfile "l.gif"))))
    = Some "doing yo moma".
Proof.
  apply (screen_no_activity Samples.online_custom_only);
    [discriminate|repeat constructor].
Defined.

Lemma screen_name_displayed_witness :
  "activity-name"
  ∈ displayed (screen (settle_call 0 (Fetch.Fulfilled Samples.online_game)
                         (mount (LanyardProfile "l.gif"))))
  ∧ text_at "activity-name"
      (screen (settle_call 0 (Fetch.Fulfilled Samples.online_game)
                 (mount (LanyardProfile "l.gif"))))
    ≠ Some "".
Proof. apply (screen_name_displayed Samples.online_game). discriminate. Defined.

Lemma stale_answer_wins_witness :
  ∃ s1 s2,
    exec (Settle 1 (Fetch.Fulfilled Samples.dnd_listening))
      (overlapping "l.gif") = Some s1
    ∧ screen s1 = render (normalize Samples.dnd_listening)
    ∧ exec (Settle 0 (Fetch.Fulfilled Samples.online_game)) s1 = Some s2
    ∧ screen s2 = render (normalize Samples.online_game).
Proof.
  destruct (stale_answer_wins (overlapping "l.gif") 0 1
              (Fetch.Fulfilled Samples.online_game)
              (Fetch.Fulfilled Samples.dnd_listening))
    as (s1 & s2 & E1 & W1 & E2 & W2); [repeat constructor..|lia|].
  exists s1, s2. unfold screen. rewrite W1, W2.
  split_and!; [done| |done|]; apply (f_equal render), shown_Fulfilled.
Defined.

Lemma write_after_unmount_witness :
  ∃ s', exec_all [Unmount; Settle 0 (Fetch.Fulfilled Samples.online_game)]
          (mount (LanyardProfile "l.gif")) = Some s'
    ∧ life s' = Disposed ∧ interval s' = None
    ∧ screen s' = render (normalize Samples.online_game).
Proof.
  destruct (write_after_unmount (mount (LanyardProfile "l.gif")) 0
              (Fetch.Fulfilled Samples.online_game))
    as (s' & E & Hl & Hi & Hw); [reflexivity|repeat constructor|].
  exists s'. unfold screen. rewrite Hw.
  split_and!; [done..|]. apply (f_equal render), shown_Fulfilled.
Defined.

Lemma timer_registered_iff_mounted_witness :
  (is_Some (interval (overlapping "l.gif"))
   ↔ life (overlapping "l.gif") = Mounted)
  ∧ timers (overlapping "l.gif") ≤ 1.
Proof.
  apply (timer_registered_iff_mounted (Fetch.initial "l.gif")).
  apply reachable_overlapping.
Defined.

Lemma disposed_is_quiet_witness :
  ∃ s', exec_all [Settle 1 (Fetch.Fulfilled Samples.online_game)]
          (unmount (overlapping "l.gif")) = Some s'
    ∧ life s' = Disposed ∧ interval s' = None ∧ started s' = 2
    ∧ timers s' = 1.
Proof.
  eexists. split; [reflexivity|].
  apply (disposed_is_quiet (Fetch.initial "l.gif")
           (unmount (overlapping "l.gif"))
           [Settle 1 (Fetch.Fulfilled Samples.online_game)]);
    [|reflexivity..].
  eapply reachable_step; [apply reachable_overlapping|by apply step_unmount].
Defined.

Lemma calls_accounting_witness :
  ∃ s, exec_all ordinary (LanyardProfile "l.gif") = Some s
    ∧ started s = starts ordinary
    ∧ length (pending s) + length (settled ordinary) = starts ordinary.
Proof.
  eexists. split; [reflexivity|].
  apply (calls_accounting (Fetch.initial "l.gif") ordinary). reflexivity.
Defined.

Lemma failures_keep_view_witness :
  ∃ s, exec_all unreachable (LanyardProfile "l.gif") = Some s
    ∧ Fetch.profileData (widget s) = ProfileData.initial "l.gif".
Proof.
  eexists. split; [reflexivity|].
  refine (failures_keep_view (Fetch.initial "l.gif") unreachable _ eq_refl _).
  repeat constructor.
Defined.

End Widget.
